(** * The in-page chat widget of [browser_extension/content.js]

    A shallow embedding of the content script: name cleaning and identity
    detection, the drag handlers, the message channel, the renderer's
    escaping and the paste handler, with the properties the specification
    states about them. *)

From Stdlib Require Import List NArith ZArith Lia Bool String Ascii.
Import ListNotations.

(** ** JavaScript strings

    A JavaScript string is a sequence of UTF-16 code units.  The string
    builtins the script uses ([trim], [includes], [split], [toLowerCase])
    are modelled on code units, as ECMAScript defines them. *)
Module JsString.

Definition jsstring := list N.

(** A string literal of the source (ASCII only). *)
Definition js (s : string) : jsstring :=
  map N_of_ascii (list_ascii_of_string s).
Arguments js s%_string.

Definition isEmpty (s : jsstring) : bool :=
  match s with [] => true | _ => false end.

(** [x || y] on strings: the empty string is falsy. *)
Definition orElse (x y : jsstring) : jsstring :=
  if isEmpty x then y else x.

Fixpoint eqs (a b : jsstring) : bool :=
  match a, b with
  | [], [] => true
  | x :: a', y :: b' => N.eqb x y && eqs a' b'
  | _, _ => false
  end.

(** WhiteSpace and LineTerminator code points, the set [String.prototype.trim]
    strips. *)
Definition isWhite (c : N) : bool :=
  ((9 <=? c) && (c <=? 13) || (c =? 32) || (c =? 160) || (c =? 5760)
   || (8192 <=? c) && (c <=? 8202) || (c =? 8232) || (c =? 8233)
   || (c =? 8239) || (c =? 8287) || (c =? 12288) || (c =? 65279))%N.

Fixpoint trimStart (s : jsstring) : jsstring :=
  match s with
  | [] => []
  | c :: r => if isWhite c then trimStart r else s
  end.

Definition trimEnd (s : jsstring) : jsstring := rev (trimStart (rev s)).

Definition trim (s : jsstring) : jsstring := trimEnd (trimStart s).

Fixpoint isPrefix (p s : jsstring) : bool :=
  match p, s with
  | [], _ => true
  | x :: p', y :: s' => N.eqb x y && isPrefix p' s'
  | _ :: _, [] => false
  end.

(** [s.includes(needle)], case-sensitive. *)
Fixpoint includes (needle s : jsstring) : bool :=
  isPrefix needle s
  || match s with
     | [] => false
     | _ :: r => includes needle r
     end.

(** [s.split(sep)] for a one-unit separator. *)
Fixpoint splitOn (sep : N) (s : jsstring) : list jsstring :=
  match s with
  | [] => [[]]
  | c :: r =>
      if N.eqb c sep then [] :: splitOn sep r
      else match splitOn sep r with
           | [] => [[c]]
           | h :: t => (c :: h) :: t
           end
  end.

Definition isUpperAscii (c : N) : bool := ((65 <=? c) && (c <=? 90))%N.
Definition isLowerAscii (c : N) : bool := ((97 <=? c) && (c <=? 122))%N.

(** [toLowerCase]: the ASCII letters, and the two code points outside ASCII
    whose lower-case form contains an ASCII letter (U+0130, which becomes
    [i] followed by U+0307, and the Kelvin sign U+212A).  Every other unit
    outside ASCII maps to units outside ASCII; the script only searches the
    result for ASCII needles, so those are left as they are. *)
Definition lowerUnit (c : N) : jsstring :=
  if isUpperAscii c then [(c + 32)%N]
  else if N.eqb c 304 then [105%N; 775%N]
  else if N.eqb c 8490 then [107%N]
  else [c].

Definition toLowerCase (s : jsstring) : jsstring := flat_map lowerUnit s.

(** Canonicalize of a regular expression with the [i] flag and without the
    [u] flag: a unit is upper-cased, except that a unit outside ASCII is
    never mapped into ASCII.  The patterns of the script are ASCII, so only
    the ASCII part of the table is needed to compare against them. *)
Definition canonicalize (c : N) : N :=
  if isLowerAscii c then (c - 32)%N else c.

Definition unitEqCI (p c : N) : bool :=
  N.eqb (canonicalize p) (canonicalize c).

(** The pattern [p] matches at the head of [s], ignoring case. *)
Fixpoint isPrefixCI (p s : jsstring) : bool :=
  match p, s with
  | [], _ => true
  | x :: p', y :: s' => unitEqCI x y && isPrefixCI p' s'
  | _ :: _, [] => false
  end.

(** [s] is, ignoring case, exactly the pattern [p]. *)
Fixpoint matchCI (p s : jsstring) : bool :=
  match p, s with
  | [], [] => true
  | x :: p', y :: s' => unitEqCI x y && matchCI p' s'
  | _, _ => false
  end.

(** A case-insensitive search, as the specification words its filters. *)
Fixpoint includesCI (needle s : jsstring) : bool :=
  isPrefixCI needle s
  || match s with
     | [] => false
     | _ :: r => includesCI needle r
     end.

(** The pictographs of the script.  Its file holds each of them as a run of
    several units, and these are the units a page receives. *)
Definition bulletGlyph : jsstring := [8218%N; 196%N; 162%N].
Definition logoutGlyph : jsstring := [8218%N; 220%N; 169%N].
Definition closeGlyph : jsstring := [8218%N; 250%N; 239%N].
Definition warningGlyph : jsstring :=
  [8218%N; 246%N; 8224%N; 212%N; 8719%N; 232%N].
Definition waveGlyph : jsstring := [63743%N; 252%N; 235%N; 227%N].
Definition serviceGlyphs : list jsstring :=
  [ [63743%N; 252%N; 232%N; 245%N; 212%N; 8719%N; 232%N];
    [63743%N; 252%N; 236%N; 209%N];
    [63743%N; 252%N; 237%N; 8734%N];
    [63743%N; 252%N; 236%N; 227%N];
    [63743%N; 252%N; 236%N; 251%N];
    [8218%N; 232%N; 8734%N] ].

End JsString.
Import JsString.

(** ** Name cleaning *)
Module CleanName.

(** The alternatives of [/welcome|hello|hi|mr\.|ms\.|user:/gi], in order. *)
Definition greetingTokens : list jsstring :=
  [js "welcome"; js "hello"; js "hi"; js "mr."; js "ms."; js "user:"].

(** The alternative matched at the head of [s], as the length it consumes:
    the first alternative in order that matches. *)
Definition firstAlt (s : jsstring) : option nat :=
  option_map (@List.length N) (find (fun t => isPrefixCI t s) greetingTokens).

(** [text.replace(/.../gi, '')]: scan left to right; where an alternative
    matches, drop the matched units and resume after them; otherwise keep
    the unit.  [skip] counts the units of the current match still to drop. *)
Fixpoint strip (skip : nat) (s : jsstring) : jsstring :=
  match s with
  | [] => []
  | c :: r =>
      match skip with
      | S k => strip k r
      | O =>
          match firstAlt s with
          | Some (S n) => strip n r
          | _ => c :: strip 0 r
          end
      end
  end.

Definition stripTokens (s : jsstring) : jsstring := strip 0 s.

Definition cleanName (text : jsstring) : jsstring := trim (stripTokens text).

(** [occ] spells the pattern [tok] in some letter case: unit for unit it is
    the pattern's unit or, where that is a small letter, its capital. *)
Fixpoint spells (tok occ : jsstring) : bool :=
  match tok, occ with
  | [], [] => true
  | p :: tok', c :: occ' =>
      (N.eqb c p || ((97 <=? p) && (p <=? 122) && N.eqb c (p - 32))%N)
      && spells tok' occ'
  | _, _ => false
  end.

(** The units an occurrence can begin with: the first unit of a pattern,
    small or capital. *)
Definition isInitial (c : N) : bool :=
  existsb (fun t => match t with
                    | p :: _ => N.eqb c p || N.eqb c (p - 32)
                    | [] => false
                    end)
          greetingTokens.

(** Two patterns agree, ignoring case, on their common length. *)
Fixpoint agreeCI (a b : jsstring) : bool :=
  match a, b with
  | x :: a', y :: b' => unitEqCI x y && agreeCI a' b'
  | _, _ => true
  end.

(** No alternative can start inside an occurrence of another and run past
    its start: a proper suffix of one never agrees with the start of any. *)
Definition noOverlapCheck : bool :=
  forallb (fun t1 =>
    forallb (fun t2 =>
      forallb (fun k => negb (agreeCI (skipn k t1) t2))
              (seq 1 (List.length t1 - 1)))
      greetingTokens)
    greetingTokens.

(** Two alternatives that match at the same place have the same length. *)
Definition sameStartCheck : bool :=
  forallb (fun t1 =>
    forallb (fun t2 =>
      implb (agreeCI t1 t2) (Nat.eqb (List.length t1) (List.length t2)))
      greetingTokens)
    greetingTokens.

End CleanName.
Import CleanName.

(** ** The renderer's escaping *)
Module Html.

(** [escapeHtml]: the text is stored as the text content of a fresh element
    and read back as its [innerHTML].  The serialisation of a text node
    replaces [&], U+00A0, [<] and [>], in that order of tests, and leaves
    every other unit as it is. *)
Definition escapeUnit (c : N) : jsstring :=
  if N.eqb c 38 then js "&amp;"
  else if N.eqb c 160 then js "&nbsp;"
  else if N.eqb c 60 then js "&lt;"
  else if N.eqb c 62 then js "&gt;"
  else [c].

Definition escapeHtml (text : jsstring) : jsstring := flat_map escapeUnit text.

(** The character references the serialisation emits, with the unit each
    stands for. *)
Definition references : list (jsstring * N) :=
  [(js "&amp;", 38%N); (js "&nbsp;", 160%N); (js "&lt;", 60%N); (js "&gt;", 62%N)].

Definition referenceAt (s : jsstring) : option (nat * N) :=
  option_map (fun e => (List.length (fst e), snd e))
             (find (fun e => isPrefix (fst e) s) references).

(** The text a browser shows for markup that holds no tag: each character
    reference is replaced by its unit, everything else is shown as it is. *)
Fixpoint shown (skip : nat) (s : jsstring) : jsstring :=
  match s with
  | [] => []
  | c :: r =>
      match skip with
      | S k => shown k r
      | O =>
          match referenceAt s with
          | Some (S n, u) => u :: shown n r
          | _ => c :: shown 0 r
          end
      end
  end.

Definition shownText (html : jsstring) : jsstring := shown 0 html.

(** A tag can only start at a [<]. *)
Definition opensTag (html : jsstring) : bool := existsb (N.eqb 60) html.

End Html.
Import Html.

(** ** Session state, persistent store and the widget *)
Module Session.

Inductive Sender := SenderUser | SenderBot.

Record Message := mkMessage {
  sender : Sender;
  text : jsstring;
  image : option jsstring
}.

(** A CSS length as the script writes it: ['auto'], [`${n}px`], or the empty
    string an unset inline style reads as. *)
Inductive Css := Auto | Px (v : Z) | Unset.

Record Position := mkPosition {
  top : Css;
  left : Css;
  bottom : Css;
  right : Css
}.

Record State := mkState {
  isOpen : bool;
  messages : list Message;
  user : option jsstring;
  position : Position
}.

(** The initial value of the [state] variable. *)
Definition initialState : State :=
  {| isOpen := false;
     messages := [];
     user := None;
     position := {| top := Auto; left := Auto; bottom := Px 20; right := Px 20 |} |}.

(** Truthiness of [state.user]: [null] and the empty string are falsy. *)
Definition hasUser (s : State) : bool :=
  match user s with
  | Some (_ :: _) => true
  | _ => false
  end.

(** What a message element holds, in order. *)
Inductive Part :=
| Img (src : jsstring)            (* <img src="..." class="tn-message-image" /> *)
| UserText (html : jsstring)      (* <div>html</div> *)
| BotText (text : jsstring).      (* formatBotMessage(text) *)

(** A child of [#tn-chatbot-messages]. *)
Inductive Entry :=
| MessageEntry (isUser : bool) (content : list Part)
| ErrorEntry (html : jsstring).

(** [messageDiv.className]. *)
Definition entryClassName (e : Entry) : jsstring :=
  match e with
  | MessageEntry true _ => js "tn-message tn-user-message"
  | MessageEntry false _ => js "tn-message tn-bot-message"
  | ErrorEntry _ => js "tn-message tn-bot-message tn-error-message"
  end.

(** Lines written to the console. *)
Inductive LogLine :=
| FoundViaSelector (name : jsstring)
| FoundNearLogout (name : jsstring)
| UsingGuest
| SendError.

(** The variables [makeDraggable] closes over. *)
Record DragVars := mkDragVars {
  isDragging : bool;
  startX : Z;
  startY : Z;
  initialLeft : Z;
  initialTop : Z
}.

(** One call of [startUserDetection] that went on to observe: its mutation
    observer and its timer (the delay in milliseconds while it is pending). *)
Record Run := mkRun {
  connected : bool;
  timer : option N
}.

Record World := mkWorld {
  state : State;                  (* the [state] variable *)
  store : option State;           (* chrome.storage.local, key tnChatbotState *)
  pendingImage : option jsstring; (* the [pendingImage] variable *)
  preview : option jsstring;      (* image shown in #tn-image-preview *)
  inputValue : jsstring;          (* value of #tn-chatbot-input *)
  messagesDom : list Entry;       (* children of #tn-chatbot-messages *)
  userDisplay : jsstring;         (* text of #tn-user-display *)
  typing : bool;                  (* typing indicator shown *)
  hidden : bool;                  (* widget carries tn-chatbot-hidden *)
  style : Position;               (* inline style of the widget *)
  dragVars : DragVars;
  runs : list Run;
  console : list LogLine
}.

Definition setState (s : State) (w : World) : World :=
  mkWorld s (store w) (pendingImage w) (preview w) (inputValue w) (messagesDom w)
          (userDisplay w) (typing w) (hidden w) (style w) (dragVars w) (runs w) (console w).
Definition setStore (s : option State) (w : World) : World :=
  mkWorld (state w) s (pendingImage w) (preview w) (inputValue w) (messagesDom w)
          (userDisplay w) (typing w) (hidden w) (style w) (dragVars w) (runs w) (console w).
Definition setPendingImage (i : option jsstring) (w : World) : World :=
  mkWorld (state w) (store w) i (preview w) (inputValue w) (messagesDom w)
          (userDisplay w) (typing w) (hidden w) (style w) (dragVars w) (runs w) (console w).
Definition setPreview (i : option jsstring) (w : World) : World :=
  mkWorld (state w) (store w) (pendingImage w) i (inputValue w) (messagesDom w)
          (userDisplay w) (typing w) (hidden w) (style w) (dragVars w) (runs w) (console w).
Definition setInputValue (v : jsstring) (w : World) : World :=
  mkWorld (state w) (store w) (pendingImage w) (preview w) v (messagesDom w)
          (userDisplay w) (typing w) (hidden w) (style w) (dragVars w) (runs w) (console w).
Definition setMessagesDom (d : list Entry) (w : World) : World :=
  mkWorld (state w) (store w) (pendingImage w) (preview w) (inputValue w) d
          (userDisplay w) (typing w) (hidden w) (style w) (dragVars w) (runs w) (console w).
Definition setUserDisplay (t : jsstring) (w : World) : World :=
  mkWorld (state w) (store w) (pendingImage w) (preview w) (inputValue w) (messagesDom w)
          t (typing w) (hidden w) (style w) (dragVars w) (runs w) (console w).
Definition setTyping (b : bool) (w : World) : World :=
  mkWorld (state w) (store w) (pendingImage w) (preview w) (inputValue w) (messagesDom w)
          (userDisplay w) b (hidden w) (style w) (dragVars w) (runs w) (console w).
Definition setHidden (b : bool) (w : World) : World :=
  mkWorld (state w) (store w) (pendingImage w) (preview w) (inputValue w) (messagesDom w)
          (userDisplay w) (typing w) b (style w) (dragVars w) (runs w) (console w).
Definition setStyle (p : Position) (w : World) : World :=
  mkWorld (state w) (store w) (pendingImage w) (preview w) (inputValue w) (messagesDom w)
          (userDisplay w) (typing w) (hidden w) p (dragVars w) (runs w) (console w).
Definition setDragVars (d : DragVars) (w : World) : World :=
  mkWorld (state w) (store w) (pendingImage w) (preview w) (inputValue w) (messagesDom w)
          (userDisplay w) (typing w) (hidden w) (style w) d (runs w) (console w).
Definition setRuns (r : list Run) (w : World) : World :=
  mkWorld (state w) (store w) (pendingImage w) (preview w) (inputValue w) (messagesDom w)
          (userDisplay w) (typing w) (hidden w) (style w) (dragVars w) r (console w).
Definition log (l : LogLine) (w : World) : World :=
  mkWorld (state w) (store w) (pendingImage w) (preview w) (inputValue w) (messagesDom w)
          (userDisplay w) (typing w) (hidden w) (style w) (dragVars w) (runs w) (console w ++ [l]).

Definition withUser (u : option jsstring) (s : State) : State :=
  mkState (isOpen s) (messages s) u (position s).
Definition withMessages (m : list Message) (s : State) : State :=
  mkState (isOpen s) m (user s) (position s).
Definition withIsOpen (b : bool) (s : State) : State :=
  mkState b (messages s) (user s) (position s).
Definition withPosition (p : Position) (s : State) : State :=
  mkState (isOpen s) (messages s) (user s) p.

(** [saveState]: the whole [state] object replaces the stored one. *)
Definition saveState (w : World) : World := setStore (Some (state w)) w.

(** [handleLogin(nameInput, isAuto)]. *)
Definition handleLogin (nameInput : jsstring) (w : World) : World :=
  let name := orElse nameInput (js "Guest") in
  if isEmpty name then w
  else saveState (setUserDisplay name (setState (withUser (Some name) (state w)) w)).

(** [renderMessageToDOM(text, isUser, image)]. *)
Definition truthy (o : option jsstring) : option jsstring :=
  match o with
  | Some (c :: r) => Some (c :: r)
  | _ => None
  end.

Definition renderContent (text : jsstring) (isUser : bool) (image : option jsstring)
  : list Part :=
  match truthy image with Some src => [Img src] | None => [] end
  ++ (if isEmpty text then []
      else if isUser then [UserText (escapeHtml text)] else [BotText text]).

Definition renderMessageToDOM (text : jsstring) (isUser : bool)
           (image : option jsstring) (w : World) : World :=
  setMessagesDom (messagesDom w ++ [MessageEntry isUser (renderContent text isUser image)]) w.

(** [addMessage(text, isUser, image)]. *)
Definition addMessage (text : jsstring) (isUser : bool) (image : option jsstring)
           (w : World) : World :=
  let m := mkMessage (if isUser then SenderUser else SenderBot) text image in
  let w1 := setState (withMessages (messages (state w) ++ [m]) (state w)) w in
  renderMessageToDOM text isUser image (saveState w1).

(** [addErrorMessage(htmlText)]: an element of its own class, held only by
    the page. *)
Definition addErrorMessage (htmlText : jsstring) (w : World) : World :=
  setMessagesDom (messagesDom w ++ [ErrorEntry htmlText]) w.

Definition showTyping (show : bool) (w : World) : World := setTyping show w.

(** [toggleChat]. *)
Definition toggleChat (w : World) : World :=
  if hidden w
  then saveState (setState (withIsOpen true (state w)) (setHidden false w))
  else saveState (setState (withIsOpen false (state w)) (setHidden true w)).

End Session.
Import Session.

(** ** Identity detection *)
Module Detector.

Definition quoted (s : jsstring) : jsstring := [34%N] ++ s ++ [34%N].

(** The selectors of pass 1, in the order the script tries them. *)
Definition selectors : list jsstring :=
  [ js "#lblUserID"; js "#lblUserName"; js "#userName"; js ".user-name";
    js ".profile-name";
    js "span[id*=" ++ quoted (js "user") ++ js "]";
    js "span[class*=" ++ quoted (js "user") ++ js "]";
    js "#welcomeUser"; js ".header-user"; js ".login-name";
    js "a[href*=" ++ quoted (js "profile") ++ js "]";
    js ".logged-in-user" ].

(** An element of [querySelectorAll('i, svg, img, a, button, ...')], with
    what the heuristic pass reads from it: its text, title and label (empty
    where the element has none), its class name as a string, and in
    [containerTexts], from the parent upwards, the [innerText] of the clone
    of each ancestor once the element has been removed from that clone. *)
Record IconButton := mkIconButton {
  innerText : jsstring;
  title : jsstring;
  ariaLabel : option jsstring;
  className : jsstring;
  containerTexts : list jsstring
}.

(** The document as detection reads it: [querySelector sel] is the
    [innerText] of the first element that matches [sel], if there is one. *)
Record Page := mkPage {
  querySelector : jsstring -> option jsstring;
  iconButtons : list IconButton
}.

(** How a pass or a call ends. *)
Inductive Outcome :=
| Resolved (name : jsstring)
| NotFound
| Threw.

(** The body of the selector loop for one matched element. *)
Definition selectorHit (elText : jsstring) : option jsstring :=
  if (2 <? List.length (trim elText))%nat then
    let name := cleanName elText in
    if negb (isEmpty name) && negb (includes (js "Log") name)
    then Some name else None
  else None.

(** An element's text passes the test of the selector loop. *)
Definition qualifies (elText : jsstring) : Prop :=
  (2 < List.length (trim elText))%nat
  /\ cleanName elText <> []
  /\ includes (js "Log") (cleanName elText) = false.

Fixpoint selectorScan (page : Page) (sels : list jsstring) : option jsstring :=
  match sels with
  | [] => None
  | sel :: rest =>
      match querySelector page sel with
      | Some elText =>
          match selectorHit elText with
          | Some name => Some name
          | None => selectorScan page rest
          end
      | None => selectorScan page rest
      end
  end.

Definition selectorPass (page : Page) : option jsstring :=
  selectorScan page selectors.

(** The rule of the selector pass as the specification words it: the cleaned
    text is longer than two units and holds no "log" in any letter case. *)
Definition selectorHit_spec (elText : jsstring) : option jsstring :=
  let name := cleanName elText in
  if (2 <? List.length name)%nat && negb (includesCI (js "log") name)
  then Some name else None.

Fixpoint selectorScan_spec (page : Page) (sels : list jsstring) : option jsstring :=
  match sels with
  | [] => None
  | sel :: rest =>
      match querySelector page sel with
      | Some elText =>
          match selectorHit_spec elText with
          | Some name => Some name
          | None => selectorScan_spec page rest
          end
      | None => selectorScan_spec page rest
      end
  end.

(** [btn.innerText || btn.title || btn.getAttribute('aria-label') || '']. *)
Definition buttonText (b : IconButton) : jsstring :=
  orElse (orElse (orElse (innerText b) (title b))
                 (match ariaLabel b with Some a => a | None => [] end))
         [].

Definition isLogout (b : IconButton) : bool :=
  let text := toLowerCase (buttonText b) in
  let classList := toLowerCase (className b) in
  includes (js "logout") text
  || includes (js "sign out") text
  || includes (js "power") classList
  || includes (js "logout") classList
  || includes (js "sign-out") classList.

(** ['.' + btn.className.split(' ').join('.')]. *)
Definition classSelector (cls : jsstring) : jsstring :=
  46%N :: List.concat (match splitOn 32 cls with
                  | [] => []
                  | h :: t => h :: map (fun p => 46%N :: p) t
                  end).

(** A CSS identifier: letters, digits, [-], [_] and units from U+0080 on,
    not starting with a digit, nor with a [-] that a digit follows or that
    stands alone. *)
Definition isNameStart (c : N) : bool :=
  isUpperAscii c || isLowerAscii c || N.eqb c 95 || (128 <=? c)%N.

Definition isNameUnit (c : N) : bool :=
  isNameStart c || ((48 <=? c) && (c <=? 57))%N || N.eqb c 45.

Definition isCssIdentifier (part : jsstring) : bool :=
  match part with
  | [] => false
  | c :: r =>
      (isNameStart c
       || (N.eqb c 45
           && match r with
              | d :: _ => isNameStart d || N.eqb d 45
              | [] => false
              end))
      && forallb isNameUnit r
  end.

(** The class selector is usable when every part of the class name is an
    identifier.  With an empty part (['.'], ['.a..b'], ['.a.']) or a part
    such as [2xl] or [md:flex], [querySelector] throws a SyntaxError; the
    [className] of an [svg] is an object without [split], written here as
    it prints, and the call throws a TypeError.  In each case the exception
    leaves [detectUserOnPage]. *)
Definition malformedClassSelector (cls : jsstring) : bool :=
  existsb (fun part => negb (isCssIdentifier part)) (splitOn 32 cls).

(** The noise filter on a cleaned line. *)
Definition acceptLine (cleaned : jsstring) : bool :=
  let lower := toLowerCase cleaned in
  negb (isEmpty cleaned)
  && (List.length cleaned <? 30)%nat
  && negb (includes (js "setting") lower)
  && negb (includes (js "english") lower)
  && negb (includes (js "tamil") lower)
  && negb (eqs lower (js "home") || eqs lower (js "help")
           || eqs lower (js "admin") || eqs lower (js "user")).

Definition linesOf (containerText : jsstring) : list jsstring :=
  filter (fun l => (2 <? List.length l)%nat)
         (map trim (splitOn 10 (trim containerText))).

Definition candidateIn (containerText : jsstring) : option jsstring :=
  find acceptLine (map cleanName (linesOf containerText)).

(** The loop over at most three ancestors of a logout element. *)
Fixpoint scanContainers (b : IconButton) (texts : list jsstring) : Outcome :=
  match texts with
  | [] => NotFound
  | t :: rest =>
      if malformedClassSelector (className b) then Threw
      else match candidateIn t with
           | Some name => Resolved name
           | None => scanContainers b rest
           end
  end.

Definition nearLogout (b : IconButton) : Outcome :=
  if isLogout b then scanContainers b (firstn 3 (containerTexts b)) else NotFound.

Fixpoint heuristicScan (buttons : list IconButton) : Outcome :=
  match buttons with
  | [] => NotFound
  | b :: rest =>
      match nearLogout b with
      | NotFound => heuristicScan rest
      | o => o
      end
  end.

Definition heuristicPass (page : Page) : Outcome :=
  heuristicScan (iconButtons page).

(** What one call of [detectUserOnPage] finds, whatever the world. *)
Definition detectName (page : Page) : Outcome :=
  match selectorPass page with
  | Some name => Resolved name
  | None => heuristicPass page
  end.

(** [detectUserOnPage()]: the world it leaves and how it ends
    ([Resolved] for [true], [NotFound] for [false]). *)
Definition detectUserOnPage (page : Page) (w : World) : World * Outcome :=
  match selectorPass page with
  | Some name => (handleLogin name (log (FoundViaSelector name) w), Resolved name)
  | None =>
      match heuristicPass page with
      | Resolved name =>
          (handleLogin name (log (FoundNearLogout name) w), Resolved name)
      | NotFound => (w, NotFound)
      | Threw => (w, Threw)
      end
  end.

Definition detectionTimeout : N := 5000.

(** [startUserDetection()].  When the immediate attempt returns [false] an
    observer is attached and the timer set; when it throws, the exception
    leaves the function before either. *)
Definition startUserDetection (page : Page) (w : World) : World :=
  match detectUserOnPage page w with
  | (w', Resolved _) => w'
  | (w', Threw) => w'
  | (w', NotFound) => setRuns (runs w' ++ [mkRun true (Some detectionTimeout)]) w'
  end.

Fixpoint updateRun (f : Run -> Run) (i : nat) (rs : list Run) : list Run :=
  match rs, i with
  | [], _ => []
  | r :: t, O => f r :: t
  | r :: t, S k => r :: updateRun f k t
  end.

Definition disconnect (i : nat) (w : World) : World :=
  setRuns (updateRun (fun r => mkRun false (timer r)) i (runs w)) w.

(** The mutation callback of run [i]. *)
Definition observerCallback (page : Page) (i : nat) (w : World) : World :=
  match nth_error (runs w) i with
  | Some r =>
      if connected r then
        if hasUser (state w) then disconnect i w
        else match detectUserOnPage page w with
             | (w', Resolved _) => disconnect i w'
             | (w', _) => w'
             end
      else w
  | None => w
  end.

(** A mutation of the body: every connected observer is called, in the
    order the observers were created. *)
Definition mutation (page : Page) (w : World) : World :=
  fold_left (fun w i => observerCallback page i w) (seq 0 (List.length (runs w))) w.

(** The timer of run [i] fires. *)
Definition timeout (i : nat) (w : World) : World :=
  match nth_error (runs w) i with
  | Some r =>
      match timer r with
      | Some _ =>
          let w1 := setRuns (updateRun (fun _ => mkRun false None) i (runs w)) w in
          if hasUser (state w1) then w1
          else handleLogin (js "Guest") (log UsingGuest w1)
      | None => w
      end
  | None => w
  end.

(** [handleLogout()]. *)
Definition handleLogout (page : Page) (w : World) : World :=
  let w1 := setState (withMessages [] (withUser None (state w))) w in
  let w2 := setMessagesDom [] w1 in
  let w3 := setStore None w2 in
  let w4 := setState (withIsOpen true (state w3)) w3 in
  startUserDetection page (saveState w4).

End Detector.
Import Detector.

(** ** Dragging *)
Module Drag.

(** A [mousedown] on the widget, with the layout it reads. *)
Record MouseDown := mkMouseDown {
  onControl : bool;     (* the target is inside a button or an input *)
  onHandle : bool;      (* the target is inside the header or the login view *)
  downX : Z;
  downY : Z;
  offsetLeft : Z;
  offsetTop : Z
}.

(** A [mousemove], with the layout it reads. *)
Record MouseMove := mkMouseMove {
  clientX : Z;
  clientY : Z;
  innerWidth : Z;
  innerHeight : Z;
  offsetWidth : Z;
  offsetHeight : Z
}.

Definition acceptsDrag (e : MouseDown) : bool := negb (onControl e) && onHandle e.

Definition dragStart (e : MouseDown) (w : World) : World :=
  if onControl e then w
  else if negb (onHandle e) then w
  else setDragVars (mkDragVars true (downX e) (downY e) (offsetLeft e) (offsetTop e)) w.

Definition drag (e : MouseMove) (w : World) : World :=
  if negb (isDragging (dragVars w)) then w
  else
    let currentX := (clientX e - startX (dragVars w))%Z in
    let currentY := (clientY e - startY (dragVars w))%Z in
    let newLeft := (initialLeft (dragVars w) + currentX)%Z in
    let newTop := (initialTop (dragVars w) + currentY)%Z in
    let maxLeft := (innerWidth e - offsetWidth e)%Z in
    let maxTop := (innerHeight e - offsetHeight e)%Z in
    setStyle {| top := Px (Z.min (Z.max 0 newTop) maxTop);
                left := Px (Z.min (Z.max 0 newLeft) maxLeft);
                bottom := Auto;
                right := Auto |} w.

Definition dragEnd (w : World) : World :=
  let d := dragVars w in
  let w1 := setDragVars (mkDragVars false (startX d) (startY d)
                                    (initialLeft d) (initialTop d)) w in
  let p := {| top := top (style w1); left := left (style w1);
              bottom := Auto; right := Auto |} in
  saveState (setState (withPosition p (state w1)) w1).

(** The moves of one gesture, in order. *)
Definition dragMoves (moves : list MouseMove) (w : World) : World :=
  fold_left (fun w m => drag m w) moves w.

End Drag.
Import Drag.

(** ** The message channel *)
Module Channel.

(** How the request of one send action ends: [fetch] rejects, the body is
    not a JSON object, or a reply object arrives ([success] is the
    truthiness of [data.success]). *)
Inductive FetchResult :=
| FetchRejected
| JsonRejected
| Reply (success : bool) (response : jsstring).

Definition sorryText : jsstring :=
  js "Sorry, I encountered an error. Please try again.".

(** The text handed to [addErrorMessage]: the warning sign, then the notice
    with its link. *)
Definition connectErrorHtml : jsstring :=
  warningGlyph
  ++ js " Unable to connect to the server. Please ensure the chatbot server is running at <a href="
  ++ quoted (js "http://localhost:5000") ++ js " target=" ++ quoted (js "_blank")
  ++ js ">http://localhost:5000</a>".

(** [sendMessage] up to the [await]: [None] when a guard returns early. *)
Definition sendBegin (w : World) : option World :=
  if negb (hasUser (state w)) then None
  else
    let message := trim (inputValue w) in
    match message, truthy (pendingImage w) with
    | [], None => None
    | _, _ =>
        let w1 := addMessage message true (pendingImage w) w in
        let w2 := setInputValue [] w1 in
        let w3 := setPendingImage None w2 in
        let w4 := setPreview None w3 in
        Some (showTyping true w4)
    end.

(** [sendMessage] from the [await] on. *)
Definition sendEnd (r : FetchResult) (w : World) : World :=
  match r with
  | Reply true response => addMessage response false None (showTyping false w)
  | Reply false _ => addMessage sorryText false None (showTyping false w)
  | FetchRejected | JsonRejected =>
      log SendError (addErrorMessage connectErrorHtml (showTyping false w))
  end.

Definition sendMessage (r : FetchResult) (w : World) : World :=
  match sendBegin w with
  | Some w' => sendEnd r w'
  | None => w
  end.


End Channel.
Import Channel.

(** ** Pasting *)
Module Clipboard.

Inductive ItemKind := KindString | KindFile.

(** A clipboard item: its kind, its MIME type, and the data URL a
    [FileReader] yields for its file. *)
Record ClipboardItem := mkItem {
  kind : ItemKind;
  type : jsstring;
  dataUrl : jsstring
}.

Definition isImageFile (it : ClipboardItem) : bool :=
  match kind it with
  | KindFile => includes (js "image/") (type it)
  | KindString => false
  end.

(** [showImagePreview] and the handler of its close button. *)
Definition showImagePreview (base64Image : jsstring) (w : World) : World :=
  setPreview (Some base64Image) w.

Definition clearImage (w : World) : World :=
  setPreview None (setPendingImage None w).

(** [reader.onload]. *)
Definition readerOnload (result : jsstring) (w : World) : World :=
  showImagePreview result (setPendingImage (Some result) w).

(** [handlePaste]: the reads it starts, and whether it prevents the default
    action.  The handler itself changes nothing; the reads complete later. *)
Definition startedReads (items : list ClipboardItem) : list jsstring :=
  map dataUrl (filter isImageFile items).

Definition defaultPrevented (items : list ClipboardItem) : bool :=
  existsb isImageFile items.

(** A paste together with the completion of every read it started. *)
Definition handlePaste (items : list ClipboardItem) (w : World) : World :=
  fold_left (fun w url => readerOnload url w) (startedReads items) w.

End Clipboard.
Import Clipboard.

(** ** Page load and the operations of a page *)
Module Widget.

Definition unlines (ls : list jsstring) : jsstring :=
  match ls with
  | [] => []
  | h :: t => h ++ flat_map (fun l => 10%N :: l) t
  end.

(** One line of the list of services in the welcome template. *)
Definition serviceLine (glyph label : jsstring) : jsstring :=
  js "<span style=" ++ quoted (js "font-size: 15px;") ++ js ">"
  ++ bulletGlyph ++ js " " ++ glyph ++ js " " ++ label ++ js "</span>".

Definition serviceLabels : list jsstring :=
  [ js "Government service information"; js "Application procedures";
    js "Fee details and payment methods"; js "Required documents";
    js "Contact information"; js "Office timings" ].

(** The welcome template, with [name] for [${state.user}]. *)
Definition welcomeText (name : jsstring) : jsstring :=
  unlines
    ([ waveGlyph ++ js " <strong>Welcome " ++ name ++ js "!</strong>";
       [];
       js "I'm your Tamil Nadu Government Services Assistant. I can help you with:";
       [] ]
     ++ map (fun gl => serviceLine (fst gl) (snd gl))
            (combine serviceGlyphs serviceLabels)
     ++ [ [];
          js "Feel free to ask me anything in <strong>Tamil</strong> or <strong>English</strong>!" ]).

Definition showWelcomeMessage (w : World) : World :=
  let t := welcomeText (match user (state w) with Some u => u | None => js "null" end) in
  let w1 := renderMessageToDOM t false None w in
  saveState (setState (withMessages (messages (state w1) ++ [mkMessage SenderBot t None])
                                    (state w1)) w1).

Definition applyState (w : World) : World :=
  let w1 := match top (position (state w)) with
            | Auto => w
            | t => setStyle {| top := t; left := left (position (state w));
                               bottom := Auto; right := Auto |} w
            end in
  let w2 := if isOpen (state w1) then setHidden false w1 else w1 in
  match messages (state w2) with
  | _ :: _ =>
      fold_left (fun w m =>
                   renderMessageToDOM (text m)
                     (match sender m with SenderUser => true | SenderBot => false end)
                     (image m) w)
                (messages (state w2)) (setMessagesDom [] w2)
  | [] => if hasUser (state w2) then showWelcomeMessage w2 else w2
  end.

(** The world a fresh page starts from, given what the store holds. *)
Definition freshWorld (stored : option State) : World :=
  {| state := initialState; store := stored; pendingImage := None; preview := None;
     inputValue := []; messagesDom := []; userDisplay := js "Online"; typing := false;
     hidden := true;
     style := {| top := Unset; left := Unset; bottom := Unset; right := Unset |};
     dragVars := mkDragVars false 0 0 0 0; runs := []; console := [] |}.

Definition loadState (w : World) : World :=
  match store w with
  | Some s => setState s w
  | None => w
  end.

(** [createChatWidget]: the status line shows [state.user || 'Online']. *)
Definition createChatWidget (w : World) : World :=
  setUserDisplay (match user (state w) with
                  | Some (c :: r) => c :: r
                  | _ => js "Online"
                  end) w.

(** *** The widget inside the document

    [createChatWidget] appends the widget to the body, so the document
    detection queries holds the widget's own elements after those of the
    host page.  They are listed as the template of [createChatWidget] has
    them. *)

(** An [svg] has no [innerText] and no [title], and its [className] is an
    object that prints as below. *)
Definition svgElement : IconButton :=
  {| innerText := []; title := []; ariaLabel := None;
     className := js "[object SVGAnimatedString]"; containerTexts := [] |}.

(** The avatar image. *)
Definition avatarElement : IconButton :=
  {| innerText := []; title := []; ariaLabel := None; className := [];
     containerTexts := [] |}.

(** The widget's logout button, [<button class="tn-chatbot-logout"
    title="Logout">].  Its parent holds the close button besides it; the
    header above holds the title, the status line and the close button.
    A clone is not rendered, so its [innerText] is its text content, one
    line of the template each (indentation and blank lines, which [trim]
    and the length filter drop, are left out). *)
Definition logoutElement (display : jsstring) : IconButton :=
  {| innerText := logoutGlyph; title := js "Logout"; ariaLabel := None;
     className := js "tn-chatbot-logout";
     containerTexts :=
       [ closeGlyph;
         unlines [js "TN Govt Assistant"; display; closeGlyph] ] |}.

Definition closeElement : IconButton :=
  {| innerText := closeGlyph; title := []; ariaLabel := None;
     className := js "tn-chatbot-close"; containerTexts := [] |}.

Definition sendElement : IconButton :=
  {| innerText := []; title := []; ariaLabel := None;
     className := js "tn-chatbot-send"; containerTexts := [] |}.

Definition widgetElements (display : jsstring) : list IconButton :=
  [ svgElement; avatarElement; logoutElement display; closeElement;
    sendElement; svgElement ].

(** Of the selectors of pass 1, [span[id*="user"]] matches the status line
    [<span id="tn-user-display">]. *)
Definition widgetSelector (display : jsstring) (sel : jsstring) : option jsstring :=
  if eqs sel (js "span[id*=" ++ quoted (js "user") ++ js "]")
  then Some display else None.

(** The document on a host page once the widget is in it.  What the message
    view and the image preview may hold comes after the logout button and
    is never reached by a scan. *)
Definition documentOf (w : World) (host : Page) : Page :=
  {| querySelector :=
       fun sel => match querySelector host sel with
                  | Some t => Some t
                  | None => widgetSelector (userDisplay w) sel
                  end;
     iconButtons := iconButtons host ++ widgetElements (userDisplay w) |}.

(** [init()] on a host page that holds no element with the widget's id, so
    that the widget is created: the document detection reads is then the
    host page with the widget in it.  (On a page that holds such an element
    nothing is created and detection reads the host page alone.) *)
Definition init (stored : option State) (host : Page) : World :=
  let w := applyState (createChatWidget (loadState (freshWorld stored))) in
  if hasUser (state w) then w else startUserDetection (documentOf w host) w.

(** What can happen on a page once it is loaded. *)
Inductive Op :=
| OpType (value : jsstring)
| OpToggle
| OpSend (r : FetchResult)
| OpPaste (items : list ClipboardItem)
| OpClearImage
| OpDragStart (e : MouseDown)
| OpDrag (e : MouseMove)
| OpDragEnd
| OpMutation (host : Page)
| OpTimeout (i : nat)
| OpLogout (host : Page).

Definition apply (op : Op) (w : World) : World :=
  match op with
  | OpType v => setInputValue v w
  | OpToggle => toggleChat w
  | OpSend r => sendMessage r w
  | OpPaste items => handlePaste items w
  | OpClearImage => clearImage w
  | OpDragStart e => dragStart e w
  | OpDrag e => drag e w
  | OpDragEnd => dragEnd w
  | OpMutation host => mutation (documentOf w host) w
  | OpTimeout i => timeout i w
  | OpLogout host => handleLogout (documentOf w host) w
  end.

Definition run (ops : list Op) (w : World) : World :=
  fold_left (fun w op => apply op w) ops w.

Definition isLogoutOp (op : Op) : bool :=
  match op with
  | OpLogout _ => true
  | _ => false
  end.

(** [w'] still has an identity if [w] had one, and its message log extends
    that of [w]. *)
Definition keepsSession (w w' : World) : Prop :=
  (hasUser (state w) = true -> hasUser (state w') = true)
  /\ exists more, messages (state w') = messages (state w) ++ more.

End Widget.
Import Widget.

(** ** Sample pages and worlds *)
Module Samples.

Definition only (sel text : jsstring) : jsstring -> option jsstring :=
  fun s => if eqs s sel then Some text else None.

(** A page whose [#lblUserID] element reads "login". *)
Definition loginPage : Page :=
  {| querySelector := only (js "#lblUserID") (js "login"); iconButtons := [] |}.

(** A page whose [#userName] element reads "Hi Al". *)
Definition shortNamePage : Page :=
  {| querySelector := only (js "#userName") (js "Hi Al"); iconButtons := [] |}.

(** A page with a name in [#userName] and another name next to a logout
    button. *)
Definition twoNamesPage : Page :=
  {| querySelector := only (js "#userName") (js "Welcome Ravi Kumar");
     iconButtons :=
       [ {| innerText := js "Logout"; title := []; ariaLabel := None;
            className := js "btn logout";
            containerTexts := [js "Anita Devi" ++ [10%N] ++ js "Settings"] |} ] |}.

(** A page with nothing detection recognises. *)
Definition blankPage : Page :=
  {| querySelector := fun _ => None; iconButtons := [] |}.

(** A host page with an empty [<span id="user-menu">] and a logout link
    without a class attribute, [<a href="/logout">Logout</a>]. *)
Definition classlessLogoutPage : Page :=
  {| querySelector := only (js "span[id*=" ++ quoted (js "user") ++ js "]") [];
     iconButtons :=
       [ {| innerText := js "Logout"; title := []; ariaLabel := None;
            className := [];
            containerTexts := [[]; []; []] |} ] |}.

(** A world after a page load in which the user "Ravi" was detected, with
    "hello" typed into the input. *)
Definition raviWorld : World :=
  setInputValue (js "hello")
    (handleLogin (js "Ravi") (toggleChat (freshWorld None))).

(** A world whose store was last written by another page: it holds a
    message this page's [state] does not. *)
Definition staleWorld : World :=
  setStore (Some (withMessages [mkMessage SenderUser (js "from another tab") None]
                               (state raviWorld))) raviWorld.

Definition headerDown : MouseDown :=
  {| onControl := false; onHandle := true; downX := 100; downY := 50;
     offsetLeft := 900; offsetTop := 400 |}.

Definition farMove : MouseMove :=
  {| clientX := 5000; clientY := -300; innerWidth := 1280; innerHeight := 720;
     offsetWidth := 380; offsetHeight := 600 |}.

Definition textItem : ClipboardItem :=
  {| kind := KindString; type := js "text/plain"; dataUrl := [] |}.


End Samples.
Import Samples.

(** ** Messages from the extension's other scripts *)
Module Messaging.

(** The action the background script sends when the toolbar icon is
    clicked, and the popup when its button is pressed. *)
Definition openChatAction : jsstring := js "openChat".

(** The [chrome.runtime.onMessage] listener of the content script. *)
Definition onMessage (action : jsstring) (w : World) : World :=
  if eqs action (js "openChat") then
    if hidden w then toggleChat w else w
  else w.

(** A click on the toolbar icon, as the page receives it. *)
Definition iconClicked (w : World) : World := onMessage openChatAction w.

End Messaging.
Import Messaging.

(** ** The message view against the log *)
Module View.

(** The element [renderMessageToDOM] builds for a logged message. *)
Definition entryOf (m : Message) : Entry :=
  let isUser := match sender m with SenderUser => true | SenderBot => false end in
  MessageEntry isUser (renderContent (text m) isUser (image m)).

Definition isErrorEntry (e : Entry) : bool :=
  match e with
  | ErrorEntry _ => true
  | MessageEntry _ _ => false
  end.

(** The view shows the log, entry for entry and in order, besides the
    error notices. *)
Definition mirrorsLog (w : World) : Prop :=
  filter (fun e => negb (isErrorEntry e)) (messagesDom w)
  = map entryOf (messages (state w)).

(** An identity is unset, or a name that is not empty and has no white
    space at either end. *)
Definition goodIdentity (s : State) : Prop :=
  match user s with
  | None => True
  | Some n => n <> [] /\ trim n = n
  end.

(** What detection may do to a world: it never touches the log or its
    view, and it leaves the identity alone unless none was set, in which
    case it may set a name that is not empty and is trimmed. *)
Definition detectionStep (w w' : World) : Prop :=
  messagesDom w' = messagesDom w
  /\ messages (state w') = messages (state w)
  /\ (user (state w') = user (state w)
      \/ (hasUser (state w) = false
          /\ exists n, user (state w') = Some n /\ n <> [] /\ trim n = n)).

Definition noLogout (ops : list Op) : bool :=
  forallb (fun op => negb (isLogoutOp op)) ops.

Definition unsetStyle : Position :=
  {| top := Unset; left := Unset; bottom := Unset; right := Unset |}.

(** The first world of a page that found [s] in the store. *)
Definition loaded (s : State) : World :=
  createChatWidget (loadState (freshWorld (Some s))).

End View.
Import View.

(** ** Formatting of agent text *)
Module Format.

(** [text.replace(re, replacement)] for a global pattern that cannot match
    the empty string.  [matchAt s] is the match of the pattern at the head
    of [s], as the number of units it consumes and the text that replaces
    them.  The scan goes left to right and resumes after each match. *)
Fixpoint replaceAll (matchAt : jsstring -> option (nat * jsstring))
         (skip : nat) (s : jsstring) : jsstring :=
  match s with
  | [] => []
  | c :: r =>
      match skip with
      | S k => replaceAll matchAt k r
      | O =>
          match matchAt s with
          | Some (S n, rep) => rep ++ replaceAll matchAt n r
          | _ => c :: replaceAll matchAt 0 r
          end
      end
  end.

(** The units [.] does not match. *)
Definition isLineTerminator (c : N) : bool :=
  N.eqb c 10 || N.eqb c 13 || N.eqb c 8232 || N.eqb c 8233.

(** [(.*?)lit]: the shortest run of units other than line terminators
    that is followed by [lit]. *)
Fixpoint lazyUntil (lit : jsstring) (s : jsstring) : option jsstring :=
  if isPrefix lit s then Some []
  else match s with
       | [] => None
       | c :: r =>
           if isLineTerminator c then None
           else option_map (cons c) (lazyUntil lit r)
       end.

(** [(.*?)(<br>|$)]: the shortest such run that is followed by [<br>] or
    ends the text, and whether it was [<br>]. *)
Fixpoint lazyUntilBreak (s : jsstring) : option (jsstring * bool) :=
  if isPrefix (js "<br>") s then Some ([], true)
  else match s with
       | [] => Some ([], false)
       | c :: r =>
           if isLineTerminator c then None
           else option_map (fun p => (c :: fst p, snd p)) (lazyUntilBreak r)
       end.

Fixpoint takeWhile (p : N -> bool) (s : jsstring) : jsstring :=
  match s with
  | [] => []
  | c :: r => if p c then c :: takeWhile p r else []
  end.

(** [/<[^>]+>/.test(text)]. *)
Definition tagAt (s : jsstring) : bool :=
  match s with
  | a :: c :: r => N.eqb a 60 && negb (N.eqb c 62) && existsb (N.eqb 62) r
  | _ => false
  end.

Fixpoint hasHTML (s : jsstring) : bool :=
  tagAt s
  || match s with
     | [] => false
     | _ :: r => hasHTML r
     end.

(** [.replace(/\n/g, '<br>')]. *)
Definition breaks (s : jsstring) : jsstring :=
  flat_map (fun c => if N.eqb c 10 then js "<br>" else [c]) s.

(** [/<span style="font-size: 15px;">(.*?)<\/span>/g], replaced by
    [<div style="padding: 4px 0;">$1</div>]. *)
Definition spanOpen : jsstring :=
  js "<span style=" ++ quoted (js "font-size: 15px;") ++ js ">".

Definition spanAt (s : jsstring) : option (nat * jsstring) :=
  if isPrefix spanOpen s then
    match lazyUntil (js "</span>") (skipn (List.length spanOpen) s) with
    | Some inner =>
        Some ((List.length spanOpen + List.length inner + 7)%nat,
              js "<div style=" ++ quoted (js "padding: 4px 0;") ++ js ">"
              ++ inner ++ js "</div>")
    | None => None
    end
  else None.

(** [/###\s*(.*?)(<br>|$)/g]. *)
Definition headingOpen : jsstring :=
  js "<strong style="
  ++ quoted (js "font-size: 16px; color: #00a000; display: block; margin: 8px 0;")
  ++ js ">".

Definition headingAt (s : jsstring) : option (nat * jsstring) :=
  if isPrefix (js "###") s then
    let r := skipn 3 s in
    let r' := trimStart r in
    match lazyUntilBreak r' with
    | Some (inner, br) =>
        Some ((3 + (List.length r - List.length r') + List.length inner
               + (if br then 4 else 0))%nat,
              headingOpen ++ inner ++ js "</strong>"
              ++ (if br then js "<br>" else []))
    | None => None
    end
  else None.

(** [/\*\*(.*?)\*\*/g] and [/__(.*?)__/g], for the unit [x] doubled. *)
Definition strongOpen : jsstring :=
  js "<strong style=" ++ quoted (js "color: #1e293b;") ++ js ">".

Definition emphasisAt (x : N) (s : jsstring) : option (nat * jsstring) :=
  if isPrefix [x; x] s then
    match lazyUntil [x; x] (skipn 2 s) with
    | Some inner =>
        Some ((2 + List.length inner + 2)%nat,
              strongOpen ++ inner ++ js "</strong>")
    | None => None
    end
  else None.

(** The bullet pattern: the three units of the bullet and then [\s*]; the
    replacement shows the same three units. *)
Definition bulletSpan : jsstring :=
  js "<span style="
  ++ quoted (js "color: #00a000; font-weight: bold; font-size: 18px; margin-right: 8px;")
  ++ js ">" ++ bulletGlyph ++ js "</span>".

Definition bulletAt (s : jsstring) : option (nat * jsstring) :=
  if isPrefix bulletGlyph s then
    let r := skipn 3 s in
    Some ((3 + (List.length r - List.length (trimStart r)))%nat, bulletSpan)
  else None.

(** [/(https?:\/\/[^\s<]+)/g]. *)
Definition urlUnit (c : N) : bool := negb (isWhite c) && negb (N.eqb c 60).

Definition linkAt (s : jsstring) : option (nat * jsstring) :=
  if isPrefix (js "http") s then
    let r := skipn 4 s in
    let r1 := match r with
              | c :: r' => if N.eqb c 115 then r' else r
              | [] => r
              end in
    if isPrefix (js "://") r1 then
      match takeWhile urlUnit (skipn 3 r1) with
      | [] => None
      | body =>
          let n := (4 + (List.length r - List.length r1) + 3 + List.length body)%nat in
          let url := firstn n s in
          Some (n,
                js "<a href=" ++ quoted url ++ js " target=" ++ quoted (js "_blank")
                ++ js " style="
                ++ quoted (js "color: #00a000; text-decoration: underline; font-weight: 500;")
                ++ js ">" ++ url ++ js "</a>")
      end
    else None
  else None.

Definition wrap (formatted : jsstring) : jsstring :=
  js "<div style=" ++ quoted (js "line-height: 1.8;") ++ js ">"
  ++ formatted ++ js "</div>".

(** [formatBotMessage(text)]. *)
Definition formatBotMessage (text : jsstring) : jsstring :=
  if hasHTML text then
    wrap (replaceAll spanAt 0 (breaks text))
  else
    let formatted := breaks (escapeHtml text) in
    let formatted := replaceAll headingAt 0 formatted in
    let formatted := replaceAll (emphasisAt 42) 0 formatted in
    let formatted := replaceAll (emphasisAt 95) 0 formatted in
    let formatted := replaceAll bulletAt 0 formatted in
    let formatted := replaceAll linkAt 0 formatted in
    wrap formatted.

(** The units the plain formatting reacts to: [#], [*], [_], the first unit
    of the bullet and [:]. *)
Definition isMarker (c : N) : bool :=
  N.eqb c 35 || N.eqb c 42 || N.eqb c 95 || N.eqb c 8218 || N.eqb c 58.

(** Text without any of them. *)
Definition unmarked (s : jsstring) : Prop :=
  forall c, In c s -> isMarker c = false.

End Format.
Import Format.

(** ** More sample data *)
Module MoreSamples.

Definition pngItem : ClipboardItem :=
  {| kind := KindFile; type := js "image/png";
     dataUrl := js "data:image/png;base64,iVBORw0KGgo=" |}.

(** A stored session of a user who wrote one message. *)
Definition raviStored : State :=
  {| isOpen := true;
     messages := [mkMessage SenderUser (js "hello") None];
     user := Some (js "Ravi");
     position := {| top := Px 50; left := Px 900; bottom := Auto; right := Auto |} |}.

(** A stored session with an identity and nothing said yet. *)
Definition anitaStored : State :=
  {| isOpen := false; messages := []; user := Some (js "Anita");
     position := position initialState |}.

(** A host page with a "Home" link and an emblem beside the name of the
    user, and no logout control. *)
Definition navPage : Page :=
  {| querySelector := fun _ => None;
     iconButtons :=
       [ {| innerText := js "Home"; title := []; ariaLabel := None;
            className := js "nav-link";
            containerTexts := [js "Anita Devi"; js "Portal" ++ [10%N] ++ js "Anita Devi"] |};
         {| innerText := []; title := js "Emblem"; ariaLabel := None;
            className := js "logo";
            containerTexts := [js "Portal" ++ [10%N] ++ js "Home" ++ [10%N] ++ js "Anita Devi"] |} ] |}.

Definition buttonDown : MouseDown :=
  {| onControl := true; onHandle := true; downX := 100; downY := 50;
     offsetLeft := 900; offsetTop := 400 |}.

End MoreSamples.
Import MoreSamples.

(** * Properties *)

(** ** Name cleaning removes the greeting tokens *)
Section CleanNameFacts.

Lemma strip_skipn (s : jsstring) :
  forall k, strip k s = strip 0 (skipn k s).
Proof.
  induction s as [|c r IH]; intros [|k]; try reflexivity.
  simpl skipn. cbn [strip]. apply IH.
Qed.

Lemma strip_cons (c : N) (r : jsstring) :
  strip 0 (c :: r) =
  match firstAlt (c :: r) with
  | Some (S n) => strip n r
  | _ => c :: strip 0 r
  end.
Proof. reflexivity. Qed.

Lemma unitEqCI_trans_sym (x y c : N) :
  unitEqCI x c = true -> unitEqCI y c = true -> unitEqCI x y = true.
Proof.
  unfold unitEqCI. rewrite !N.eqb_eq. congruence.
Qed.

Lemma prefixes_agree (a : jsstring) :
  forall b s, isPrefixCI a s = true -> isPrefixCI b s = true -> agreeCI a b = true.
Proof.
  induction a as [|x a IH]; intros [|y b] [|c s] Ha Hb; simpl in *;
    try reflexivity; try discriminate.
  apply andb_true_iff in Ha as [Hx Ha]. apply andb_true_iff in Hb as [Hy Hb].
  apply andb_true_iff. split.
  - eapply unitEqCI_trans_sym; eassumption.
  - eapply IH; eassumption.
Qed.

Lemma isPrefixCI_length (t : jsstring) :
  forall s, isPrefixCI t s = true -> (List.length t <= List.length s)%nat.
Proof.
  induction t as [|x t IH]; intros [|c s] H; simpl in *; try lia; try discriminate.
  apply andb_true_iff in H as [_ H]. apply IH in H. lia.
Qed.

Lemma isPrefixCI_app (t : jsstring) :
  forall a b, isPrefixCI t a = true -> isPrefixCI t (a ++ b) = true.
Proof.
  induction t as [|x t IH]; intros [|c a] b H; simpl in *; try reflexivity;
    try discriminate.
  apply andb_true_iff in H as [Hx H]. rewrite Hx. simpl. apply IH, H.
Qed.

Lemma isPrefixCI_within (t : jsstring) :
  forall a b, isPrefixCI t (a ++ b) = true ->
              (List.length t <= List.length a)%nat -> isPrefixCI t a = true.
Proof.
  induction t as [|x t IH]; intros [|c a] b H L; simpl in *; try reflexivity;
    try lia.
  apply andb_true_iff in H as [Hx H]. rewrite Hx. simpl.
  apply (IH a b H). lia.
Qed.

Lemma isPrefixCI_skip (a : jsstring) :
  forall t s, isPrefixCI t (a ++ s) = true ->
              isPrefixCI (skipn (List.length a) t) s = true.
Proof.
  induction a as [|c a IH]; intros t s H; simpl in *.
  - exact H.
  - destruct t as [|x t]; [ reflexivity | ].
    simpl in H. apply andb_true_iff in H as [_ H]. apply IH, H.
Qed.

Lemma matchCI_prefix (t : jsstring) :
  forall occ post, matchCI t occ = true ->
                   isPrefixCI t (occ ++ post) = true /\ List.length occ = List.length t.
Proof.
  induction t as [|x t IH]; intros [|c occ] post H; simpl in *; try discriminate.
  - split; reflexivity.
  - apply andb_true_iff in H as [Hx H]. destruct (IH occ post H) as [P L].
    rewrite Hx, P, L. split; reflexivity.
Qed.

Lemma tokens_no_overlap (t1 t2 : jsstring) (k : nat) :
  In t1 greetingTokens -> In t2 greetingTokens ->
  (0 < k < List.length t1)%nat -> agreeCI (skipn k t1) t2 = false.
Proof.
  intros H1 H2 Hk.
  assert (C : noOverlapCheck = true) by (vm_compute; reflexivity).
  unfold noOverlapCheck in C.
  rewrite forallb_forall in C. specialize (C t1 H1).
  rewrite forallb_forall in C. specialize (C t2 H2).
  rewrite forallb_forall in C. specialize (C k).
  apply negb_true_iff, C, in_seq. lia.
Qed.

Lemma tokens_same_start (t1 t2 : jsstring) :
  In t1 greetingTokens -> In t2 greetingTokens ->
  agreeCI t1 t2 = true -> List.length t1 = List.length t2.
Proof.
  intros H1 H2 A.
  assert (C : sameStartCheck = true) by (vm_compute; reflexivity).
  unfold sameStartCheck in C.
  rewrite forallb_forall in C. specialize (C t1 H1).
  rewrite forallb_forall in C. specialize (C t2 H2).
  rewrite A in C. simpl in C. apply Nat.eqb_eq, C.
Qed.

Lemma tokens_nonempty (t : jsstring) :
  In t greetingTokens -> (0 < List.length t)%nat.
Proof.
  intros H.
  assert (C : forallb (fun t => Nat.ltb 0 (List.length t)) greetingTokens = true)
    by (vm_compute; reflexivity).
  rewrite forallb_forall in C. apply Nat.ltb_lt, C, H.
Qed.

Lemma find_agree {A : Type} (p q : A -> bool) (l : list A) :
  (forall x, In x l -> p x = q x) -> find p l = find q l.
Proof.
  induction l as [|a l IH]; intros H; simpl; [ reflexivity | ].
  rewrite <- (H a (or_introl eq_refl)).
  destruct (p a); [ reflexivity | ].
  apply IH. intros x Hx. apply H. right. exact Hx.
Qed.

Lemma firstAlt_agree (s s' : jsstring) :
  (forall t, In t greetingTokens -> isPrefixCI t s = isPrefixCI t s') ->
  firstAlt s = firstAlt s'.
Proof.
  intros H. unfold firstAlt. f_equal. apply find_agree. exact H.
Qed.

Lemma firstAlt_some (s : jsstring) (n : nat) :
  firstAlt s = Some n ->
  exists t, In t greetingTokens /\ isPrefixCI t s = true /\ List.length t = n.
Proof.
  unfold firstAlt. intros H.
  destruct (find (fun t => isPrefixCI t s) greetingTokens) as [t|] eqn:F;
    [ | discriminate ].
  apply find_some in F as [I P]. exists t. simpl in H. injection H as H.
  repeat split; assumption.
Qed.

Lemma firstAlt_of_match (t s : jsstring) :
  In t greetingTokens -> isPrefixCI t s = true ->
  firstAlt s = Some (List.length t).
Proof.
  intros I P. unfold firstAlt.
  destruct (find (fun t => isPrefixCI t s) greetingTokens) as [t'|] eqn:F.
  - apply find_some in F as [I' P']. simpl. f_equal.
    apply tokens_same_start; try assumption.
    eapply prefixes_agree; eassumption.
  - exfalso. pose proof (find_none _ _ F t I) as N. simpl in N. congruence.
Qed.

(** Before an occurrence, the alternatives match exactly as they do on the
    text before it alone. *)
Lemma match_before_occurrence (tok occ post pre t : jsstring) :
  In tok greetingTokens -> matchCI tok occ = true ->
  In t greetingTokens -> pre <> [] ->
  isPrefixCI t (pre ++ occ ++ post) = isPrefixCI t pre.
Proof.
  intros Itok M It Hpre.
  destruct (isPrefixCI t pre) eqn:P.
  - apply isPrefixCI_app, P.
  - destruct (isPrefixCI t (pre ++ occ ++ post)) eqn:Q; [ | reflexivity ].
    exfalso.
    destruct (Nat.le_gt_cases (List.length t) (List.length pre)) as [L|L].
    + rewrite (isPrefixCI_within _ _ _ Q L) in P. discriminate.
    + pose proof (isPrefixCI_skip _ _ _ Q) as S1.
      destruct (matchCI_prefix _ _ post M) as [S2 _].
      pose proof (prefixes_agree _ _ _ S1 S2) as A.
      rewrite tokens_no_overlap in A; try assumption; [ discriminate | ].
      destruct pre; [ congruence | simpl in *; lia ].
Qed.

Lemma strip_occurrence_bounded (tok occ post : jsstring) :
  In tok greetingTokens -> matchCI tok occ = true ->
  forall n pre, (List.length pre <= n)%nat ->
    stripTokens (pre ++ occ ++ post) = stripTokens pre ++ stripTokens post.
Proof.
  intros Itok M. unfold stripTokens.
  induction n as [|n IH]; intros pre L.
  - destruct pre; [ | simpl in L; lia ]. simpl app.
    destruct (matchCI_prefix _ _ post M) as [P Len].
    pose proof (tokens_nonempty _ Itok) as NE.
    destruct occ as [|c occ]; [ simpl in Len; lia | ].
    simpl app. rewrite strip_cons. change (c :: occ ++ post) with ((c :: occ) ++ post).
    rewrite (firstAlt_of_match _ _ Itok P), <- Len. cbn [List.length].
    rewrite strip_skipn, skipn_app, skipn_all, Nat.sub_diag. reflexivity.
  - destruct pre as [|c pre]; [ apply (IH []); simpl; lia | ].
    simpl in L.
    assert (E : firstAlt ((c :: pre) ++ occ ++ post) = firstAlt (c :: pre)).
    { apply firstAlt_agree. intros t It.
      apply (match_before_occurrence tok occ post (c :: pre) t Itok M It). discriminate. }
    simpl app in *. rewrite !strip_cons, E.
    destruct (firstAlt (c :: pre)) as [[|m]|] eqn:F.
    + simpl. f_equal. apply IH. lia.
    + apply firstAlt_some in F as (t & _ & P & Lt).
      apply isPrefixCI_length in P. simpl in P.
      rewrite (strip_skipn _ m), (strip_skipn pre m), skipn_app.
      replace (m - List.length pre)%nat with 0%nat by lia. simpl skipn.
      apply IH. rewrite length_skipn. lia.
    + simpl. f_equal. apply IH. lia.
Qed.

Lemma strip_occurrence (tok occ post pre : jsstring) :
  In tok greetingTokens -> matchCI tok occ = true ->
  stripTokens (pre ++ occ ++ post) = stripTokens pre ++ stripTokens post.
Proof.
  intros I M. apply (strip_occurrence_bounded tok occ post I M (List.length pre)).
  lia.
Qed.

(** Text in which no alternative matches anywhere is kept as it is. *)
Lemma strip_untouched (s : jsstring) :
  (forall k, firstAlt (skipn k s) = None) -> stripTokens s = s.
Proof.
  unfold stripTokens. induction s as [|c r IH]; intros H; [ reflexivity | ].
  rewrite strip_cons, (H 0%nat : firstAlt (c :: r) = None). f_equal.
  apply IH. intros k. exact (H (S k)).
Qed.

(** An occurrence spelled in any letter case is one the pattern matches. *)
Lemma spells_matches (tok : jsstring) :
  forall occ, spells tok occ = true -> matchCI tok occ = true.
Proof.
  induction tok as [|p tok IH]; intros [|c occ] H; cbn [spells] in H;
    try discriminate; [ reflexivity | ].
  apply andb_true_iff in H as [Hc H]. cbn [matchCI].
  rewrite (IH _ H), andb_true_r.
  unfold unitEqCI, canonicalize, isLowerAscii.
  apply orb_true_iff in Hc as [E|E].
  - apply N.eqb_eq in E. subst c. apply N.eqb_refl.
  - apply andb_true_iff in E as [R E]. apply andb_true_iff in R as [R1 R2].
    apply N.eqb_eq in E. subst c. rewrite R1, R2. cbn [andb].
    apply N.leb_le in R1, R2.
    assert (X : (97 <=? p - 32)%N = false) by (apply N.leb_gt; lia).
    rewrite X. cbn [andb]. apply N.eqb_refl.
Qed.

Lemma tokens_start_small (p : N) (t : jsstring) :
  In (p :: t) greetingTokens -> isLowerAscii p = true.
Proof.
  intros H.
  assert (C : forallb (fun t => match t with
                                | p :: _ => isLowerAscii p
                                | [] => true
                                end) greetingTokens = true)
    by (vm_compute; reflexivity).
  rewrite forallb_forall in C. exact (C _ H).
Qed.

(** A match can only begin at the first unit of a pattern, small or
    capital. *)
Lemma firstAlt_initial (c : N) (r : jsstring) (n : nat) :
  firstAlt (c :: r) = Some (S n) -> isInitial c = true.
Proof.
  intros H. apply firstAlt_some in H as (t & I & P & L).
  unfold isInitial. apply existsb_exists. exists t. split; [ exact I | ].
  destruct t as [|p t]; [ discriminate L | ].
  pose proof (tokens_start_small p t I) as Hp.
  cbn [isPrefixCI] in P. apply andb_true_iff in P as [U _].
  unfold unitEqCI, canonicalize in U. rewrite Hp in U.
  unfold isLowerAscii in Hp. apply andb_true_iff in Hp as [P1 P2].
  apply N.leb_le in P1, P2. apply N.eqb_eq in U.
  destruct (isLowerAscii c) eqn:Lc.
  - unfold isLowerAscii in Lc. apply andb_true_iff in Lc as [C1 C2].
    apply N.leb_le in C1, C2.
    assert (E : c = p) by lia. subst c. rewrite N.eqb_refl. reflexivity.
  - subst c. rewrite N.eqb_refl. apply orb_true_r.
Qed.

(** Text that holds no such unit is kept as it is. *)
Lemma strip_no_initial (s : jsstring) :
  forallb (fun c => negb (isInitial c)) s = true -> stripTokens s = s.
Proof.
  unfold stripTokens. induction s as [|c r IH]; intros H; [ reflexivity | ].
  cbn [forallb] in H. apply andb_true_iff in H as [Hc Hr].
  apply negb_true_iff in Hc. rewrite strip_cons.
  destruct (firstAlt (c :: r)) as [[|n]|] eqn:F.
  - f_equal. apply IH, Hr.
  - apply firstAlt_initial in F. congruence.
  - f_equal. apply IH, Hr.
Qed.

End CleanNameFacts.

(** ** Trimming *)
Section TrimFacts.

Lemma trimStart_head (s : jsstring) :
  match trimStart s with
  | [] => True
  | c :: _ => isWhite c = false
  end.
Proof.
  induction s as [|c r IH]; [ exact I | ].
  cbn [trimStart]. destruct (isWhite c) eqn:W; [ exact IH | exact W ].
Qed.

Lemma trimStart_fixed (s : jsstring) :
  match s with [] => True | c :: _ => isWhite c = false end -> trimStart s = s.
Proof.
  destruct s as [|c r]; intros H; [ reflexivity | ].
  cbn [trimStart]. rewrite H. reflexivity.
Qed.

Lemma trimStart_suffix (s : jsstring) :
  exists p, s = p ++ trimStart s.
Proof.
  induction s as [|c r [p IH]]; [ exists []; reflexivity | ].
  cbn [trimStart]. destruct (isWhite c).
  - exists (c :: p). cbn [app]. f_equal. exact IH.
  - exists []. reflexivity.
Qed.

Lemma trimStart_length (s : jsstring) :
  (List.length (trimStart s) <= List.length s)%nat.
Proof.
  destruct (trimStart_suffix s) as [p E]. rewrite E at 2.
  rewrite length_app. lia.
Qed.

Lemma trim_length (s : jsstring) :
  (List.length (trim s) <= List.length s)%nat.
Proof.
  unfold trim, trimEnd. rewrite length_rev.
  pose proof (trimStart_length (rev (trimStart s))) as A.
  rewrite length_rev in A. pose proof (trimStart_length s). lia.
Qed.

Lemma trimStart_prefix (s : jsstring) :
  exists p, s = p ++ trimStart s /\ forallb isWhite p = true.
Proof.
  induction s as [|c r (p & E & W)]; [ exists []; split; reflexivity | ].
  cbn [trimStart]. destruct (isWhite c) eqn:Wc.
  - exists (c :: p). cbn [app forallb]. rewrite Wc, W.
    split; [ f_equal; exact E | reflexivity ].
  - exists []. split; reflexivity.
Qed.

(** What [trim] takes away is white space, at the two ends. *)
Lemma trim_decompose (s : jsstring) :
  exists l r, s = l ++ trim s ++ r
              /\ forallb isWhite l = true /\ forallb isWhite r = true.
Proof.
  destruct (trimStart_prefix s) as (l & El & Wl).
  destruct (trimStart_prefix (rev (trimStart s))) as (q & Eq & Wq).
  exists l, (rev q). split; [ | split; [ exact Wl | ] ].
  - unfold trim, trimEnd. rewrite <- rev_app_distr, <- Eq, rev_involutive. exact El.
  - apply forallb_forall. intros x I. apply in_rev in I.
    rewrite forallb_forall in Wq. apply Wq, I.
Qed.

(** What [trim] leaves starts and ends with a unit that is not white
    space. *)
Lemma trim_head (s : jsstring) :
  match trim s with [] => True | c :: _ => isWhite c = false end.
Proof.
  unfold trim, trimEnd. set (t := trimStart s). set (u := trimStart (rev t)).
  destruct (rev u) as [|c x] eqn:R; [ exact I | ].
  destruct (trimStart_suffix (rev t)) as [p E]. fold u in E.
  assert (T : t = (c :: x) ++ rev p).
  { rewrite <- R, <- rev_app_distr, <- E, rev_involutive. reflexivity. }
  pose proof (trimStart_head s) as H. fold t in H. rewrite T in H. exact H.
Qed.

Lemma trim_last (s : jsstring) :
  match rev (trim s) with [] => True | c :: _ => isWhite c = false end.
Proof.
  unfold trim, trimEnd. rewrite rev_involutive. apply trimStart_head.
Qed.

(** A trimmed string has no white space at either end, so trimming it
    again changes nothing. *)
Lemma trim_trim (s : jsstring) : trim (trim s) = trim s.
Proof.
  pose proof (trim_head s) as Hh. pose proof (trim_last s) as Hl.
  unfold trim at 1. rewrite (trimStart_fixed _ Hh).
  unfold trimEnd. rewrite (trimStart_fixed _ Hl). apply rev_involutive.
Qed.

End TrimFacts.

(** C10. Name cleaning deletes every occurrence of a greeting token, in any
    letter case and wherever it stands (inside a longer word too), and trims
    what is left.  For an occurrence [occ] of a token, spelled in small or
    capital letters, between [pre] and [post]: the occurrence is gone and
    the text on either side is cleaned on its own; what the result lacks of
    that text is white space at its two ends, and the result begins and
    ends with a unit that is not white space; and text on either side that
    holds no unit a token begins with is kept as it is. *)
Theorem cleanName_removes_every_occurrence
        (pre occ post tok : jsstring)
        (Htok : In tok greetingTokens)
        (Hocc : spells tok occ = true) :
  cleanName (pre ++ occ ++ post) = trim (stripTokens pre ++ stripTokens post)
  /\ (exists l r,
        stripTokens pre ++ stripTokens post
        = l ++ cleanName (pre ++ occ ++ post) ++ r
        /\ forallb isWhite l = true /\ forallb isWhite r = true)
  /\ (forall c rest, cleanName (pre ++ occ ++ post) = c :: rest -> isWhite c = false)
  /\ (forall c front,
        cleanName (pre ++ occ ++ post) = front ++ [c] -> isWhite c = false)
  /\ (forallb (fun c => negb (isInitial c)) (pre ++ post) = true ->
      stripTokens pre = pre /\ stripTokens post = post).
Proof.
  assert (E : cleanName (pre ++ occ ++ post)
              = trim (stripTokens pre ++ stripTokens post)).
  { unfold cleanName. f_equal.
    apply (strip_occurrence tok); [ exact Htok | apply spells_matches, Hocc ]. }
  rewrite E. split; [ reflexivity | ].
  split; [ apply trim_decompose | ].
  split; [ | split ].
  - intros c rest H.
    pose proof (trim_head (stripTokens pre ++ stripTokens post)) as T.
    rewrite H in T. exact T.
  - intros c front H.
    pose proof (trim_last (stripTokens pre ++ stripTokens post)) as T.
    rewrite H, rev_app_distr in T. exact T.
  - intros H. rewrite forallb_app in H. apply andb_true_iff in H as [A B].
    split; apply strip_no_initial; assumption.
Qed.

(** Each of the six tokens, in capitals or mixed case, with white space
    around the text; the last is the "hi" inside a name. *)
Lemma cleanName_removes_every_occurrence_witness :
  cleanName (js "  " ++ js "WELCOME" ++ js " Ravi ") = js "Ravi"
  /\ cleanName (js " " ++ js "HeLLo" ++ js " Ravi") = js "Ravi"
  /\ cleanName ([] ++ js "Mr." ++ js " Ravi  ") = js "Ravi"
  /\ cleanName ([] ++ js "MS." ++ js " Devi") = js "Devi"
  /\ cleanName (js " " ++ js "User:" ++ js " Ravi") = js "Ravi"
  /\ cleanName (js " Sac" ++ js "Hi" ++ js "n") = js "Sacn".
Proof.
  pose proof (fun pre occ post tok I O =>
                proj1 (cleanName_removes_every_occurrence pre occ post tok I O)) as E.
  pose proof (fun pre occ post tok I O =>
                proj2 (proj2 (proj2 (proj2
                  (cleanName_removes_every_occurrence pre occ post tok I O))))) as K.
  assert (T : forall pre occ post tok,
             In tok greetingTokens -> spells tok occ = true ->
             forallb (fun c => negb (isInitial c)) (pre ++ post) = true ->
             cleanName (pre ++ occ ++ post) = trim (pre ++ post)).
  { intros pre occ post tok I O F.
    destruct (K pre occ post tok I O F) as [A B].
    rewrite (E pre occ post tok I O), A, B. reflexivity. }
  split; [ apply (T (js "  ") (js "WELCOME") (js " Ravi ") (js "welcome"));
           [ left; reflexivity | reflexivity | reflexivity ] | ].
  split; [ apply (T (js " ") (js "HeLLo") (js " Ravi") (js "hello"));
           [ right; left; reflexivity | reflexivity | reflexivity ] | ].
  split; [ apply (T [] (js "Mr.") (js " Ravi  ") (js "mr."));
           [ do 3 right; left; reflexivity | reflexivity | reflexivity ] | ].
  split; [ apply (T [] (js "MS.") (js " Devi") (js "ms."));
           [ do 4 right; left; reflexivity | reflexivity | reflexivity ] | ].
  split; [ apply (T (js " ") (js "User:") (js " Ravi") (js "user:"));
           [ do 5 right; left; reflexivity | reflexivity | reflexivity ] | ].
  apply (T (js " Sac") (js "Hi") (js "n") (js "hi"));
    [ do 2 right; left; reflexivity | reflexivity | reflexivity ].
Defined.

(** Greetings and honorifics go, in any letter case; what is left is trimmed
    at its ends only. *)
Example cleanName_greeting :
  cleanName (js "WELCOME Mr. Ravi ") = js "Ravi".
Proof. reflexivity. Qed.

(** The pattern is applied in one pass: units that only come to stand next
    to each other once an occurrence between them is gone are kept. *)
Example cleanName_one_pass : cleanName (js "hhii") = js "hi".
Proof. reflexivity. Qed.

(** ** Escaping of user text *)
Section EscapeFacts.

Lemma shown_skipn (s : jsstring) :
  forall k, shown k s = shown 0 (skipn k s).
Proof.
  induction s as [|c r IH]; intros [|k]; try reflexivity.
  simpl skipn. cbn [shown]. apply IH.
Qed.

Lemma referenceAt_head (c : N) (r : jsstring) :
  c <> 38%N -> referenceAt (c :: r) = None.
Proof.
  intros Hc. unfold referenceAt.
  destruct (find (fun e => isPrefix (fst e) (c :: r)) references) as [e|] eqn:F;
    [ exfalso | reflexivity ].
  apply find_some in F as [I P].
  assert (H38 : N.eqb 38 c = true).
  { unfold references in I. simpl in I.
    destruct I as [I|[I|[I|[I|[]]]]]; subst e;
      apply andb_true_iff in P as [P _]; exact P. }
  apply N.eqb_eq in H38. congruence.
Qed.

Lemma shown_escapeUnit (c : N) (rest : jsstring) :
  shown 0 (escapeUnit c ++ rest) = c :: shown 0 rest.
Proof.
  unfold escapeUnit.
  destruct (N.eqb c 38) eqn:E1; [ apply N.eqb_eq in E1; subst c; reflexivity | ].
  destruct (N.eqb c 160) eqn:E2; [ apply N.eqb_eq in E2; subst c; reflexivity | ].
  destruct (N.eqb c 60) eqn:E3; [ apply N.eqb_eq in E3; subst c; reflexivity | ].
  destruct (N.eqb c 62) eqn:E4; [ apply N.eqb_eq in E4; subst c; reflexivity | ].
  apply N.eqb_neq in E1. simpl app. cbn [shown].
  rewrite (referenceAt_head c rest E1). reflexivity.
Qed.

Lemma shown_escapeHtml (text : jsstring) :
  shownText (escapeHtml text) = text.
Proof.
  unfold shownText, escapeHtml.
  induction text as [|c t IH]; [ reflexivity | ].
  simpl flat_map. rewrite shown_escapeUnit, IH. reflexivity.
Qed.

Lemma escapeUnit_no_tag (c : N) : opensTag (escapeUnit c) = false.
Proof.
  unfold escapeUnit.
  destruct (N.eqb c 38); [ reflexivity | ].
  destruct (N.eqb c 160); [ reflexivity | ].
  destruct (N.eqb c 60) eqn:E; [ reflexivity | ].
  destruct (N.eqb c 62); [ reflexivity | ].
  unfold opensTag. cbn [existsb]. rewrite N.eqb_sym, E. reflexivity.
Qed.

Lemma escapeHtml_no_tag (text : jsstring) :
  opensTag (escapeHtml text) = false.
Proof.
  unfold escapeHtml. induction text as [|c t IH]; [ reflexivity | ].
  simpl flat_map. unfold opensTag in *. rewrite existsb_app, IH.
  rewrite (escapeUnit_no_tag c : existsb (N.eqb 60) (escapeUnit c) = false).
  reflexivity.
Qed.

End EscapeFacts.

(** C2. The text of a user message reaches the page only through
    [escapeHtml]: the element built for it holds the escaped text, the
    escaped text has no [<] at which a tag could start, and what the browser
    shows for it is the text as the user typed it. *)
Theorem user_text_is_escaped (text : jsstring) (image : option jsstring) (w : World) :
  messagesDom (renderMessageToDOM text true image w)
  = messagesDom w
    ++ [MessageEntry true
          ((match truthy image with Some src => [Img src] | None => [] end)
           ++ (if isEmpty text then [] else [UserText (escapeHtml text)]))]
  /\ opensTag (escapeHtml text) = false
  /\ shownText (escapeHtml text) = text.
Proof.
  split; [ reflexivity | ].
  split; [ apply escapeHtml_no_tag | apply shown_escapeHtml ].
Qed.

Example escapeHtml_bold :
  escapeHtml (js "<b>hi</b>") = js "&lt;b&gt;hi&lt;/b&gt;".
Proof. reflexivity. Qed.

(** ** The selector pass *)
Section SelectorFacts.

Lemma selectorHit_some (t name : jsstring) :
  selectorHit t = Some name <-> qualifies t /\ name = cleanName t.
Proof.
  unfold selectorHit, qualifies.
  destruct (2 <? List.length (trim t))%nat eqn:L.
  - apply Nat.ltb_lt in L.
    destruct (cleanName t) as [|c r] eqn:C.
    + cbn [isEmpty negb andb]. split; [ discriminate | ].
      intros [(_ & H & _) _]. congruence.
    + cbn [isEmpty negb andb].
      destruct (includes (js "Log") (c :: r)) eqn:I; cbn [negb].
      * split; [ discriminate | ]. intros [(_ & _ & H) _]. discriminate.
      * split.
        -- intros H. injection H as <-. repeat split; try assumption. discriminate.
        -- intros [_ ->]. reflexivity.
  - apply Nat.ltb_ge in L. split; [ discriminate | ].
    intros [(H & _) _]. lia.
Qed.

Lemma selectorHit_none (t : jsstring) :
  selectorHit t = None <-> ~ qualifies t.
Proof.
  split.
  - intros H Q. assert (S : selectorHit t = Some (cleanName t))
      by (apply selectorHit_some; split; [ exact Q | reflexivity ]).
    congruence.
  - intros H. destruct (selectorHit t) as [n|] eqn:E; [ | reflexivity ].
    apply selectorHit_some in E as [Q _]. contradiction.
Qed.

Lemma selectorScan_some (page : Page) (name : jsstring) (sels : list jsstring) :
  selectorScan page sels = Some name <->
  exists pre sel post elText,
    sels = pre ++ sel :: post
    /\ querySelector page sel = Some elText
    /\ qualifies elText /\ name = cleanName elText
    /\ forall s t, In s pre -> querySelector page s = Some t -> ~ qualifies t.
Proof.
  induction sels as [|sel rest IH]; cbn [selectorScan].
  - split; [ discriminate | ].
    intros (pre & s & post & t & E & _). destruct pre; discriminate.
  - split.
    + intros H.
      destruct (querySelector page sel) as [t|] eqn:Q.
      * destruct (selectorHit t) as [n|] eqn:Hit.
        -- injection H as <-. apply selectorHit_some in Hit as [Ql ->].
           exists [], sel, rest, t.
           split; [ reflexivity | ]. split; [ exact Q | ].
           split; [ exact Ql | ]. split; [ reflexivity | ].
           intros s t' [].
        -- apply IH in H as (pre & s & post & t' & E & Q' & Ql & N & Before).
           exists (sel :: pre), s, post, t'. subst rest.
           split; [ reflexivity | ]. split; [ exact Q' | ].
           split; [ exact Ql | ]. split; [ exact N | ].
           intros s0 t0 [<-|I] Q0.
           ++ rewrite Q in Q0. injection Q0 as <-. apply selectorHit_none, Hit.
           ++ eapply Before; eassumption.
      * apply IH in H as (pre & s & post & t' & E & Q' & Ql & N & Before).
        exists (sel :: pre), s, post, t'. subst rest.
        split; [ reflexivity | ]. split; [ exact Q' | ].
        split; [ exact Ql | ]. split; [ exact N | ].
        intros s0 t0 [<-|I] Q0; [ congruence | eapply Before; eassumption ].
    + intros (pre & s & post & t & E & Q & Ql & N & Before).
      destruct pre as [|p pre]; simpl in E; injection E as <- E2; subst rest.
      * rewrite Q.
        rewrite (proj2 (selectorHit_some t name) (conj Ql N)). reflexivity.
      * assert (R : selectorScan page (pre ++ s :: post) = Some name).
        { apply IH. exists pre, s, post, t.
          split; [ reflexivity | ]. split; [ exact Q | ].
          split; [ exact Ql | ]. split; [ exact N | ].
          intros s0 t0 I. apply Before. right. exact I. }
        destruct (querySelector page sel) as [t0|] eqn:Q0; [ | exact R ].
        rewrite (proj2 (selectorHit_none t0)); [ exact R | ].
        apply (Before sel t0); [ left; reflexivity | exact Q0 ].
Qed.

Lemma selectorPass_nonempty (page : Page) (name : jsstring) :
  selectorPass page = Some name -> isEmpty name = false.
Proof.
  intros H. apply selectorScan_some in H as (_ & _ & _ & t & _ & _ & Q & -> & _).
  destruct Q as (_ & NE & _). destruct (cleanName t); [ congruence | reflexivity ].
Qed.

Lemma handleLogin_user (name : jsstring) (w : World) :
  isEmpty name = false -> user (state (handleLogin name w)) = Some name.
Proof.
  intros H. unfold handleLogin, orElse. rewrite H, H. reflexivity.
Qed.

End SelectorFacts.

(** C3, as the code has it. The selector pass resolves to [name] exactly
    when some selector's first element has a trimmed text longer than two
    units and a cleaned text that is not empty and does not contain "Log"
    (capital L, case-sensitive), [name] is that cleaned text, and no
    selector earlier in the list has such an element. *)
Theorem selector_pass_rule (page : Page) (name : jsstring) :
  selectorPass page = Some name <->
  exists pre sel post elText,
    selectors = pre ++ sel :: post
    /\ querySelector page sel = Some elText
    /\ qualifies elText /\ name = cleanName elText
    /\ forall s t, In s pre -> querySelector page s = Some t -> ~ qualifies t.
Proof. apply selectorScan_some. Qed.

Lemma selector_pass_rule_witness :
  exists pre sel post elText,
    selectors = pre ++ sel :: post
    /\ querySelector twoNamesPage sel = Some elText
    /\ qualifies elText /\ js "Ravi Kumar" = cleanName elText
    /\ forall s t, In s pre -> querySelector twoNamesPage s = Some t -> ~ qualifies t.
Proof.
  exact (proj1 (selector_pass_rule twoNamesPage (js "Ravi Kumar")) eq_refl).
Defined.

(** C3, as stated, fails: an element whose cleaned text is "login" contains
    "log" and still resolves the identity, where the stated rule resolves
    nothing. *)
Lemma selector_rule_counterexample :
  includesCI (js "log") (cleanName (js "login")) = true
  /\ selectorPass loginPage = Some (js "login")
  /\ selectorScan_spec loginPage selectors = None.
Proof. repeat split; reflexivity. Qed.

(** The length test is on the trimmed text, not on the cleaned one: "Hi Al"
    resolves to the two-unit name "Al". *)
Example selector_short_name :
  selectorPass shortNamePage = Some (js "Al")
  /\ selectorScan_spec shortNamePage selectors = None.
Proof. split; reflexivity. Qed.

(** C5. When the selector pass and the heuristic pass would each resolve an
    identity, one detection run resolves to the selector pass's name. *)
Theorem selector_result_wins (page : Page) (w : World) (n m : jsstring)
        (Hsel : selectorPass page = Some n)
        (Hheu : heuristicPass page = Resolved m) :
  snd (detectUserOnPage page w) = Resolved n
  /\ user (state (fst (detectUserOnPage page w))) = Some n
  /\ user (state (startUserDetection page w)) = Some n.
Proof.
  pose proof (selectorPass_nonempty _ _ Hsel) as NE.
  unfold startUserDetection, detectUserOnPage. rewrite Hsel. cbn [fst snd].
  repeat split; apply handleLogin_user, NE.
Qed.

Lemma selector_result_wins_witness :
  heuristicPass twoNamesPage = Resolved (js "Anita Devi")
  /\ user (state (startUserDetection twoNamesPage (freshWorld None)))
     = Some (js "Ravi Kumar").
Proof.
  split; [ reflexivity | ].
  apply (selector_result_wins twoNamesPage (freshWorld None)
           (js "Ravi Kumar") (js "Anita Devi")); reflexivity.
Defined.

(** ** What the operations keep *)
Section Frames.

Lemma keepsSession_refl (w : World) : keepsSession w w.
Proof. split; [ tauto | exists []; symmetry; apply app_nil_r ]. Qed.

Lemma keepsSession_trans (a b c : World) :
  keepsSession a b -> keepsSession b c -> keepsSession a c.
Proof.
  intros [U1 [m1 M1]] [U2 [m2 M2]]. split; [ tauto | ].
  exists (m1 ++ m2). rewrite M2, M1, app_assoc. reflexivity.
Qed.

Lemma keepsSession_same_state (w w' : World) :
  state w' = state w -> keepsSession w w'.
Proof.
  intros E. unfold keepsSession. rewrite E. split; [ tauto | ].
  exists []. symmetry. apply app_nil_r.
Qed.

Lemma keepsSession_fold {A : Type} (f : World -> A -> World) (l : list A) :
  (forall w a, keepsSession w (f w a)) ->
  forall w, keepsSession w (fold_left f l w).
Proof.
  intros H. induction l as [|a l IH]; intros w; simpl.
  - apply keepsSession_refl.
  - eapply keepsSession_trans; [ apply H | apply IH ].
Qed.

Lemma orElse_guest_nonempty (name : jsstring) :
  isEmpty (orElse name (js "Guest")) = false.
Proof. destruct name; reflexivity. Qed.

Lemma handleLogin_keeps (name : jsstring) (w : World) :
  keepsSession w (handleLogin name w).
Proof.
  unfold handleLogin.
  pose proof (orElse_guest_nonempty name) as NE.
  destruct (orElse name (js "Guest")) as [|c r]; [ discriminate | ].
  cbn [isEmpty]. split.
  - intros _. reflexivity.
  - exists []. cbn. symmetry. apply app_nil_r.
Qed.

Lemma detectUserOnPage_keeps (page : Page) (w : World) :
  keepsSession w (fst (detectUserOnPage page w)).
Proof.
  unfold detectUserOnPage.
  destruct (selectorPass page) as [n|].
  - cbn [fst]. eapply keepsSession_trans; [ | apply handleLogin_keeps ].
    apply keepsSession_same_state. reflexivity.
  - destruct (heuristicPass page) as [n| |]; cbn [fst];
      try apply keepsSession_refl.
    eapply keepsSession_trans; [ | apply handleLogin_keeps ].
    apply keepsSession_same_state. reflexivity.
Qed.

Lemma startUserDetection_keeps (page : Page) (w : World) :
  keepsSession w (startUserDetection page w).
Proof.
  unfold startUserDetection.
  pose proof (detectUserOnPage_keeps page w) as K.
  destruct (detectUserOnPage page w) as [w' [n| |]]; cbn [fst] in K; exact K.
Qed.

Lemma observerCallback_keeps (page : Page) (i : nat) (w : World) :
  keepsSession w (observerCallback page i w).
Proof.
  unfold observerCallback.
  destruct (nth_error (runs w) i) as [r|]; [ | apply keepsSession_refl ].
  destruct (connected r); [ | apply keepsSession_refl ].
  destruct (hasUser (state w)).
  - apply keepsSession_same_state. reflexivity.
  - pose proof (detectUserOnPage_keeps page w) as K.
    destruct (detectUserOnPage page w) as [w' [n| |]]; cbn [fst] in K; exact K.
Qed.

Lemma mutation_keeps (page : Page) (w : World) :
  keepsSession w (mutation page w).
Proof.
  unfold mutation. apply keepsSession_fold. intros. apply observerCallback_keeps.
Qed.

Lemma timeout_keeps (i : nat) (w : World) :
  keepsSession w (timeout i w).
Proof.
  unfold timeout.
  destruct (nth_error (runs w) i) as [r|]; [ | apply keepsSession_refl ].
  destruct (timer r); [ | apply keepsSession_refl ].
  cbn [state setRuns].
  destruct (hasUser (state w)).
  - apply keepsSession_same_state. reflexivity.
  - eapply keepsSession_trans; [ | apply handleLogin_keeps ].
    apply keepsSession_same_state. reflexivity.
Qed.

Lemma addMessage_keeps (t : jsstring) (isUser : bool) (img : option jsstring)
      (w : World) :
  keepsSession w (addMessage t isUser img w).
Proof.
  split; [ intros H; exact H | ]. cbn. eexists. reflexivity.
Qed.

Lemma sendMessage_keeps (r : FetchResult) (w : World) :
  keepsSession w (sendMessage r w).
Proof.
  unfold sendMessage, sendBegin.
  destruct (hasUser (state w)); cbn [negb]; [ | apply keepsSession_refl ].
  assert (B : keepsSession w
                (showTyping true (setPreview None (setPendingImage None
                  (setInputValue [] (addMessage (trim (inputValue w)) true
                                                (pendingImage w) w)))))).
  { eapply keepsSession_trans; [ apply addMessage_keeps | ].
    apply keepsSession_same_state. reflexivity. }
  assert (E : forall w0, keepsSession w0 (sendEnd r w0)).
  { intros w0. destruct r as [| |[|] resp]; cbn [sendEnd].
    - apply keepsSession_same_state. reflexivity.
    - apply keepsSession_same_state. reflexivity.
    - eapply keepsSession_trans; [ | apply addMessage_keeps ].
      apply keepsSession_same_state. reflexivity.
    - eapply keepsSession_trans; [ | apply addMessage_keeps ].
      apply keepsSession_same_state. reflexivity. }
  destruct (trim (inputValue w)) as [|c m];
    [ destruct (truthy (pendingImage w)); [ | apply keepsSession_refl ] | ];
    (eapply keepsSession_trans; [ exact B | apply E ]).
Qed.

Lemma handlePaste_frame (items : list ClipboardItem) (w : World) :
  let w' := handlePaste items w in
  state w' = state w /\ store w' = store w /\ runs w' = runs w
  /\ messagesDom w' = messagesDom w /\ console w' = console w
  /\ userDisplay w' = userDisplay w.
Proof.
  unfold handlePaste. generalize (startedReads items). intros l. revert w.
  induction l as [|u l IH]; intros w; simpl; [ repeat split | ].
  destruct (IH (readerOnload u w)) as (A & B & C & D & E & F).
  rewrite A, B, C, D, E, F. repeat split.
Qed.

Lemma drag_frame (e : MouseMove) (w : World) :
  state (drag e w) = state w /\ store (drag e w) = store w
  /\ dragVars (drag e w) = dragVars w.
Proof.
  unfold drag. destruct (isDragging (dragVars w)); repeat split.
Qed.

Lemma dragMoves_frame (moves : list MouseMove) (w : World) :
  state (dragMoves moves w) = state w /\ store (dragMoves moves w) = store w
  /\ dragVars (dragMoves moves w) = dragVars w.
Proof.
  unfold dragMoves. revert w.
  induction moves as [|m l IH]; intros w; simpl; [ repeat split | ].
  destruct (IH (drag m w)) as (A & B & C). destruct (drag_frame m w) as (A' & B' & C').
  rewrite A, B, C, A', B', C'. repeat split.
Qed.

Lemma dragStart_frame (e : MouseDown) (w : World) :
  state (dragStart e w) = state w /\ store (dragStart e w) = store w
  /\ style (dragStart e w) = style w.
Proof.
  unfold dragStart. destruct (onControl e); [ repeat split | ].
  destruct (onHandle e); repeat split.
Qed.

Lemma apply_keeps (op : Op) (w : World) :
  isLogoutOp op = false -> keepsSession w (apply op w).
Proof.
  destruct op; cbn [isLogoutOp apply]; intros H; try discriminate.
  - apply keepsSession_same_state. reflexivity.
  - unfold toggleChat. destruct (hidden w); split; try (intros U; exact U);
      exists []; cbn; symmetry; apply app_nil_r.
  - apply sendMessage_keeps.
  - apply keepsSession_same_state. apply handlePaste_frame.
  - apply keepsSession_same_state. reflexivity.
  - apply keepsSession_same_state. apply dragStart_frame.
  - apply keepsSession_same_state. apply drag_frame.
  - split; [ intros U; exact U | ]. exists []. cbn. symmetry. apply app_nil_r.
  - apply mutation_keeps.
  - apply timeout_keeps.
Qed.

End Frames.

(** ** Detection runs *)
Section DetectionFacts.

Lemma acceptLine_nonempty (n : jsstring) :
  acceptLine n = true -> isEmpty n = false.
Proof.
  unfold acceptLine. intros H.
  repeat (apply andb_true_iff in H as [H _]).
  apply negb_true_iff, H.
Qed.

Lemma scanContainers_nonempty (b : IconButton) (n : jsstring) (l : list jsstring) :
  scanContainers b l = Resolved n -> isEmpty n = false.
Proof.
  induction l as [|t l IH]; cbn [scanContainers]; [ discriminate | ].
  destruct (malformedClassSelector (className b)); [ discriminate | ].
  destruct (candidateIn t) as [m|] eqn:C; [ | exact IH ].
  intros H. injection H as <-. unfold candidateIn in C.
  apply find_some in C as [_ A]. apply acceptLine_nonempty, A.
Qed.

Lemma heuristicPass_nonempty (page : Page) (n : jsstring) :
  heuristicPass page = Resolved n -> isEmpty n = false.
Proof.
  unfold heuristicPass. induction (iconButtons page) as [|b l IH];
    cbn [heuristicScan]; [ discriminate | ].
  destruct (nearLogout b) as [m| |] eqn:E; try discriminate; [ | exact IH ].
  intros H. injection H as <-. unfold nearLogout in E.
  destruct (isLogout b); [ | discriminate ].
  eapply scanContainers_nonempty, E.
Qed.

Lemma handleLogin_messages (name : jsstring) (w : World) :
  messages (state (handleLogin name w)) = messages (state w)
  /\ messagesDom (handleLogin name w) = messagesDom w
  /\ runs (handleLogin name w) = runs w.
Proof.
  unfold handleLogin. destruct (isEmpty (orElse name (js "Guest"))); repeat split.
Qed.

Lemma detect_notfound (page : Page) (w : World) :
  detectName page = NotFound -> detectUserOnPage page w = (w, NotFound).
Proof.
  unfold detectName, detectUserOnPage.
  destruct (selectorPass page); [ discriminate | ].
  destruct (heuristicPass page); try discriminate. reflexivity.
Qed.

Lemma startUserDetection_result (page : Page) (w : World) :
  user (state (startUserDetection page w))
  = match detectName page with
    | Resolved n => Some n
    | _ => user (state w)
    end
  /\ messages (state (startUserDetection page w)) = messages (state w)
  /\ messagesDom (startUserDetection page w) = messagesDom w.
Proof.
  unfold startUserDetection, detectName, detectUserOnPage.
  destruct (selectorPass page) as [n|] eqn:S.
  - rewrite (handleLogin_user n _ (selectorPass_nonempty _ _ S)).
    destruct (handleLogin_messages n (log (FoundViaSelector n) w)) as (A & B & _).
    rewrite A, B. repeat split.
  - destruct (heuristicPass page) as [n| |] eqn:H; try (repeat split; fail).
    rewrite (handleLogin_user n _ (heuristicPass_nonempty _ _ H)).
    destruct (handleLogin_messages n (log (FoundNearLogout n) w)) as (A & B & _).
    rewrite A, B. repeat split.
Qed.

Lemma observerCallback_idle (page : Page) (i : nat) (w : World) :
  hasUser (state w) = false -> detectName page = NotFound ->
  observerCallback page i w = w.
Proof.
  intros U D. unfold observerCallback.
  destruct (nth_error (runs w) i) as [r|]; [ | reflexivity ].
  destruct (connected r); [ | reflexivity ].
  rewrite U, (detect_notfound _ _ D). reflexivity.
Qed.

Lemma mutation_idle (page : Page) (w : World) :
  hasUser (state w) = false -> detectName page = NotFound -> mutation page w = w.
Proof.
  intros U D. unfold mutation. induction (seq 0 (List.length (runs w))) as [|i l IH].
  - reflexivity.
  - simpl. rewrite (observerCallback_idle _ _ _ U D). exact IH.
Qed.

Lemma mutations_idle (pages : list Page) (w : World) :
  hasUser (state w) = false ->
  (forall p, In p pages -> detectName p = NotFound) ->
  fold_left (fun w p => mutation p w) pages w = w.
Proof.
  intros U. induction pages as [|p l IH]; intros D; [ reflexivity | ].
  simpl. rewrite (mutation_idle _ _ U (D p (or_introl eq_refl))).
  apply IH. intros q I. apply D. right. exact I.
Qed.

Lemma updateRun_last (f : Run -> Run) (r : Run) (l : list Run) :
  updateRun f (List.length l) (l ++ [r]) = l ++ [f r].
Proof.
  induction l as [|a l IH]; [ reflexivity | ]. simpl. rewrite IH. reflexivity.
Qed.

Lemma nth_error_last (r : Run) (l : list Run) :
  nth_error (l ++ [r]) (List.length l) = Some r.
Proof.
  induction l as [|a l IH]; [ reflexivity | exact IH ].
Qed.

(** Where every attempt returns [false], the run ends in the fallback: the
    timer attached by [startUserDetection] finds no identity, disconnects
    the observer, writes its one console line and logs "Guest" in; a later
    firing changes nothing. *)
Lemma guest_fallback (page : Page) (pages : list Page) (w : World) :
  hasUser (state w) = false ->
  detectName page = NotFound ->
  (forall p, In p pages -> detectName p = NotFound) ->
  let i := List.length (runs w) in
  let w1 := fold_left (fun w p => mutation p w) pages (startUserDetection page w) in
  let w2 := timeout i w1 in
  runs w1 = runs w ++ [mkRun true (Some detectionTimeout)]
  /\ user (state w2) = Some (js "Guest")
  /\ console w2 = console w ++ [UsingGuest]
  /\ runs w2 = runs w ++ [mkRun false None]
  /\ timeout i w2 = w2.
Proof.
  intros U D Ds i w1 w2.
  assert (E1 : w1 = setRuns (runs w ++ [mkRun true (Some detectionTimeout)]) w).
  { unfold w1, startUserDetection. rewrite (detect_notfound _ _ D).
    apply mutations_idle; [ exact U | exact Ds ]. }
  assert (E2 : w2 = handleLogin (js "Guest")
                      (log UsingGuest (setRuns (runs w ++ [mkRun false None]) w))).
  { unfold w2, timeout. rewrite E1. cbn [runs setRuns]. unfold i.
    rewrite nth_error_last. cbn [timer]. rewrite updateRun_last.
    cbn [state setRuns]. rewrite U. reflexivity. }
  split; [ rewrite E1; reflexivity | ].
  split; [ rewrite E2; reflexivity | ].
  split; [ rewrite E2; reflexivity | ].
  split; [ rewrite E2; reflexivity | ].
  rewrite E2. unfold timeout, i. cbn [runs handleLogin orElse isEmpty js
    list_ascii_of_string map saveState setStore setUserDisplay setState log setRuns].
  rewrite nth_error_last. reflexivity.
Qed.

Lemma apply_undetected (op : Op) (w : World) :
  isLogoutOp op = false -> user (state w) = None -> runs w = [] ->
  user (state (apply op w)) = None /\ runs (apply op w) = []
  /\ console (apply op w) = console w.
Proof.
  destruct op; cbn [isLogoutOp apply]; intros H U R; try discriminate.
  - repeat split; assumption.
  - unfold toggleChat. destruct (hidden w); repeat split; assumption.
  - unfold sendMessage, sendBegin, hasUser. rewrite U. repeat split; assumption.
  - destruct (handlePaste_frame items w) as (A & _ & C & _ & E & _).
    rewrite A, C, E. repeat split; assumption.
  - repeat split; assumption.
  - unfold dragStart. destruct (onControl e); [ repeat split; assumption | ].
    destruct (onHandle e); repeat split; assumption.
  - unfold drag. destruct (isDragging (dragVars w)); repeat split; assumption.
  - repeat split; assumption.
  - unfold mutation. rewrite R. repeat split; assumption.
  - unfold timeout. rewrite R. destruct i; repeat split; assumption.
Qed.

Lemma run_undetected (ops : list Op) :
  forall w, user (state w) = None -> runs w = [] ->
  let w' := run (filter (fun op => negb (isLogoutOp op)) ops) w in
  user (state w') = None /\ console w' = console w.
Proof.
  induction ops as [|op l IH]; intros w U R; [ split; [ exact U | reflexivity ] | ].
  cbn [filter]. destruct (isLogoutOp op) eqn:L; cbn [negb]; [ apply IH; assumption | ].
  unfold run. cbn [fold_left].
  destruct (apply_undetected op w L U R) as (U' & R' & C').
  destruct (IH (apply op w) U' R') as [A B]. unfold run in A, B.
  rewrite A, B, C'. split; reflexivity.
Qed.

End DetectionFacts.

(** *** The running widget never reaches the fallback *)
Section DocumentFacts.

Lemma heuristicScan_app (a b : list IconButton) :
  heuristicScan (a ++ b)
  = match heuristicScan a with
    | NotFound => heuristicScan b
    | o => o
    end.
Proof.
  induction a as [|x a IH]; [ reflexivity | ].
  cbn [app heuristicScan]. destruct (nearLogout x); try reflexivity. exact IH.
Qed.

(** Next to the widget's logout button stands its close button, whose
    glyph is three units long: the first container scanned yields it as a
    name, whatever the status line shows. *)
Lemma widget_controls_resolve (display : jsstring) :
  heuristicScan (widgetElements display) = Resolved closeGlyph.
Proof.
  unfold widgetElements. cbn [heuristicScan].
  change (nearLogout svgElement) with NotFound.
  change (nearLogout avatarElement) with NotFound.
  cbv iota.
  replace (nearLogout (logoutElement display))
    with (Resolved closeGlyph); [ reflexivity | ].
  unfold nearLogout.
  change (isLogout (logoutElement display)) with true.
  cbn [logoutElement containerTexts firstn scanContainers className].
  change (malformedClassSelector (js "tn-chatbot-logout")) with false.
  change (candidateIn closeGlyph) with (Some closeGlyph).
  reflexivity.
Qed.

(** On the document of a running widget, [detectUserOnPage] never returns
    [false]: it resolves a name or throws. *)
Lemma document_never_notfound (w : World) (host : Page) :
  detectName (documentOf w host) <> NotFound.
Proof.
  unfold detectName.
  destruct (selectorPass (documentOf w host)); [ discriminate | ].
  unfold heuristicPass, documentOf. cbn [iconButtons].
  rewrite heuristicScan_app, widget_controls_resolve.
  destruct (heuristicScan (iconButtons host)); discriminate.
Qed.

End DocumentFacts.

(** *** No run is ever started *)
Section FallbackFacts.

Lemma handleLogin_console (name : jsstring) (w : World) :
  console (handleLogin name w) = console w.
Proof.
  unfold handleLogin. destruct (isEmpty (orElse name (js "Guest"))); reflexivity.
Qed.

Lemma not_guest_snoc (c : list LogLine) (l : LogLine) :
  ~ In UsingGuest c -> l <> UsingGuest -> ~ In UsingGuest (c ++ [l]).
Proof.
  intros H D I. apply in_app_or in I as [I|[I|[]]]; [ exact (H I) | exact (D I) ].
Qed.

Lemma startUserDetection_on_document (w0 w : World) (host : Page) :
  runs w = [] -> ~ In UsingGuest (console w) ->
  runs (startUserDetection (documentOf w0 host) w) = []
  /\ ~ In UsingGuest (console (startUserDetection (documentOf w0 host) w)).
Proof.
  intros R C. pose proof (document_never_notfound w0 host) as NF.
  unfold detectName in NF. unfold startUserDetection, detectUserOnPage.
  destruct (selectorPass (documentOf w0 host)) as [n|].
  - destruct (handleLogin_messages n (log (FoundViaSelector n) w)) as (_ & _ & Rn).
    rewrite Rn, handleLogin_console. split; [ exact R | ].
    apply not_guest_snoc; [ exact C | discriminate ].
  - destruct (heuristicPass (documentOf w0 host)) as [n| |]; [ | congruence | ].
    + destruct (handleLogin_messages n (log (FoundNearLogout n) w)) as (_ & _ & Rn).
      rewrite Rn, handleLogin_console. split; [ exact R | ].
      apply not_guest_snoc; [ exact C | discriminate ].
    + split; assumption.
Qed.

Lemma render_all_frame (l : list Message) :
  forall w,
    let w' := fold_left (fun w m =>
                           renderMessageToDOM (text m)
                             (match sender m with SenderUser => true | SenderBot => false end)
                             (image m) w) l w in
    runs w' = runs w /\ console w' = console w.
Proof.
  induction l as [|m l IH]; intros w; [ split; reflexivity | ].
  simpl. destruct (IH (renderMessageToDOM (text m)
                         (match sender m with SenderUser => true | SenderBot => false end)
                         (image m) w)) as [A B].
  rewrite A, B. split; reflexivity.
Qed.

Lemma applyState_frame (w : World) :
  runs (applyState w) = runs w /\ console (applyState w) = console w.
Proof.
  unfold applyState.
  set (w1 := match top (position (state w)) with Auto => w | _ => _ end).
  assert (E1 : runs w1 = runs w /\ console w1 = console w)
    by (unfold w1; destruct (top (position (state w))); split; reflexivity).
  set (w2 := if isOpen (state w1) then setHidden false w1 else w1).
  assert (E2 : runs w2 = runs w /\ console w2 = console w)
    by (unfold w2; destruct (isOpen (state w1)); exact E1).
  destruct (messages (state w2)) as [|m l].
  - destruct (hasUser (state w2)); exact E2.
  - destruct (render_all_frame (m :: l) (setMessagesDom [] w2)) as [A B].
    rewrite A, B. exact E2.
Qed.

Lemma sendMessage_console (r : FetchResult) (w : World) :
  runs (sendMessage r w) = runs w
  /\ (console (sendMessage r w) = console w
      \/ console (sendMessage r w) = console w ++ [SendError]).
Proof.
  unfold sendMessage, sendBegin.
  destruct (hasUser (state w)); cbn [negb]; [ | split; [ reflexivity | left; reflexivity ] ].
  destruct (trim (inputValue w)) as [|c m];
    [ destruct (truthy (pendingImage w));
      [ | split; [ reflexivity | left; reflexivity ] ] | ];
    destruct r as [| |[|] resp]; cbn; split; try reflexivity;
      try (left; reflexivity); right; reflexivity.
Qed.

Lemma apply_no_run (op : Op) (w : World) :
  runs w = [] -> ~ In UsingGuest (console w) ->
  runs (apply op w) = [] /\ ~ In UsingGuest (console (apply op w)).
Proof.
  intros R C. destruct op; cbn [apply].
  - split; assumption.
  - unfold toggleChat. destruct (hidden w); split; assumption.
  - destruct (sendMessage_console r w) as [Rn [Cn|Cn]]; rewrite Rn, Cn;
      split; try assumption.
    apply not_guest_snoc; [ exact C | discriminate ].
  - destruct (handlePaste_frame items w) as (_ & _ & Rn & _ & Cn & _).
    rewrite Rn, Cn. split; assumption.
  - split; assumption.
  - unfold dragStart. destruct (onControl e); [ split; assumption | ].
    destruct (onHandle e); split; assumption.
  - unfold drag. destruct (isDragging (dragVars w)); split; assumption.
  - split; assumption.
  - unfold mutation. rewrite R. split; assumption.
  - unfold timeout. rewrite R. destruct i; split; assumption.
  - apply (startUserDetection_on_document w); assumption.
Qed.

(** X24. Once [init] has created the widget, the observer and the timer are
    never created and the fallback line is never written, whatever the store
    held, whatever the host page shows and whatever happens on it: every
    attempt resolves some name (at the least the widget's own status line
    or the glyph of its close button) or throws. *)
Lemma fallback_unreachable (stored : option State) (host : Page) (ops : list Op) :
  runs (run ops (init stored host)) = []
  /\ ~ In UsingGuest (console (run ops (init stored host))).
Proof.
  assert (I : runs (init stored host) = []
              /\ ~ In UsingGuest (console (init stored host))).
  { unfold init.
    set (w0 := createChatWidget (loadState (freshWorld stored))).
    assert (F : runs w0 = [] /\ console w0 = [])
      by (unfold w0, loadState; destruct stored; split; reflexivity).
    destruct (applyState_frame w0) as [A B]. destruct F as [F1 F2].
    destruct (hasUser (state (applyState w0))).
    - rewrite A, B, F1, F2. split; [ reflexivity | intros [] ].
    - apply startUserDetection_on_document.
      + rewrite A. exact F1.
      + rewrite B, F2. intros []. }
  revert I. generalize (init stored host). unfold run.
  induction ops as [|op l IH]; intros w [R C]; [ split; assumption | ].
  cbn [fold_left]. apply IH. apply apply_no_run; assumption.
Qed.

End FallbackFacts.

(** C4, on a page where the claim fails. The host page holds an empty
    [span] whose id contains "user" and one logout link without a class
    attribute.  Neither pass resolves an identity: the selector pass finds
    nothing that qualifies and the heuristic pass throws on the selector
    ['.'] it builds.  The exception leaves [startUserDetection] before the
    observer and the timer exist, so whatever happens on the page
    afterwards, short of a logout, the identity stays unset and the
    fallback line is never written. *)
Theorem classless_logout_never_resolves (ops : list Op) :
  selectorPass (documentOf (freshWorld None) classlessLogoutPage) = None
  /\ heuristicPass (documentOf (freshWorld None) classlessLogoutPage) = Threw
  /\ runs (init None classlessLogoutPage) = []
  /\ user (state (run (filter (fun op => negb (isLogoutOp op)) ops)
                      (init None classlessLogoutPage))) = None
  /\ console (run (filter (fun op => negb (isLogoutOp op)) ops)
                  (init None classlessLogoutPage)) = [].
Proof.
  split; [ reflexivity | ]. split; [ reflexivity | ]. split; [ reflexivity | ].
  apply (run_undetected ops (init None classlessLogoutPage)); reflexivity.
Qed.

(** The empty class name gives the selector ['.']. *)
Example classSelector_empty : classSelector [] = js ".".
Proof. reflexivity. Qed.

(** In a document without the widget and with nothing to detect, the
    fallback does come. *)
Example guest_fallback_blank :
  user (state (timeout 0 (mutation blankPage
                            (startUserDetection blankPage (freshWorld None)))))
  = Some (js "Guest").
Proof. reflexivity. Qed.

(** On a host page with nothing to detect, the selector pass reads the
    widget's own status line. *)
Example status_line_is_read :
  selectorPass (documentOf (freshWorld None) blankPage) = Some (js "Online")
  /\ user (state (init None blankPage)) = Some (js "Online")
  /\ runs (init None blankPage) = [].
Proof. repeat split; reflexivity. Qed.

(** After a logout the status line still shows the name, and the scan that
    follows reads it back. *)
Example logout_reads_status_line :
  user (state raviWorld) = Some (js "Ravi")
  /\ user (state (apply (OpLogout blankPage) raviWorld)) = Some (js "Ravi")
  /\ messages (state (apply (OpLogout blankPage) raviWorld)) = [].
Proof. repeat split; reflexivity. Qed.

(** ** Logout *)
Section LogoutFacts.

Lemma render_all_state (l : list Message) :
  forall w,
    state (fold_left (fun w m =>
                        renderMessageToDOM (text m)
                          (match sender m with SenderUser => true | SenderBot => false end)
                          (image m) w) l w) = state w.
Proof.
  induction l as [|m l IH]; intros w; [ reflexivity | ].
  simpl. rewrite IH. reflexivity.
Qed.

Lemma applyState_keeps (w : World) : keepsSession w (applyState w).
Proof.
  unfold applyState.
  set (w1 := match top (position (state w)) with Auto => w | _ => _ end).
  assert (E1 : state w1 = state w) by (unfold w1; destruct (top (position (state w))); reflexivity).
  set (w2 := if isOpen (state w1) then setHidden false w1 else w1).
  assert (E2 : state w2 = state w)
    by (unfold w2; destruct (isOpen (state w1)); rewrite <- E1; reflexivity).
  destruct (messages (state w2)) as [|m l] eqn:M.
  - destruct (hasUser (state w2)) eqn:U.
    + split.
      * intros _. unfold showWelcomeMessage, hasUser in *. cbn. exact U.
      * rewrite <- E2. eexists. unfold showWelcomeMessage. cbn. reflexivity.
    + apply keepsSession_same_state, E2.
  - apply keepsSession_same_state. rewrite render_all_state. exact E2.
Qed.

Lemma init_keeps (stored : State) (page : Page) :
  (hasUser stored = true -> hasUser (state (init (Some stored) page)) = true)
  /\ exists more, messages (state (init (Some stored) page)) = messages stored ++ more.
Proof.
  unfold init.
  set (w0 := createChatWidget (loadState (freshWorld (Some stored)))).
  assert (E : state w0 = stored) by reflexivity.
  assert (K : keepsSession w0
                (if hasUser (state (applyState w0)) then applyState w0
                 else startUserDetection (documentOf (applyState w0) page)
                                         (applyState w0))).
  { destruct (hasUser (state (applyState w0))); [ apply applyState_keeps | ].
    eapply keepsSession_trans; [ apply applyState_keeps | apply startUserDetection_keeps ]. }
  unfold keepsSession in K. rewrite E in K. exact K.
Qed.

(** On a host page that matches none of the selectors, the selector pass
    finds the widget's status line. *)
Lemma status_line_selected (w : World) (host : Page) :
  (forall sel, querySelector host sel = None) ->
  qualifies (userDisplay w) ->
  selectorPass (documentOf w host) = Some (cleanName (userDisplay w)).
Proof.
  intros Hhost Q. apply selectorScan_some.
  exists (firstn 5 selectors), (js "span[id*=" ++ quoted (js "user") ++ js "]"),
         (skipn 6 selectors), (userDisplay w).
  split; [ reflexivity | ].
  split.
  { cbn [documentOf querySelector]. rewrite Hhost. unfold widgetSelector.
    match goal with
    | |- context [eqs ?a ?b] => change (eqs a b) with true
    end.
    reflexivity. }
  split; [ exact Q | ]. split; [ reflexivity | ].
  intros s t I K. cbn [documentOf querySelector] in K. rewrite Hhost in K.
  unfold widgetSelector in K.
  vm_compute in I.
  destruct I as [<-|[<-|[<-|[<-|[<-|[]]]]]]; vm_compute in K; discriminate.
Qed.

End LogoutFacts.

(** C6, where the code departs from the claim.  [handleLogout] unsets the
    identity and empties the log and its view, but it leaves the status
    line as it is and starts detection at once; on a host page that matches
    none of the selectors, the selector [span[id*="user"]] then finds the
    widget's own status line, and whenever that line passes the test of the
    selector pass the identity is set again, to the cleaned text of the
    line, before [handleLogout] returns.  No observer and no timer are
    created: the session is not back in its scanning state. *)
Theorem logout_reads_identity_back (w : World) (host : Page)
        (Hhost : forall sel, querySelector host sel = None)
        (Hshown : qualifies (userDisplay w)) :
  user (state (apply (OpLogout host) w)) = Some (cleanName (userDisplay w))
  /\ userDisplay (apply (OpLogout host) w) = cleanName (userDisplay w)
  /\ messages (state (apply (OpLogout host) w)) = []
  /\ messagesDom (apply (OpLogout host) w) = []
  /\ runs (apply (OpLogout host) w) = runs w
  /\ console (apply (OpLogout host) w)
     = console w ++ [FoundViaSelector (cleanName (userDisplay w))].
Proof.
  cbn [apply]. unfold handleLogout, startUserDetection, detectUserOnPage.
  rewrite (status_line_selected w host Hhost Hshown).
  destruct Hshown as (_ & NE & _).
  unfold handleLogin, orElse.
  destruct (cleanName (userDisplay w)) as [|c r]; [ congruence | ].
  cbn [isEmpty]. repeat split.
Qed.

(** A user detected as "Ravi" logs out on a page that shows no name. *)
Lemma logout_reads_identity_back_witness :
  user (state raviWorld) = Some (js "Ravi")
  /\ user (state (apply (OpLogout blankPage) raviWorld)) = Some (js "Ravi")
  /\ runs (apply (OpLogout blankPage) raviWorld) = [].
Proof.
  split; [ reflexivity | ].
  assert (Q : qualifies (userDisplay raviWorld)).
  { split; [ apply Nat.ltb_lt; reflexivity | ].
    split; [ discriminate | reflexivity ]. }
  destruct (logout_reads_identity_back raviWorld blankPage (fun _ => eq_refl) Q)
    as (U & _ & _ & _ & R & _).
  split; [ exact U | exact R ].
Defined.

(** *** The store follows the state *)
Section SyncFacts.

Lemma handleLogin_in_sync (name : jsstring) (w : World) :
  store w = Some (state w) ->
  store (handleLogin name w) = Some (state (handleLogin name w)).
Proof.
  intros H. unfold handleLogin.
  destruct (isEmpty (orElse name (js "Guest"))); [ exact H | reflexivity ].
Qed.

Lemma detectUserOnPage_in_sync (page : Page) (w : World) :
  store w = Some (state w) ->
  store (fst (detectUserOnPage page w)) = Some (state (fst (detectUserOnPage page w))).
Proof.
  intros H. unfold detectUserOnPage.
  destruct (selectorPass page) as [n|]; cbn [fst].
  - apply handleLogin_in_sync. exact H.
  - destruct (heuristicPass page) as [n| |]; cbn [fst]; try exact H.
    apply handleLogin_in_sync. exact H.
Qed.

Lemma observerCallback_in_sync (page : Page) (i : nat) (w : World) :
  store w = Some (state w) ->
  store (observerCallback page i w) = Some (state (observerCallback page i w)).
Proof.
  intros H. unfold observerCallback.
  destruct (nth_error (runs w) i) as [r|]; [ | exact H ].
  destruct (connected r); [ | exact H ].
  destruct (hasUser (state w)); [ exact H | ].
  pose proof (detectUserOnPage_in_sync page w H) as K.
  destruct (detectUserOnPage page w) as [w' [n| |]]; exact K.
Qed.

(** Once the store holds the state of this page, every operation of the
    page leaves it so. *)
Lemma apply_in_sync (op : Op) (w : World) :
  store w = Some (state w) -> store (apply op w) = Some (state (apply op w)).
Proof.
  intros H. destruct op; cbn [apply].
  - exact H.
  - unfold toggleChat. destruct (hidden w); reflexivity.
  - unfold sendMessage, sendBegin.
    destruct (hasUser (state w)); cbn [negb]; [ | exact H ].
    destruct (trim (inputValue w)) as [|c m];
      [ destruct (truthy (pendingImage w)); [ | exact H ] | ];
      destruct r as [| |[|] resp]; reflexivity.
  - destruct (handlePaste_frame items w) as (A & B & _). rewrite A, B. exact H.
  - exact H.
  - destruct (dragStart_frame e w) as (A & B & _). rewrite A, B. exact H.
  - destruct (drag_frame e w) as (A & B & _). rewrite A, B. exact H.
  - reflexivity.
  - unfold mutation. revert H.
    generalize (seq 0 (List.length (runs w))) (documentOf w host).
    intros l doc. revert w.
    induction l as [|i l IH]; intros w H; [ exact H | ].
    cbn [fold_left]. apply IH. apply observerCallback_in_sync. exact H.
  - unfold timeout.
    destruct (nth_error (runs w) i) as [r|]; [ | exact H ].
    destruct (timer r); [ | exact H ].
    cbn [state setRuns]. destruct (hasUser (state w)); [ exact H | ].
    apply handleLogin_in_sync. exact H.
  - unfold handleLogout, startUserDetection.
    match goal with
    | |- context [detectUserOnPage ?p ?c] =>
        pose proof (detectUserOnPage_in_sync p c eq_refl) as K;
        destruct (detectUserOnPage p c) as [w' [n| |]]; exact K
    end.
Qed.

End SyncFacts.

(** ** Dragging *)

(** C7. In a gesture that starts on the header, every position a move
    computes is clamped on both axes: while the widget fits the viewport,
    the offset written by the move, and the one the release stores, lie
    between 0 and the viewport size less the widget size. *)
Theorem drag_stays_in_viewport
        (w : World) (down : MouseDown) (moves : list MouseMove) (last : MouseMove)
        (Hstart : acceptsDrag down = true)
        (Hw : (0 <= innerWidth last - offsetWidth last)%Z)
        (Hh : (0 <= innerHeight last - offsetHeight last)%Z) :
  let w1 := drag last (dragMoves moves (dragStart down w)) in
  exists x y,
    left (style w1) = Px x /\ top (style w1) = Px y
    /\ (0 <= x <= innerWidth last - offsetWidth last)%Z
    /\ (0 <= y <= innerHeight last - offsetHeight last)%Z
    /\ position (state (dragEnd w1))
       = {| top := Px y; left := Px x; bottom := Auto; right := Auto |}.
Proof.
  intros w1.
  assert (D : isDragging (dragVars (dragMoves moves (dragStart down w))) = true).
  { destruct (dragMoves_frame moves (dragStart down w)) as (_ & _ & V). rewrite V.
    unfold acceptsDrag in Hstart. apply andb_true_iff in Hstart as [C H].
    apply negb_true_iff in C. unfold dragStart. rewrite C, H. reflexivity. }
  unfold w1, drag. rewrite D. cbn [negb].
  eexists. eexists.
  split; [ reflexivity | ]. split; [ reflexivity | ].
  split; [ lia | ]. split; [ lia | reflexivity ].
Qed.

Lemma drag_stays_in_viewport_witness :
  exists x y,
    position (state (dragEnd (drag farMove (dragStart headerDown raviWorld))))
    = {| top := Px y; left := Px x; bottom := Auto; right := Auto |}
    /\ (0 <= x <= 900)%Z /\ (0 <= y <= 120)%Z.
Proof.
  destruct (drag_stays_in_viewport raviWorld headerDown [] farMove)
    as (x & y & _ & _ & X & Y & P);
    [ reflexivity | simpl; lia | simpl; lia | ].
  exists x, y. split; [ exact P | ]. split; [ exact X | exact Y ].
Defined.

(** C8. The moves of a gesture write nothing to the store and leave [state]
    as it was; the release writes once.  What the store holds after the
    release has, as its position, the offsets the widget was last moved to,
    with [bottom] and [right] on [auto]: after a press on the header and a
    last move these are the clamped offsets of that move.  Its other fields
    are those of the state, so when the store held this page's state before
    the gesture, what it holds after differs from it in the position
    only. *)
Theorem drag_persists_on_release_only
        (w : World) (down : MouseDown) (moves : list MouseMove) :
  let w1 := dragMoves moves (dragStart down w) in
  let final := {| top := top (style w1); left := left (style w1);
                  bottom := Auto; right := Auto |} in
  store w1 = store w
  /\ state w1 = state w
  /\ (forall m, store (drag m w1) = store w /\ state (drag m w1) = state w)
  /\ store (dragEnd w1) = Some (withPosition final (state w))
  /\ option_map position (store (dragEnd w1)) = Some final
  /\ option_map isOpen (store (dragEnd w1)) = Some (isOpen (state w))
  /\ option_map messages (store (dragEnd w1)) = Some (messages (state w))
  /\ option_map user (store (dragEnd w1)) = Some (user (state w))
  /\ (forall last,
        acceptsDrag down = true ->
        option_map position (store (dragEnd (drag last w1)))
        = Some {| top := Px (Z.min (Z.max 0 (offsetTop down + (clientY last - downY down)))
                                   (innerHeight last - offsetHeight last));
                  left := Px (Z.min (Z.max 0 (offsetLeft down + (clientX last - downX down)))
                                    (innerWidth last - offsetWidth last));
                  bottom := Auto; right := Auto |})
  /\ (store w = Some (state w) ->
      store (dragEnd w1) = option_map (withPosition final) (store w)
      /\ option_map isOpen (store (dragEnd w1)) = option_map isOpen (store w)
      /\ option_map messages (store (dragEnd w1)) = option_map messages (store w)
      /\ option_map user (store (dragEnd w1)) = option_map user (store w)).
Proof.
  intros w1 final.
  destruct (dragMoves_frame moves (dragStart down w)) as (S1 & T1 & V1).
  destruct (dragStart_frame down w) as (S0 & T0 & _).
  assert (Est : state w1 = state w) by (unfold w1; rewrite S1; exact S0).
  assert (Esr : store w1 = store w) by (unfold w1; rewrite T1; exact T0).
  split; [ exact Esr | ]. split; [ exact Est | ].
  split.
  { intros m. destruct (drag_frame m w1) as (A & B & _). rewrite A, B.
    split; assumption. }
  assert (R : store (dragEnd w1) = Some (withPosition final (state w))).
  { unfold dragEnd, final. cbn. rewrite Est. reflexivity. }
  split; [ exact R | ]. rewrite R. cbn [option_map].
  split; [ reflexivity | ]. split; [ reflexivity | ].
  split; [ reflexivity | ]. split; [ reflexivity | ].
  split.
  { intros last Hstart.
    assert (D : dragVars w1
                = mkDragVars true (downX down) (downY down)
                             (offsetLeft down) (offsetTop down)).
    { unfold w1. rewrite V1. unfold acceptsDrag in Hstart.
      apply andb_true_iff in Hstart as [C H]. apply negb_true_iff in C.
      unfold dragStart. rewrite C, H. reflexivity. }
    unfold drag. rewrite D. reflexivity. }
  intros Sync. rewrite Sync. cbn [option_map]. repeat split.
Qed.

(** A press on the header at (100, 50) with the widget at (900, 400), one
    move far to the lower right, and the release: the store holds the
    clamped offsets. *)
Lemma drag_persists_on_release_only_witness :
  option_map position (store raviWorld)
  = Some {| top := Auto; left := Auto; bottom := Px 20; right := Px 20 |}
  /\ option_map position
       (store (dragEnd (drag farMove (dragMoves [] (dragStart headerDown raviWorld)))))
     = Some {| top := Px 50; left := Px 900; bottom := Auto; right := Auto |}
  /\ option_map messages
       (store (dragEnd (dragMoves [farMove] (dragStart headerDown raviWorld))))
     = option_map messages (store raviWorld).
Proof.
  split; [ reflexivity | ].
  destruct (drag_persists_on_release_only raviWorld headerDown [])
    as (_ & _ & _ & _ & _ & _ & _ & _ & P & _).
  destruct (drag_persists_on_release_only raviWorld headerDown [farMove])
    as (_ & _ & _ & _ & _ & _ & _ & _ & _ & H).
  split; [ exact (P farMove eq_refl) | ].
  destruct (H eq_refl) as (_ & _ & M & _). exact M.
Defined.

(** The store is written as a whole: a release also replaces what another
    page had stored in the meantime. *)
Example drag_overwrites_stale_store :
  option_map messages (store staleWorld)
  = Some [mkMessage SenderUser (js "from another tab") None]
  /\ option_map messages
       (store (dragEnd (dragMoves [farMove] (dragStart headerDown staleWorld))))
     = Some [].
Proof. split; reflexivity. Qed.

(** ** Pasting *)





(** ** Failed sends *)

(** C1, as the code has it. After the user's own message is logged, a send
    whose request throws shows one entry of the error class and leaves the
    log and the store alone; a reply that reports no success appends the
    fixed apology to the log as an ordinary bot message, stores it, and
    shows it as any bot message.  The reply's own text is appended in
    neither case. *)
Theorem send_failure_paths (w w' : World) (Hsend : sendBegin w = Some w') :
  messages (state w')
  = messages (state w)
    ++ [mkMessage SenderUser (trim (inputValue w)) (pendingImage w)]
  /\ (forall r, r = FetchRejected \/ r = JsonRejected ->
        messagesDom (sendMessage r w) = messagesDom w' ++ [ErrorEntry connectErrorHtml]
        /\ state (sendMessage r w) = state w'
        /\ store (sendMessage r w) = store w')
  /\ (forall resp,
        messagesDom (sendMessage (Reply false resp) w)
        = messagesDom w' ++ [MessageEntry false [BotText sorryText]]
        /\ messages (state (sendMessage (Reply false resp) w))
           = messages (state w') ++ [mkMessage SenderBot sorryText None]
        /\ store (sendMessage (Reply false resp) w)
           = Some (state (sendMessage (Reply false resp) w))).
Proof.
  split.
  - unfold sendBegin in Hsend.
    destruct (hasUser (state w)); cbn [negb] in Hsend; [ | discriminate ].
    destruct (trim (inputValue w)) as [|c m];
      [ destruct (truthy (pendingImage w)); [ | discriminate ] | ];
      injection Hsend as <-; reflexivity.
  - split.
    + intros r [->| ->]; unfold sendMessage; rewrite Hsend; repeat split.
    + intros resp. unfold sendMessage. rewrite Hsend. repeat split.
Qed.

Lemma send_failure_paths_witness :
  messagesDom (sendMessage (Reply false (js "down")) raviWorld)
  = [MessageEntry true [UserText (js "hello")];
     MessageEntry false [BotText sorryText]].
Proof.
  destruct (send_failure_paths raviWorld
              (showTyping true (setPreview None (setPendingImage None
                 (setInputValue [] (addMessage (js "hello") true None raviWorld)))))
              eq_refl) as (_ & _ & H).
  destruct (H (js "down")) as (D & _). exact D.
Defined.

(** C1, as stated, fails: the two failures are shown by entries of
    different classes, and the reply without success adds a bot message to
    the log that the thrown request does not. *)
Lemma send_failures_differ :
  messagesDom (sendMessage FetchRejected raviWorld)
  = [MessageEntry true [UserText (js "hello")]; ErrorEntry connectErrorHtml]
  /\ messagesDom (sendMessage (Reply false []) raviWorld)
     = [MessageEntry true [UserText (js "hello")];
        MessageEntry false [BotText sorryText]]
  /\ messagesDom (sendMessage FetchRejected raviWorld)
     <> messagesDom (sendMessage (Reply false []) raviWorld)
  /\ messages (state (sendMessage FetchRejected raviWorld))
     = [mkMessage SenderUser (js "hello") None]
  /\ messages (state (sendMessage (Reply false []) raviWorld))
     = [mkMessage SenderUser (js "hello") None;
        mkMessage SenderBot sorryText None]
  /\ option_map messages (store (sendMessage (Reply false []) raviWorld))
     = Some [mkMessage SenderUser (js "hello") None;
             mkMessage SenderBot sorryText None].
Proof.
  split; [ reflexivity | ]. split; [ reflexivity | ].
  split; [ | repeat split ].
  intros H. vm_compute in H. discriminate H.
Qed.

(** * Further properties of the script *)

(** ** Page load *)
Section LoadFacts.

Lemma render_all (l : list Message) :
  forall d w,
    fold_left (fun w m =>
                 renderMessageToDOM (text m)
                   (match sender m with SenderUser => true | SenderBot => false end)
                   (image m) w) l (setMessagesDom d w)
    = setMessagesDom (d ++ map entryOf l) w.
Proof.
  induction l as [|m l IH]; intros d w; cbn [fold_left map].
  - rewrite app_nil_r. reflexivity.
  - change (renderMessageToDOM (text m)
              (match sender m with SenderUser => true | SenderBot => false end)
              (image m) (setMessagesDom d w))
      with (setMessagesDom (d ++ [entryOf m]) w).
    rewrite IH, <- app_assoc. reflexivity.
Qed.

(** What [applyState] does to each part of the world. *)
Lemma applyState_parts (w : World) :
  user (state (applyState w)) = user (state w)
  /\ hidden (applyState w) = (if isOpen (state w) then false else hidden w)
  /\ style (applyState w)
     = match top (position (state w)) with
       | Auto => style w
       | t => {| top := t; left := left (position (state w));
                 bottom := Auto; right := Auto |}
       end
  /\ position (state (applyState w)) = position (state w)
  /\ isOpen (state (applyState w)) = isOpen (state w).
Proof.
  unfold applyState.
  set (w1 := match top (position (state w)) with Auto => w | _ => _ end).
  assert (E1 : state w1 = state w /\ hidden w1 = hidden w
               /\ style w1 = match top (position (state w)) with
                             | Auto => style w
                             | t => {| top := t; left := left (position (state w));
                                       bottom := Auto; right := Auto |}
                             end)
    by (unfold w1; destruct (top (position (state w))); repeat split).
  destruct E1 as (S1 & H1 & Y1).
  set (w2 := if isOpen (state w1) then setHidden false w1 else w1).
  assert (E2 : state w2 = state w
               /\ hidden w2 = (if isOpen (state w) then false else hidden w)
               /\ style w2 = style w1).
  { unfold w2. rewrite S1. destruct (isOpen (state w)); repeat split; assumption. }
  destruct E2 as (S2 & H2 & Y2).
  destruct (messages (state w2)) as [|m l] eqn:M.
  - destruct (hasUser (state w2)).
    + unfold showWelcomeMessage. cbn. rewrite S2, H2, Y2, Y1. repeat split.
    + rewrite S2, H2, Y2, Y1. repeat split.
  - rewrite render_all. cbn. rewrite S2, H2, Y2, Y1. repeat split.
Qed.

Lemma applyState_with_log (w : World) :
  messages (state w) <> [] ->
  state (applyState w) = state w
  /\ store (applyState w) = store w
  /\ messagesDom (applyState w) = map entryOf (messages (state w)).
Proof.
  intros NE. unfold applyState.
  set (w1 := match top (position (state w)) with Auto => w | _ => _ end).
  assert (E1 : state w1 = state w /\ store w1 = store w)
    by (unfold w1; destruct (top (position (state w))); split; reflexivity).
  destruct E1 as (S1 & T1).
  set (w2 := if isOpen (state w1) then setHidden false w1 else w1).
  assert (E2 : state w2 = state w /\ store w2 = store w)
    by (unfold w2; destruct (isOpen (state w1)); split; assumption).
  destruct E2 as (S2 & T2).
  destruct (messages (state w2)) as [|m l] eqn:M; [ rewrite S2 in M; congruence | ].
  rewrite render_all. cbn. rewrite S2, T2. rewrite S2 in M. rewrite M.
  repeat split.
Qed.

Lemma applyState_welcome (w : World) :
  messages (state w) = [] -> hasUser (state w) = true ->
  exists t,
    messages (state (applyState w)) = [mkMessage SenderBot t None]
    /\ store (applyState w) = Some (state (applyState w))
    /\ messagesDom (applyState w) = messagesDom w ++ [entryOf (mkMessage SenderBot t None)].
Proof.
  intros E U. unfold applyState.
  set (w1 := match top (position (state w)) with Auto => w | _ => _ end).
  assert (E1 : state w1 = state w /\ messagesDom w1 = messagesDom w)
    by (unfold w1; destruct (top (position (state w))); split; reflexivity).
  destruct E1 as (S1 & D1).
  set (w2 := if isOpen (state w1) then setHidden false w1 else w1).
  assert (E2 : state w2 = state w /\ messagesDom w2 = messagesDom w)
    by (unfold w2; destruct (isOpen (state w1)); split; assumption).
  destruct E2 as (S2 & D2).
  rewrite S2, E, U. unfold showWelcomeMessage. cbn. rewrite S2, E, D2.
  eexists. repeat split.
Qed.

Lemma applyState_idle (w : World) :
  messages (state w) = [] -> hasUser (state w) = false ->
  state (applyState w) = state w /\ messagesDom (applyState w) = messagesDom w
  /\ store (applyState w) = store w.
Proof.
  intros E U. unfold applyState.
  set (w1 := match top (position (state w)) with Auto => w | _ => _ end).
  assert (E1 : state w1 = state w /\ messagesDom w1 = messagesDom w /\ store w1 = store w)
    by (unfold w1; destruct (top (position (state w))); repeat split).
  destruct E1 as (S1 & D1 & T1).
  set (w2 := if isOpen (state w1) then setHidden false w1 else w1).
  assert (E2 : state w2 = state w /\ messagesDom w2 = messagesDom w /\ store w2 = store w)
    by (unfold w2; destruct (isOpen (state w1)); repeat split; assumption).
  destruct E2 as (S2 & D2 & T2).
  rewrite S2, E, U. repeat split; assumption.
Qed.

Lemma startUserDetection_ui (page : Page) (w : World) :
  hidden (startUserDetection page w) = hidden w
  /\ style (startUserDetection page w) = style w
  /\ position (state (startUserDetection page w)) = position (state w)
  /\ isOpen (state (startUserDetection page w)) = isOpen (state w).
Proof.
  unfold startUserDetection, detectUserOnPage, handleLogin.
  destruct (selectorPass page) as [n|].
  - destruct (isEmpty (orElse n (js "Guest"))); repeat split.
  - destruct (heuristicPass page) as [n| |]; try (repeat split; fail).
    destruct (isEmpty (orElse n (js "Guest"))); repeat split.
Qed.

Lemma init_returning (s : State) (host : Page) :
  hasUser s = true -> init (Some s) host = applyState (loaded s).
Proof.
  intros U. unfold init. fold (loaded s).
  assert (H : hasUser (state (applyState (loaded s))) = true).
  { destruct (applyState_parts (loaded s)) as (A & _).
    unfold hasUser in *. rewrite A. exact U. }
  rewrite H. reflexivity.
Qed.

Lemma init_ui (s : State) (host : Page) :
  hidden (init (Some s) host) = negb (isOpen s)
  /\ style (init (Some s) host)
     = match top (position s) with
       | Auto => unsetStyle
       | t => {| top := t; left := left (position s); bottom := Auto; right := Auto |}
       end
  /\ position (state (init (Some s) host)) = position s
  /\ isOpen (state (init (Some s) host)) = isOpen s.
Proof.
  unfold init. fold (loaded s).
  destruct (applyState_parts (loaded s)) as (_ & H & Y & P & O).
  change (state (loaded s)) with s in *.
  change (hidden (loaded s)) with true in H.
  change (style (loaded s)) with unsetStyle in Y.
  destruct (hasUser (state (applyState (loaded s)))).
  - rewrite H, Y, P, O. destruct (isOpen s); repeat split.
  - destruct (startUserDetection_ui (documentOf (applyState (loaded s)) host)
                                    (applyState (loaded s))) as (H' & Y' & P' & O').
    rewrite H', Y', P', O', H, Y, P, O. destruct (isOpen s); repeat split.
Qed.

End LoadFacts.

(** ** Opening and closing *)

(** X1. A toggle flips the widget's visibility, records it in [isOpen] and
    stores it, so that a page loaded from the store afterwards shows the
    widget as the toggle left it; a second toggle undoes the first. *)
Theorem toggle_survives_reload (w : World) (host : Page) :
  hidden (toggleChat w) = negb (hidden w)
  /\ isOpen (state (toggleChat w)) = hidden w
  /\ store (toggleChat w) = Some (state (toggleChat w))
  /\ messages (state (toggleChat w)) = messages (state w)
  /\ user (state (toggleChat w)) = user (state w)
  /\ hidden (toggleChat (toggleChat w)) = hidden w
  /\ hidden (init (store (toggleChat w)) host) = hidden (toggleChat w).
Proof.
  assert (S : store (toggleChat w) = Some (state (toggleChat w)))
    by (unfold toggleChat; destruct (hidden w); reflexivity).
  assert (O : isOpen (state (toggleChat w)) = hidden w)
    by (unfold toggleChat; destruct (hidden w); reflexivity).
  assert (H : hidden (toggleChat w) = negb (hidden w))
    by (unfold toggleChat; destruct (hidden w); reflexivity).
  repeat split; try assumption.
  - unfold toggleChat. destruct (hidden w); reflexivity.
  - unfold toggleChat. destruct (hidden w); reflexivity.
  - unfold toggleChat at 1. rewrite H. destruct (hidden w); reflexivity.
  - rewrite S. destruct (init_ui (state (toggleChat w)) host) as (I & _).
    rewrite I, O, H. reflexivity.
Qed.

(** X2. The open signal of the toolbar icon or the popup opens a hidden
    widget and stores that it is open; it never closes an open widget, a
    repeated signal changes nothing more, and any other action is
    ignored. *)
Theorem openChat_only_opens (action : jsstring) (w : World) :
  hidden (iconClicked w) = false
  /\ iconClicked (iconClicked w) = iconClicked w
  /\ (hidden w = true ->
      isOpen (state (iconClicked w)) = true
      /\ store (iconClicked w) = Some (state (iconClicked w)))
  /\ (hidden w = false -> onMessage action w = w)
  /\ (eqs action (js "openChat") = false -> onMessage action w = w).
Proof.
  assert (T : hidden w = true -> iconClicked w = toggleChat w).
  { intros H. unfold iconClicked, openChatAction, onMessage.
    change (eqs (js "openChat") (js "openChat")) with true. rewrite H. reflexivity. }
  assert (K : forall a v, hidden v = false -> onMessage a v = v).
  { intros a v H. unfold onMessage. rewrite H.
    destruct (eqs a (js "openChat")); reflexivity. }
  assert (O : hidden w = true -> hidden (toggleChat w) = false)
    by (intros H; unfold toggleChat; rewrite H; reflexivity).
  destruct (hidden w) eqn:H.
  - rewrite (T eq_refl). pose proof (O eq_refl) as O'.
    split; [ exact O' | ].
    split; [ apply (K openChatAction), O' | ].
    split; [ intros _; unfold toggleChat; rewrite H; split; reflexivity | ].
    split; [ discriminate | ].
    intros E. unfold onMessage. rewrite E. reflexivity.
  - unfold iconClicked. rewrite !(K openChatAction w H).
    split; [ exact H | ]. split; [ reflexivity | ].
    split; [ discriminate | ].
    split; [ intros _; apply K, H | ].
    intros E. unfold onMessage. rewrite E. reflexivity.
Qed.

Lemma openChat_only_opens_witness :
  hidden (freshWorld None) = true
  /\ isOpen (state (iconClicked (freshWorld None))) = true
  /\ onMessage (js "ping") (iconClicked (freshWorld None)) = iconClicked (freshWorld None).
Proof.
  destruct (openChat_only_opens (js "ping") (freshWorld None)) as (_ & _ & O & _).
  destruct (openChat_only_opens (js "ping") (iconClicked (freshWorld None)))
    as (_ & _ & _ & _ & I).
  split; [ reflexivity | ]. split; [ apply O; reflexivity | apply I; reflexivity ].
Defined.

(** ** Sending *)
Section SendFacts.

Lemma trimStart_white (s : jsstring) :
  forallb isWhite s = true -> trimStart s = [].
Proof.
  induction s as [|c r IH]; intros H; [ reflexivity | ].
  cbn [forallb] in H. apply andb_true_iff in H as [Hc Hr].
  cbn [trimStart]. rewrite Hc. apply IH, Hr.
Qed.

Lemma trim_white (s : jsstring) :
  forallb isWhite s = true -> trim s = [].
Proof.
  intros H. unfold trim. rewrite (trimStart_white s H). reflexivity.
Qed.

Lemma sendBegin_none (w : World) :
  sendBegin w = None <->
  hasUser (state w) = false
  \/ (trim (inputValue w) = [] /\ truthy (pendingImage w) = None).
Proof.
  unfold sendBegin.
  destruct (hasUser (state w)); cbn [negb].
  - destruct (trim (inputValue w)) as [|c m].
    + destruct (truthy (pendingImage w)).
      * split; [ discriminate | intros [H|[_ H]]; discriminate ].
      * split; [ intros _; right; split; reflexivity | reflexivity ].
    + split; [ discriminate | intros [H|[H _]]; discriminate ].
  - split; [ intros _; left; reflexivity | reflexivity ].
Qed.

End SendFacts.

(** X3. The guards of a send: without an identity, or with an input that is
    empty once trimmed and no pending image, a send does nothing at all (no
    message, no request, the input is not even cleared), and these are the
    only cases in which it stops early.  An input of white space alone is
    such an input. *)
Theorem send_guards (r : FetchResult) (w : World) :
  (sendBegin w = None <->
   hasUser (state w) = false
   \/ (trim (inputValue w) = [] /\ truthy (pendingImage w) = None))
  /\ (sendBegin w = None -> sendMessage r w = w)
  /\ (forallb isWhite (inputValue w) = true -> pendingImage w = None ->
      sendMessage r w = w).
Proof.
  split; [ apply sendBegin_none | ].
  assert (G : sendBegin w = None -> sendMessage r w = w)
    by (intros H; unfold sendMessage; rewrite H; reflexivity).
  split; [ exact G | ].
  intros W P. apply G. apply sendBegin_none. right.
  rewrite (trim_white _ W), P. split; reflexivity.
Qed.

Lemma send_guards_witness :
  sendMessage FetchRejected (setInputValue (js "   ") raviWorld)
  = setInputValue (js "   ") raviWorld.
Proof.
  destruct (send_guards FetchRejected (setInputValue (js "   ") raviWorld))
    as (_ & _ & H).
  apply H; reflexivity.
Defined.

(** X4. A send that passes the guards logs the user's trimmed text with the
    pending image first, empties the input, drops the pending image and its
    preview, and leaves the typing indicator off whatever the request's
    outcome; while the request is out the indicator is on.  On a successful
    reply the log gains exactly the user's message and then the reply, and
    the store holds that log. *)
Theorem send_postconditions (r : FetchResult) (w w' : World)
        (Hsend : sendBegin w = Some w') :
  let mine := mkMessage SenderUser (trim (inputValue w)) (pendingImage w) in
  typing w' = true
  /\ inputValue (sendMessage r w) = []
  /\ pendingImage (sendMessage r w) = None
  /\ preview (sendMessage r w) = None
  /\ typing (sendMessage r w) = false
  /\ (exists more,
        messages (state (sendMessage r w)) = messages (state w) ++ mine :: more)
  /\ (forall resp, r = Reply true resp ->
        messages (state (sendMessage r w))
        = messages (state w) ++ [mine; mkMessage SenderBot resp None]
        /\ store (sendMessage r w) = Some (state (sendMessage r w))).
Proof.
  intros mine.
  assert (E : w' = showTyping true (setPreview None (setPendingImage None
                (setInputValue [] (addMessage (trim (inputValue w)) true
                                              (pendingImage w) w))))).
  { unfold sendBegin in Hsend.
    destruct (hasUser (state w)); cbn [negb] in Hsend; [ | discriminate ].
    destruct (trim (inputValue w)) as [|c m];
      [ destruct (truthy (pendingImage w)); [ | discriminate ] | ];
      injection Hsend as <-; reflexivity. }
  unfold sendMessage. rewrite Hsend. subst w'.
  split; [ reflexivity | ].
  do 4 (split; [ destruct r as [| |[|] resp]; reflexivity | ]).
  split.
  - destruct r as [| |[|] resp]; cbn; eexists;
      rewrite <- ?app_assoc; reflexivity.
  - intros resp ->. cbn. rewrite <- app_assoc. split; reflexivity.
Qed.

Lemma send_postconditions_witness :
  messages (state (sendMessage (Reply true (js "Apply online.")) raviWorld))
  = [mkMessage SenderUser (js "hello") None;
     mkMessage SenderBot (js "Apply online.") None].
Proof.
  destruct (send_postconditions (Reply true (js "Apply online.")) raviWorld
              (showTyping true (setPreview None (setPendingImage None
                 (setInputValue [] (addMessage (js "hello") true None raviWorld)))))
              eq_refl) as (_ & _ & _ & _ & _ & _ & H).
  destruct (H (js "Apply online.") eq_refl) as (M & _). exact M.
Defined.

(** ** Cleaned names *)

Lemma strip_length (s : jsstring) :
  forall k, (List.length (strip k s) <= List.length s)%nat.
Proof.
  induction s as [|c r IH]; intros k; [ destruct k; simpl; lia | ].
  destruct k as [|k].
  - rewrite strip_cons. destruct (firstAlt (c :: r)) as [[|n]|].
    + pose proof (IH 0%nat). simpl. lia.
    + pose proof (IH n). simpl. lia.
    + pose proof (IH 0%nat). simpl. lia.
  - cbn [strip]. pose proof (IH k). simpl. lia.
Qed.

(** X5. A cleaned name never carries white space at its ends (cleaning it
    is the last step, so trimming the result again changes nothing) and is
    never longer than the text it was cleaned from. *)
Theorem cleanName_is_trimmed_and_shorter (text : jsstring) :
  trim (cleanName text) = cleanName text
  /\ (List.length (cleanName text) <= List.length text)%nat.
Proof.
  unfold cleanName. split; [ apply trim_trim | ].
  pose proof (trim_length (stripTokens text)).
  pose proof (strip_length text 0). unfold stripTokens in *. lia.
Qed.

(** ** The heuristic pass *)
Section HeuristicFacts.

Lemma acceptLine_length (n : jsstring) :
  acceptLine n = true -> (0 < List.length n < 30)%nat.
Proof.
  intros H. pose proof (acceptLine_nonempty n H) as NE.
  unfold acceptLine in H.
  do 4 (apply andb_true_iff in H as [H _]).
  apply andb_true_iff in H as [_ H]. apply Nat.ltb_lt in H.
  destruct n; [ discriminate | simpl in *; lia ].
Qed.

Lemma scanContainers_sound (b : IconButton) (n : jsstring) (l : list jsstring) :
  scanContainers b l = Resolved n ->
  exists t line, In t l /\ In line (linesOf t) /\ n = cleanName line
                 /\ acceptLine n = true.
Proof.
  induction l as [|t l IH]; cbn [scanContainers]; [ discriminate | ].
  destruct (malformedClassSelector (className b)); [ discriminate | ].
  destruct (candidateIn t) as [m|] eqn:C.
  - intros H. injection H as <-. unfold candidateIn in C.
    apply find_some in C as [I A]. apply in_map_iff in I as (line & E & I).
    exists t, line. repeat split; try assumption; [ left; reflexivity | ].
    symmetry. exact E.
  - intros H. destruct (IH H) as (t' & line & I & R).
    exists t', line. split; [ right; exact I | exact R ].
Qed.

Lemma heuristicScan_sound (n : jsstring) (l : list IconButton) :
  heuristicScan l = Resolved n ->
  exists b t line,
    In b l /\ isLogout b = true
    /\ In t (firstn 3 (containerTexts b)) /\ In line (linesOf t)
    /\ n = cleanName line /\ acceptLine n = true.
Proof.
  induction l as [|b l IH]; cbn [heuristicScan]; [ discriminate | ].
  destruct (nearLogout b) as [m| |] eqn:E; try discriminate.
  - intros H. injection H as <-. unfold nearLogout in E.
    destruct (isLogout b) eqn:L; [ | discriminate ].
    destruct (scanContainers_sound _ _ _ E) as (t & line & I & R).
    exists b, t, line. split; [ left; reflexivity | ].
    split; [ exact L | ]. split; [ exact I | exact R ].
  - intros H. destruct (IH H) as (b' & t & line & I & R).
    exists b', t, line. split; [ right; exact I | exact R ].
Qed.

Lemma heuristicScan_no_logout (l : list IconButton) :
  (forall b, In b l -> isLogout b = false) -> heuristicScan l = NotFound.
Proof.
  induction l as [|b l IH]; intros H; [ reflexivity | ].
  cbn [heuristicScan]. unfold nearLogout.
  rewrite (H b (or_introl eq_refl)). apply IH.
  intros x I. apply H. right. exact I.
Qed.

End HeuristicFacts.

(** X6. Every name the heuristic pass resolves was read next to a logout
    element: it is the cleaned form of a line of more than two units in one
    of the first three ancestors of an element recognised as a logout
    control, it passed the noise filter, and it has between 1 and 29
    units. *)
Theorem heuristic_names_are_filtered (page : Page) (n : jsstring)
        (H : heuristicPass page = Resolved n) :
  exists b t line,
    In b (iconButtons page) /\ isLogout b = true
    /\ In t (firstn 3 (containerTexts b)) /\ In line (linesOf t)
    /\ n = cleanName line /\ acceptLine n = true
    /\ (0 < List.length n < 30)%nat.
Proof.
  destruct (heuristicScan_sound _ _ H) as (b & t & line & I & L & T & Ln & E & A).
  exists b, t, line. repeat split; try assumption; apply (acceptLine_length n A).
Qed.

Lemma heuristic_names_are_filtered_witness :
  exists b t line,
    In b (iconButtons twoNamesPage) /\ isLogout b = true
    /\ In t (firstn 3 (containerTexts b)) /\ In line (linesOf t)
    /\ js "Anita Devi" = cleanName line /\ acceptLine (js "Anita Devi") = true
    /\ (0 < List.length (js "Anita Devi") < 30)%nat.
Proof.
  exact (heuristic_names_are_filtered twoNamesPage (js "Anita Devi") eq_refl).
Defined.

(** X7. Elements that are not recognised as logout controls are skipped by
    the heuristic pass, whatever stands next to them: over elements that
    begin with such elements the pass gives what it gives over the rest.
    Where no scanned element is a logout control it reads no container,
    never throws and finds nothing; if the selector pass found nothing
    either, the call returns [false] and leaves the world as it was. *)
Theorem no_logout_control_no_name (page : Page) (w : World)
        (skipped rest : list IconButton)
        (Hpage : iconButtons page = skipped ++ rest)
        (Hnone : forall b, In b skipped -> isLogout b = false) :
  heuristicPass page = heuristicScan rest
  /\ (rest = [] -> heuristicPass page = NotFound)
  /\ (rest = [] -> selectorPass page = None ->
      detectUserOnPage page w = (w, NotFound)).
Proof.
  assert (N : heuristicPass page = heuristicScan rest).
  { unfold heuristicPass. rewrite Hpage, heuristicScan_app.
    rewrite (heuristicScan_no_logout skipped Hnone). reflexivity. }
  split; [ exact N | ]. split.
  - intros ->. exact N.
  - intros -> S. unfold detectUserOnPage. rewrite S, N. reflexivity.
Qed.

(** On a page that shows a name beside a "Home" link and no logout control,
    nothing is found; with the widget in the document, the links of the
    page, the launcher's [svg] and the avatar are skipped and the pass
    gives what it gives from the widget's logout button on. *)
Lemma no_logout_control_no_name_witness :
  detectUserOnPage navPage raviWorld = (raviWorld, NotFound)
  /\ heuristicPass (documentOf (freshWorld None) navPage)
     = heuristicScan [logoutElement (js "Online"); closeElement; sendElement; svgElement].
Proof.
  split.
  - refine (proj2 (proj2 (no_logout_control_no_name navPage raviWorld
                            (iconButtons navPage) [] eq_refl _)) eq_refl eq_refl).
    intros b [<-|[<-|[]]]; reflexivity.
  - refine (proj1 (no_logout_control_no_name
                     (documentOf (freshWorld None) navPage) raviWorld
                     (iconButtons navPage ++ [svgElement; avatarElement])
                     [logoutElement (js "Online"); closeElement; sendElement; svgElement]
                     eq_refl _)).
    intros b [<-|[<-|[<-|[<-|[]]]]]; reflexivity.
Defined.

(** ** What detection changes *)
Section DetectionSteps.

Lemma detectionStep_refl (w : World) : detectionStep w w.
Proof. repeat split. left. reflexivity. Qed.

Lemma detectionStep_same (w w' : World) :
  state w' = state w -> messagesDom w' = messagesDom w -> detectionStep w w'.
Proof.
  intros S D. unfold detectionStep. rewrite S, D. repeat split. left. reflexivity.
Qed.

Lemma hasUser_of_name (s : State) (n : jsstring) :
  user s = Some n -> n <> [] -> hasUser s = true.
Proof.
  intros U NE. unfold hasUser. rewrite U. destruct n; [ congruence | reflexivity ].
Qed.

Lemma hasUser_same (s s' : State) :
  user s' = user s -> hasUser s' = hasUser s.
Proof. intros E. unfold hasUser. rewrite E. reflexivity. Qed.

Lemma detectionStep_trans (a b c : World) :
  detectionStep a b -> detectionStep b c -> detectionStep a c.
Proof.
  intros (D1 & M1 & U1) (D2 & M2 & U2). unfold detectionStep.
  rewrite D2, D1, M2, M1. split; [ reflexivity | ]. split; [ reflexivity | ].
  destruct U2 as [U2|(H2 & n & U2 & NE & T)].
  - rewrite U2. exact U1.
  - destruct U1 as [U1|(H1 & m & U1 & NEm & _)].
    + right. split; [ rewrite <- (hasUser_same _ _ U1); exact H2 | ].
      exists n. repeat split; assumption.
    + rewrite (hasUser_of_name _ _ U1 NEm) in H2. discriminate.
Qed.

Lemma detectionStep_fold {A : Type} (f : World -> A -> World) (l : list A) :
  (forall w a, detectionStep w (f w a)) ->
  forall w, detectionStep w (fold_left f l w).
Proof.
  intros H. induction l as [|a l IH]; intros w; simpl.
  - apply detectionStep_refl.
  - eapply detectionStep_trans; [ apply H | apply IH ].
Qed.

Lemma handleLogin_step (n : jsstring) (l : LogLine) (w : World) :
  n <> [] -> trim n = n -> hasUser (state w) = false ->
  detectionStep w (handleLogin n (log l w)).
Proof.
  intros NE T U. unfold handleLogin, orElse.
  destruct n as [|c r]; [ congruence | ]. cbn [isEmpty].
  repeat split. right. split; [ exact U | ].
  exists (c :: r). repeat split; assumption.
Qed.

Lemma selectorPass_cleaned (page : Page) (n : jsstring) :
  selectorPass page = Some n -> n <> [] /\ trim n = n.
Proof.
  intros H. apply selectorScan_some in H as (_ & _ & _ & t & _ & _ & Q & -> & _).
  split; [ apply Q | apply trim_trim ].
Qed.

Lemma heuristicPass_cleaned (page : Page) (n : jsstring) :
  heuristicPass page = Resolved n -> n <> [] /\ trim n = n.
Proof.
  intros H. pose proof (heuristicPass_nonempty _ _ H) as NE.
  destruct (heuristicScan_sound _ _ H) as (_ & _ & line & _ & _ & _ & _ & -> & _).
  split; [ intros E; rewrite E in NE; discriminate | apply trim_trim ].
Qed.

Lemma detectUserOnPage_step (page : Page) (w : World) :
  hasUser (state w) = false ->
  detectionStep w (fst (detectUserOnPage page w)).
Proof.
  intros U. unfold detectUserOnPage.
  destruct (selectorPass page) as [n|] eqn:S; cbn [fst].
  - destruct (selectorPass_cleaned _ _ S). apply handleLogin_step; assumption.
  - destruct (heuristicPass page) as [n| |] eqn:H; cbn [fst];
      try apply detectionStep_refl.
    destruct (heuristicPass_cleaned _ _ H). apply handleLogin_step; assumption.
Qed.

Lemma startUserDetection_step (page : Page) (w : World) :
  hasUser (state w) = false ->
  detectionStep w (startUserDetection page w).
Proof.
  intros U. pose proof (detectUserOnPage_step page w U) as K.
  unfold startUserDetection.
  destruct (detectUserOnPage page w) as [w' [n| |]]; cbn [fst] in K; exact K.
Qed.

Lemma observerCallback_step (page : Page) (i : nat) (w : World) :
  detectionStep w (observerCallback page i w).
Proof.
  unfold observerCallback.
  destruct (nth_error (runs w) i) as [r|]; [ | apply detectionStep_refl ].
  destruct (connected r); [ | apply detectionStep_refl ].
  destruct (hasUser (state w)) eqn:U.
  - apply detectionStep_same; reflexivity.
  - pose proof (detectUserOnPage_step page w U) as K.
    destruct (detectUserOnPage page w) as [w' [n| |]]; cbn [fst] in K; exact K.
Qed.

Lemma mutation_step (page : Page) (w : World) :
  detectionStep w (mutation page w).
Proof.
  unfold mutation. apply detectionStep_fold. intros. apply observerCallback_step.
Qed.

Lemma timeout_step (i : nat) (w : World) :
  detectionStep w (timeout i w).
Proof.
  unfold timeout.
  destruct (nth_error (runs w) i) as [r|]; [ | apply detectionStep_refl ].
  destruct (timer r); [ | apply detectionStep_refl ].
  cbn [state setRuns]. destruct (hasUser (state w)) eqn:U.
  - apply detectionStep_same; reflexivity.
  - eapply detectionStep_trans; [ | apply handleLogin_step ];
      [ apply detectionStep_same; reflexivity
      | discriminate | reflexivity | exact U ].
Qed.

(** What a step of detection keeps. *)
Lemma step_keeps_identity (w w' : World) :
  detectionStep w w' -> hasUser (state w) = true ->
  user (state w') = user (state w).
Proof.
  intros (_ & _ & [U|(H & _)]) T; [ exact U | congruence ].
Qed.

Lemma step_keeps_good (w w' : World) :
  detectionStep w w' -> goodIdentity (state w) -> goodIdentity (state w').
Proof.
  intros (_ & _ & [U|(_ & n & U & NE & T)]) G; unfold goodIdentity in *.
  - rewrite U. exact G.
  - rewrite U. split; assumption.
Qed.

Lemma step_keeps_mirror (w w' : World) :
  detectionStep w w' -> mirrorsLog w -> mirrorsLog w'.
Proof.
  intros (D & M & _) G. unfold mirrorsLog in *. rewrite D, M. exact G.
Qed.

End DetectionSteps.

(** ** Invariants of a loaded page *)
Section Invariants.

Lemma sendMessage_user (r : FetchResult) (w : World) :
  user (state (sendMessage r w)) = user (state w).
Proof.
  unfold sendMessage, sendBegin.
  destruct (hasUser (state w)); cbn [negb]; [ | reflexivity ].
  destruct (trim (inputValue w)) as [|c m];
    [ destruct (truthy (pendingImage w)); [ | reflexivity ] | ];
    destruct r as [| |[|] resp]; reflexivity.
Qed.

Lemma apply_user (op : Op) (w : World) :
  isLogoutOp op = false ->
  user (state (apply op w)) = user (state w) \/ detectionStep w (apply op w).
Proof.
  destruct op; cbn [isLogoutOp apply]; intros H; try discriminate.
  - left. reflexivity.
  - left. unfold toggleChat. destruct (hidden w); reflexivity.
  - left. apply sendMessage_user.
  - left. destruct (handlePaste_frame items w) as (A & _). rewrite A. reflexivity.
  - left. reflexivity.
  - left. destruct (dragStart_frame e w) as (A & _). rewrite A. reflexivity.
  - left. destruct (drag_frame e w) as (A & _). rewrite A. reflexivity.
  - left. reflexivity.
  - right. apply mutation_step.
  - right. apply timeout_step.
Qed.

Lemma apply_keeps_user (op : Op) (w : World) :
  isLogoutOp op = false -> hasUser (state w) = true ->
  user (state (apply op w)) = user (state w).
Proof.
  intros L U. destruct (apply_user op w L) as [E|S]; [ exact E | ].
  apply step_keeps_identity; assumption.
Qed.

Lemma good_same_user (s s' : State) :
  user s' = user s -> goodIdentity s -> goodIdentity s'.
Proof. intros E G. unfold goodIdentity in *. rewrite E. exact G. Qed.

Lemma apply_keeps_good (op : Op) (w : World) :
  goodIdentity (state w) -> goodIdentity (state (apply op w)).
Proof.
  intros G. destruct (isLogoutOp op) eqn:L.
  - destruct op; try discriminate. cbn [apply].
    change (handleLogout (documentOf w host) w)
      with (startUserDetection (documentOf w host)
              (saveState (setState (mkState true [] None (position (state w)))
                                   (setMessagesDom [] w)))).
    eapply step_keeps_good; [ apply startUserDetection_step; reflexivity | exact I ].
  - destruct (apply_user op w L) as [E|S].
    + eapply good_same_user; eassumption.
    + eapply step_keeps_good; eassumption.
Qed.

Lemma mirror_same (w w' : World) :
  state w' = state w -> messagesDom w' = messagesDom w ->
  mirrorsLog w -> mirrorsLog w'.
Proof. intros S D M. unfold mirrorsLog in *. rewrite S, D. exact M. Qed.

Lemma mirror_same_log (w w' : World) :
  messages (state w') = messages (state w) -> messagesDom w' = messagesDom w ->
  mirrorsLog w -> mirrorsLog w'.
Proof. intros S D M. unfold mirrorsLog in *. rewrite S, D. exact M. Qed.

Lemma addMessage_mirror (t : jsstring) (isUser : bool) (img : option jsstring)
      (w : World) :
  mirrorsLog w -> mirrorsLog (addMessage t isUser img w).
Proof.
  unfold mirrorsLog. intros M. cbn.
  rewrite filter_app, map_app, M. cbn. destruct isUser; reflexivity.
Qed.

Lemma addErrorMessage_mirror (h : jsstring) (w : World) :
  mirrorsLog w -> mirrorsLog (addErrorMessage h w).
Proof.
  unfold mirrorsLog. intros M. cbn. rewrite filter_app, M. cbn.
  apply app_nil_r.
Qed.

Lemma sendMessage_mirror (r : FetchResult) (w : World) :
  mirrorsLog w -> mirrorsLog (sendMessage r w).
Proof.
  intros M. unfold sendMessage, sendBegin.
  destruct (hasUser (state w)); cbn [negb]; [ | exact M ].
  pose proof (addMessage_mirror (trim (inputValue w)) true (pendingImage w) w M) as A.
  set (w1 := addMessage (trim (inputValue w)) true (pendingImage w) w) in *.
  assert (B : mirrorsLog (showTyping false (showTyping true (setPreview None
                (setPendingImage None (setInputValue [] w1))))))
    by (eapply mirror_same; [ | | exact A ]; reflexivity).
  assert (E : mirrorsLog (sendEnd r (showTyping true (setPreview None
                (setPendingImage None (setInputValue [] w1)))))).
  { destruct r as [| |[|] resp]; cbn [sendEnd].
    - eapply mirror_same; [ | | apply addErrorMessage_mirror, B ]; reflexivity.
    - eapply mirror_same; [ | | apply addErrorMessage_mirror, B ]; reflexivity.
    - apply addMessage_mirror, B.
    - apply addMessage_mirror, B. }
  destruct (trim (inputValue w)) as [|c m];
    [ destruct (truthy (pendingImage w)); [ exact E | exact M ] | exact E ].
Qed.

Lemma apply_keeps_mirror (op : Op) (w : World) :
  mirrorsLog w -> mirrorsLog (apply op w).
Proof.
  intros M. destruct op; cbn [apply].
  - exact M.
  - unfold toggleChat. destruct (hidden w);
      (eapply mirror_same_log; [ | | exact M ]; reflexivity).
  - apply sendMessage_mirror, M.
  - destruct (handlePaste_frame items w) as (A & _ & _ & D & _).
    eapply mirror_same; eassumption.
  - exact M.
  - destruct (dragStart_frame e w) as (A & _).
    eapply mirror_same; [ exact A | | exact M ].
    unfold dragStart. destruct (onControl e); [ reflexivity | ].
    destruct (onHandle e); reflexivity.
  - destruct (drag_frame e w) as (A & _).
    eapply mirror_same; [ exact A | | exact M ].
    unfold drag. destruct (isDragging (dragVars w)); reflexivity.
  - eapply mirror_same_log; [ | | exact M ]; reflexivity.
  - eapply step_keeps_mirror; [ apply mutation_step | exact M ].
  - eapply step_keeps_mirror; [ apply timeout_step | exact M ].
  - change (handleLogout (documentOf w host) w)
      with (startUserDetection (documentOf w host)
              (saveState (setState (mkState true [] None (position (state w)))
                                   (setMessagesDom [] w)))).
    eapply step_keeps_mirror; [ apply startUserDetection_step; reflexivity | ].
    reflexivity.
Qed.

Lemma filter_entries (l : list Message) :
  filter (fun e => negb (isErrorEntry e)) (map entryOf l) = map entryOf l.
Proof.
  induction l as [|m l IH]; [ reflexivity | ]. cbn. rewrite IH. reflexivity.
Qed.

Lemma applyState_mirror (w : World) :
  messagesDom w = [] -> mirrorsLog (applyState w).
Proof.
  intros D. unfold mirrorsLog.
  destruct (messages (state w)) as [|m l] eqn:M.
  - destruct (hasUser (state w)) eqn:U.
    + destruct (applyState_welcome w M U) as (t & A & _ & B).
      rewrite A, B, D. reflexivity.
    + destruct (applyState_idle w M U) as (A & B & _). rewrite A, B, D, M. reflexivity.
  - assert (NE : messages (state w) <> []) by (rewrite M; discriminate).
    destruct (applyState_with_log w NE) as (A & _ & B).
    rewrite A, B. apply filter_entries.
Qed.

Lemma init_from_applyState (stored : option State) (host : Page) :
  let w := applyState (createChatWidget (loadState (freshWorld stored))) in
  init stored host = w
  \/ (hasUser (state w) = false
      /\ init stored host = startUserDetection (documentOf w host) w).
Proof.
  intros w. unfold init. fold w.
  destruct (hasUser (state w)); [ left; reflexivity | right; split; reflexivity ].
Qed.

Lemma init_mirror (stored : option State) (host : Page) :
  mirrorsLog (init stored host).
Proof.
  assert (M : mirrorsLog (applyState (createChatWidget (loadState (freshWorld stored)))))
    by (apply applyState_mirror; destruct stored; reflexivity).
  destruct (init_from_applyState stored host) as [E|[U E]]; rewrite E.
  - exact M.
  - eapply step_keeps_mirror; [ apply startUserDetection_step, U | exact M ].
Qed.

Lemma init_good (stored : option State) (host : Page) :
  match stored with Some s => goodIdentity s | None => True end ->
  goodIdentity (state (init stored host)).
Proof.
  intros G.
  assert (A : goodIdentity (state (applyState
                (createChatWidget (loadState (freshWorld stored)))))).
  { destruct (applyState_parts (createChatWidget (loadState (freshWorld stored))))
      as (U & _).
    eapply good_same_user; [ exact U | ]. destruct stored; [ exact G | exact I ]. }
  destruct (init_from_applyState stored host) as [E|[U E]]; rewrite E.
  - exact A.
  - eapply step_keeps_good; [ apply startUserDetection_step, U | exact A ].
Qed.

End Invariants.

(** X8. Resolution is terminal: once an identity is set, nothing that
    happens on the page short of a logout changes it.  A mutation only
    disconnects the observers, a timer that fires leaves the name alone,
    and no other handler writes it. *)
Theorem resolution_is_terminal (ops : list Op) (w : World)
        (Hset : hasUser (state w) = true)
        (Hops : noLogout ops = true) :
  user (state (run ops w)) = user (state w).
Proof.
  revert w Hset. unfold run, noLogout in *.
  induction ops as [|op l IH]; intros w U; [ reflexivity | ].
  cbn [forallb] in Hops. apply andb_true_iff in Hops as [L Hl].
  apply negb_true_iff in L. cbn [fold_left].
  pose proof (apply_keeps_user op w L U) as E.
  rewrite (IH Hl (apply op w)); [ exact E | ].
  rewrite (hasUser_same _ _ E). exact U.
Qed.

Lemma resolution_is_terminal_witness :
  user (state (run [OpMutation twoNamesPage; OpTimeout 0; OpSend FetchRejected]
                   raviWorld))
  = Some (js "Ravi").
Proof.
  exact (resolution_is_terminal
           [OpMutation twoNamesPage; OpTimeout 0; OpSend FetchRejected]
           raviWorld eq_refl eq_refl).
Defined.

(** X9. The identity of a page is always unset or a name that is not empty
    and has no white space at its ends, provided the store held such a
    session (or none) when the page loaded: every name comes out of
    [cleanName] or is "Guest". *)
Theorem identity_is_unset_or_clean
        (stored : option State) (host : Page) (ops : list Op)
        (Hstored : match stored with Some s => goodIdentity s | None => True end) :
  goodIdentity (state (run ops (init stored host))).
Proof.
  pose proof (init_good stored host Hstored) as G. revert G.
  generalize (init stored host). unfold run.
  induction ops as [|op l IH]; intros w G; [ exact G | ].
  cbn [fold_left]. apply IH, apply_keeps_good, G.
Qed.

Lemma identity_is_unset_or_clean_witness :
  goodIdentity (state (run [OpLogout twoNamesPage; OpToggle]
                           (init (Some raviStored) blankPage))).
Proof.
  apply (identity_is_unset_or_clean (Some raviStored) blankPage
           [OpLogout twoNamesPage; OpToggle]).
  split; [ discriminate | reflexivity ].
Defined.

(** X10. On a loaded page the message view always shows the log: leaving
    the error notices aside, its entries are those [renderMessageToDOM]
    builds for the logged messages, one for one and in the same order,
    whatever was stored and whatever has happened since. *)
Theorem view_mirrors_log (stored : option State) (host : Page) (ops : list Op) :
  mirrorsLog (run ops (init stored host)).
Proof.
  pose proof (init_mirror stored host) as M. revert M.
  generalize (init stored host). unfold run.
  induction ops as [|op l IH]; intros w M; [ exact M | ].
  cbn [fold_left]. apply IH, apply_keeps_mirror, M.
Qed.

(** ** The pending attachment *)

(** X11. Pasting an image holds it as the pending attachment and shows its
    preview, prevents the default paste, and touches neither the log, nor
    the store, nor the message view; the preview's close button drops it
    again. *)
Theorem image_paste_sets_pending
        (items : list ClipboardItem) (it : ClipboardItem) (w : World)
        (Hone : filter isImageFile items = [it]) :
  pendingImage (handlePaste items w) = Some (dataUrl it)
  /\ preview (handlePaste items w) = Some (dataUrl it)
  /\ defaultPrevented items = true
  /\ state (handlePaste items w) = state w
  /\ store (handlePaste items w) = store w
  /\ messagesDom (handlePaste items w) = messagesDom w
  /\ pendingImage (clearImage (handlePaste items w)) = None
  /\ preview (clearImage (handlePaste items w)) = None.
Proof.
  assert (E : handlePaste items w = readerOnload (dataUrl it) w)
    by (unfold handlePaste, startedReads; rewrite Hone; reflexivity).
  rewrite E. repeat split.
  unfold defaultPrevented. apply existsb_exists. exists it.
  assert (I : In it (filter isImageFile items)) by (rewrite Hone; left; reflexivity).
  apply filter_In in I. exact I.
Qed.

Lemma image_paste_sets_pending_witness :
  pendingImage (handlePaste [textItem; pngItem] raviWorld) = Some (dataUrl pngItem).
Proof.
  exact (proj1 (image_paste_sets_pending [textItem; pngItem] pngItem raviWorld eq_refl)).
Defined.

(** X12. A pasted image goes out with the next send, also when nothing is
    typed: the user's message in the log and in the view carries the image,
    and afterwards no attachment is pending and no preview is shown. *)
Theorem pasted_image_is_sent
        (items : list ClipboardItem) (it : ClipboardItem) (r : FetchResult) (w : World)
        (Hone : filter isImageFile items = [it])
        (Hurl : dataUrl it <> [])
        (Huser : hasUser (state w) = true) :
  let w2 := sendMessage r (handlePaste items w) in
  let mine := mkMessage SenderUser (trim (inputValue w)) (Some (dataUrl it)) in
  (exists more, messages (state w2) = messages (state w) ++ mine :: more)
  /\ (exists more, messagesDom w2 = messagesDom w ++ entryOf mine :: more)
  /\ In (Img (dataUrl it))
        (renderContent (trim (inputValue w)) true (Some (dataUrl it)))
  /\ pendingImage w2 = None
  /\ preview w2 = None.
Proof.
  intros w2 mine.
  assert (E : handlePaste items w = readerOnload (dataUrl it) w)
    by (unfold handlePaste, startedReads; rewrite Hone; reflexivity).
  assert (T : truthy (Some (dataUrl it)) = Some (dataUrl it))
    by (destruct (dataUrl it); [ congruence | reflexivity ]).
  assert (B : sendBegin (readerOnload (dataUrl it) w)
              = Some (showTyping true (setPreview None (setPendingImage None
                  (setInputValue [] (addMessage (trim (inputValue w)) true
                     (Some (dataUrl it)) (readerOnload (dataUrl it) w))))))).
  { unfold sendBegin. cbn [state readerOnload showImagePreview setPreview
      setPendingImage inputValue pendingImage].
    rewrite Huser, T. cbn [negb]. destruct (trim (inputValue w)); reflexivity. }
  unfold w2, sendMessage. rewrite E, B.
  split; [ destruct r as [| |[|] resp]; cbn; eexists;
           rewrite <- ?app_assoc; reflexivity | ].
  split; [ destruct r as [| |[|] resp]; cbn; eexists;
           rewrite <- ?app_assoc; reflexivity | ].
  split; [ unfold renderContent; rewrite T; left; reflexivity | ].
  split; destruct r as [| |[|] resp]; reflexivity.
Qed.

Lemma pasted_image_is_sent_witness :
  exists more,
    messages (state (sendMessage FetchRejected
                       (handlePaste [pngItem] (setInputValue [] raviWorld))))
    = [] ++ mkMessage SenderUser [] (Some (dataUrl pngItem)) :: more.
Proof.
  destruct (pasted_image_is_sent [pngItem] pngItem FetchRejected
              (setInputValue [] raviWorld) eq_refl) as (M & _);
    [ discriminate | reflexivity | exact M ].
Defined.

(** ** Gestures *)
Section GestureFacts.

Lemma drag_idle (m : MouseMove) (w : World) :
  isDragging (dragVars w) = false -> drag m w = w.
Proof. intros H. unfold drag. rewrite H. reflexivity. Qed.

Lemma dragMoves_idle (moves : list MouseMove) (w : World) :
  isDragging (dragVars w) = false -> dragMoves moves w = w.
Proof.
  intros H. unfold dragMoves. induction moves as [|m l IH]; [ reflexivity | ].
  cbn [fold_left]. rewrite (drag_idle m w H). exact IH.
Qed.

Lemma drag_over_drag (m m' : MouseMove) (w : World) :
  isDragging (dragVars w) = true -> drag m (drag m' w) = drag m w.
Proof.
  intros H. unfold drag at 2. rewrite H. cbn [negb].
  unfold drag. cbn [dragVars setStyle]. rewrite H. reflexivity.
Qed.

Lemma drag_over_moves (m : MouseMove) (moves : list MouseMove) :
  forall w, isDragging (dragVars w) = true ->
            drag m (dragMoves moves w) = drag m w.
Proof.
  unfold dragMoves. induction moves as [|m' l IH]; intros w H; [ reflexivity | ].
  cbn [fold_left]. rewrite IH.
  - apply drag_over_drag, H.
  - destruct (drag_frame m' w) as (_ & _ & V). rewrite V. exact H.
Qed.

Lemma dragStart_accepted (d : MouseDown) (w : World) :
  acceptsDrag d = true ->
  dragStart d w
  = setDragVars (mkDragVars true (downX d) (downY d) (offsetLeft d) (offsetTop d)) w.
Proof.
  unfold acceptsDrag, dragStart. intros H. apply andb_true_iff in H as [C H].
  apply negb_true_iff in C. rewrite C, H. reflexivity.
Qed.

Lemma dragStart_rejected (d : MouseDown) (w : World) :
  acceptsDrag d = false -> dragStart d w = w.
Proof.
  unfold acceptsDrag, dragStart. intros H.
  destruct (onControl d); [ reflexivity | ].
  destruct (onHandle d); [ discriminate | reflexivity ].
Qed.

End GestureFacts.

(** X13. A press on a button or an input, or outside the header and the
    login view, starts no gesture: the moves that follow leave the whole
    world as it was.  The same holds for moves after a release. *)
Theorem moves_outside_a_gesture_do_nothing
        (d : MouseDown) (moves : list MouseMove) (w : World)
        (Hrej : acceptsDrag d = false)
        (Hidle : isDragging (dragVars w) = false) :
  dragMoves moves (dragStart d w) = w
  /\ dragMoves moves (dragEnd w) = dragEnd w.
Proof.
  split.
  - rewrite (dragStart_rejected d w Hrej). apply dragMoves_idle, Hidle.
  - apply dragMoves_idle. reflexivity.
Qed.

Lemma moves_outside_a_gesture_do_nothing_witness :
  dragMoves [farMove] (dragStart buttonDown raviWorld) = raviWorld.
Proof.
  exact (proj1 (moves_outside_a_gesture_do_nothing buttonDown [farMove] raviWorld
                  eq_refl eq_refl)).
Defined.

(** X14. Within a gesture every move is computed from the press, not from
    the move before it: the world after a sequence of moves is the world
    after its last move alone, so the released position depends only on
    where the pointer was pressed and where it was last seen. *)
Theorem last_move_decides
        (d : MouseDown) (moves : list MouseMove) (last : MouseMove) (w : World)
        (Hacc : acceptsDrag d = true) :
  drag last (dragMoves moves (dragStart d w)) = drag last (dragStart d w)
  /\ left (style (drag last (dragStart d w)))
     = Px (Z.min (Z.max 0 (offsetLeft d + (clientX last - downX d)))
                 (innerWidth last - offsetWidth last))
  /\ top (style (drag last (dragStart d w)))
     = Px (Z.min (Z.max 0 (offsetTop d + (clientY last - downY d)))
                 (innerHeight last - offsetHeight last)).
Proof.
  rewrite (dragStart_accepted d w Hacc).
  split; [ apply drag_over_moves; reflexivity | split; reflexivity ].
Qed.

Lemma last_move_decides_witness :
  drag farMove (dragMoves [farMove; farMove] (dragStart headerDown raviWorld))
  = drag farMove (dragStart headerDown raviWorld).
Proof.
  exact (proj1 (last_move_decides headerDown [farMove; farMove] farMove raviWorld
                  eq_refl)).
Defined.

(** X15. A dragged position survives a reload: the position a release
    stores is the inline position of the widget at that moment, and a page
    loaded from the store afterwards gives the widget that same inline
    position. *)
Theorem dragged_position_survives_reload
        (d : MouseDown) (moves : list MouseMove) (last : MouseMove)
        (w : World) (host : Page)
        (Hacc : acceptsDrag d = true) :
  let w1 := drag last (dragMoves moves (dragStart d w)) in
  position (state (dragEnd w1)) = style w1
  /\ store (dragEnd w1) = Some (state (dragEnd w1))
  /\ style (init (store (dragEnd w1)) host) = style w1.
Proof.
  intros w1.
  assert (E : w1 = drag last (dragStart d w)).
  { unfold w1. rewrite (dragStart_accepted d w Hacc).
    apply drag_over_moves. reflexivity. }
  assert (S : style w1
              = {| top := Px (Z.min (Z.max 0 (offsetTop d + (clientY last - downY d)))
                                    (innerHeight last - offsetHeight last));
                   left := Px (Z.min (Z.max 0 (offsetLeft d + (clientX last - downX d)))
                                     (innerWidth last - offsetWidth last));
                   bottom := Auto; right := Auto |})
    by (rewrite E, (dragStart_accepted d w Hacc); reflexivity).
  assert (P : position (state (dragEnd w1)) = style w1)
    by (unfold dragEnd; cbn; rewrite S; reflexivity).
  split; [ exact P | ]. split; [ reflexivity | ].
  change (store (dragEnd w1)) with (Some (state (dragEnd w1))).
  destruct (init_ui (state (dragEnd w1)) host) as (_ & Y & _).
  rewrite Y, P, S. reflexivity.
Qed.

Lemma dragged_position_survives_reload_witness :
  style (init (store (dragEnd (drag farMove (dragStart headerDown raviWorld))))
              blankPage)
  = {| top := Px 50; left := Px 900; bottom := Auto; right := Auto |}.
Proof.
  exact (proj2 (proj2 (dragged_position_survives_reload headerDown [] farMove
                         raviWorld blankPage eq_refl))).
Defined.

(** X16. A press and release on the header without a move in between still
    rewrites the stored position: it becomes the widget's inline top and
    left with bottom and right ['auto'].  For a widget that was never
    moved these are empty, so the stored corner offsets are lost, and the
    next page load sets bottom and right to ['auto'] with no top or left
    to replace them. *)
Theorem click_on_header_rewrites_position
        (d : MouseDown) (w : World) (host : Page)
        (Hacc : acceptsDrag d = true) :
  position (state (dragEnd (dragStart d w)))
  = {| top := top (style w); left := left (style w); bottom := Auto; right := Auto |}
  /\ store (dragEnd (dragStart d w)) = Some (state (dragEnd (dragStart d w)))
  /\ (style w = unsetStyle ->
      position (state (dragEnd (dragStart d w)))
      = {| top := Unset; left := Unset; bottom := Auto; right := Auto |}
      /\ style (init (store (dragEnd (dragStart d w))) host)
         = {| top := Unset; left := Unset; bottom := Auto; right := Auto |}).
Proof.
  rewrite (dragStart_accepted d w Hacc).
  split; [ reflexivity | ]. split; [ reflexivity | ].
  intros U.
  assert (P : position (state (dragEnd (setDragVars
                (mkDragVars true (downX d) (downY d) (offsetLeft d) (offsetTop d)) w)))
              = {| top := Unset; left := Unset; bottom := Auto; right := Auto |})
    by (cbn; rewrite U; reflexivity).
  split; [ exact P | ].
  match goal with
  | |- style (init (store ?x) host) = _ =>
      change (store x) with (Some (state x));
      destruct (init_ui (state x) host) as (_ & Y & _); rewrite Y, P
  end.
  reflexivity.
Qed.

Lemma click_on_header_rewrites_position_witness :
  position (state (freshWorld None))
  = {| top := Auto; left := Auto; bottom := Px 20; right := Px 20 |}
  /\ position (state (dragEnd (dragStart headerDown (freshWorld None))))
     = {| top := Unset; left := Unset; bottom := Auto; right := Auto |}.
Proof.
  split; [ reflexivity | ].
  destruct (click_on_header_rewrites_position headerDown (freshWorld None) blankPage
              eq_refl) as (_ & _ & H).
  exact (proj1 (H eq_refl)).
Defined.

(** ** Reloading *)
Section ReloadFacts.

Lemma init_returning_log (s : State) (host : Page) :
  hasUser s = true -> messages s <> [] ->
  state (init (Some s) host) = s
  /\ store (init (Some s) host) = Some s
  /\ runs (init (Some s) host) = []
  /\ console (init (Some s) host) = []
  /\ messagesDom (init (Some s) host) = map entryOf (messages s).
Proof.
  intros U NE. rewrite (init_returning s host U).
  destruct (applyState_with_log (loaded s) NE) as (A & B & C).
  destruct (applyState_frame (loaded s)) as (R & K).
  rewrite A, B, C, R, K. repeat split.
Qed.

End ReloadFacts.

(** X17. A returning user is restored, not detected again: when the store
    holds a session with an identity and a log, the loaded page has exactly
    that session as its state, shows one view entry per logged message in
    order, and starts no detection (no observer, no timer, nothing
    written to the console), whatever the host page shows. *)
Theorem returning_user_is_restored (s : State) (host : Page)
        (Huser : hasUser s = true)
        (Hlog : messages s <> []) :
  state (init (Some s) host) = s
  /\ store (init (Some s) host) = Some s
  /\ runs (init (Some s) host) = []
  /\ console (init (Some s) host) = []
  /\ messagesDom (init (Some s) host) = map entryOf (messages s).
Proof. apply init_returning_log; assumption. Qed.

Lemma returning_user_is_restored_witness :
  state (init (Some raviStored) twoNamesPage) = raviStored.
Proof.
  refine (proj1 (returning_user_is_restored raviStored twoNamesPage eq_refl _)).
  discriminate.
Defined.

(** X18. The welcome message is added once: a page loaded with an identity
    and an empty log appends one bot message, shows it and stores the
    session with it; a page loaded from that store later adds nothing and
    has the same session. *)
Theorem welcome_is_added_once (s : State) (host host' : Page)
        (Huser : hasUser s = true)
        (Hlog : messages s = []) :
  let w1 := init (Some s) host in
  (exists t,
     messages (state w1) = [mkMessage SenderBot t None]
     /\ messagesDom w1 = [entryOf (mkMessage SenderBot t None)])
  /\ user (state w1) = user s
  /\ store w1 = Some (state w1)
  /\ state (init (store w1) host') = state w1.
Proof.
  intros w1. unfold w1. rewrite (init_returning s host Huser).
  destruct (applyState_welcome (loaded s) Hlog Huser) as (t & M & S & D).
  destruct (applyState_parts (loaded s)) as (U & _).
  change (messagesDom (loaded s)) with (@nil Entry) in D. cbn [app] in D.
  change (user (state (loaded s))) with (user s) in U.
  split; [ exists t; split; assumption | ].
  split; [ exact U | ]. split; [ exact S | ].
  rewrite S. apply init_returning_log.
  - unfold hasUser in *. rewrite U. exact Huser.
  - rewrite M. discriminate.
Qed.

Lemma welcome_is_added_once_witness :
  exists t,
    messages (state (init (Some anitaStored) blankPage)) = [mkMessage SenderBot t None]
    /\ messagesDom (init (Some anitaStored) blankPage)
       = [entryOf (mkMessage SenderBot t None)].
Proof.
  exact (proj1 (welcome_is_added_once anitaStored blankPage blankPage
                  eq_refl eq_refl)).
Defined.

(** X19. With nothing in the store, a page starts from the defaults: the
    widget hidden and closed, an empty log and view, the default corner
    position and no inline position; the identity is whatever the first
    scan resolves, and it is stored as soon as there is one. *)
Theorem first_load_defaults (host : Page) :
  hidden (init None host) = true
  /\ isOpen (state (init None host)) = false
  /\ messages (state (init None host)) = []
  /\ messagesDom (init None host) = []
  /\ position (state (init None host)) = position initialState
  /\ style (init None host) = unsetStyle
  /\ (user (state (init None host)) <> None ->
      store (init None host) = Some (state (init None host))).
Proof.
  assert (E : init None host
              = startUserDetection (documentOf (freshWorld None) host) (freshWorld None))
    by reflexivity.
  rewrite E.
  destruct (startUserDetection_ui (documentOf (freshWorld None) host) (freshWorld None))
    as (H & Y & P & O).
  destruct (startUserDetection_result (documentOf (freshWorld None) host)
                                      (freshWorld None)) as (U & M & D).
  rewrite H, Y, P, O, M, D. repeat split.
  unfold startUserDetection, detectUserOnPage, handleLogin.
  destruct (selectorPass (documentOf (freshWorld None) host)) as [n|].
  - destruct (isEmpty (orElse n (js "Guest"))); [ intros X; elim X | ]; reflexivity.
  - destruct (heuristicPass (documentOf (freshWorld None) host)) as [n| |];
      try (intros X; elim X; reflexivity).
    destruct (isEmpty (orElse n (js "Guest"))); [ intros X; elim X | ]; reflexivity.
Qed.

Lemma first_load_defaults_witness :
  store (init None twoNamesPage) = Some (state (init None twoNamesPage)).
Proof.
  refine (proj2 (proj2 (proj2 (proj2 (proj2 (proj2
            (first_load_defaults twoNamesPage)))))) _).
  discriminate.
Defined.

(** ** Formatting of agent text *)

Example format_plain :
  formatBotMessage (js "Fees & forms")
  = wrap (js "Fees &amp; forms").
Proof. reflexivity. Qed.

Example format_bold :
  replaceAll (emphasisAt 42) 0 (js "pay **online** now or ***a** b")
  = js "pay " ++ strongOpen ++ js "online</strong> now or "
    ++ strongOpen ++ js "*a</strong> b".
Proof. reflexivity. Qed.

Example format_heading :
  replaceAll headingAt 0 (js "###  Fees<br>next ###last")
  = headingOpen ++ js "Fees</strong><br>next " ++ headingOpen ++ js "last</strong>".
Proof. reflexivity. Qed.

Example format_link :
  replaceAll linkAt 0 (js "see https://tn.gov.in/a<br>or http:// and httpx://y")
  = js "see <a href=" ++ quoted (js "https://tn.gov.in/a") ++ js " target="
    ++ quoted (js "_blank") ++ js " style="
    ++ quoted (js "color: #00a000; text-decoration: underline; font-weight: 500;")
    ++ js ">https://tn.gov.in/a</a><br>or http:// and httpx://y".
Proof. reflexivity. Qed.

(** The bullet the formatter looks for is the three units its file holds;
    the one-unit bullet U+2022 is left as it is. *)
Example format_bullet :
  replaceAll bulletAt 0 (bulletGlyph ++ js "  Fees" ++ [8226%N] ++ js " Forms")
  = bulletSpan ++ js "Fees" ++ [8226%N] ++ js " Forms".
Proof. reflexivity. Qed.

Section FormatFacts.

Lemma replaceAll_cons (m : jsstring -> option (nat * jsstring)) (c : N) (r : jsstring) :
  replaceAll m 0 (c :: r)
  = match m (c :: r) with
    | Some (S n, rep) => rep ++ replaceAll m n r
    | _ => c :: replaceAll m 0 r
    end.
Proof. reflexivity. Qed.

Lemma replaceAll_skipn (m : jsstring -> option (nat * jsstring)) (s : jsstring) :
  forall k, replaceAll m k s = replaceAll m 0 (skipn k s).
Proof.
  induction s as [|c r IH]; intros [|k]; try reflexivity.
  simpl skipn. cbn [replaceAll]. apply IH.
Qed.

(** Where the pattern matches at no position, the text is kept. *)
Lemma replaceAll_none (m : jsstring -> option (nat * jsstring)) (s : jsstring) :
  (forall k, m (skipn k s) = None) -> replaceAll m 0 s = s.
Proof.
  induction s as [|c r IH]; intros H; [ reflexivity | ].
  rewrite replaceAll_cons, (H 0%nat : m (c :: r) = None). f_equal.
  apply IH. intros k. exact (H (S k)).
Qed.

(** Text before the first place the pattern can match is kept. *)
Lemma replaceAll_pass (m : jsstring -> option (nat * jsstring)) (pre rest : jsstring) :
  (forall c tail, In c pre -> m (c :: tail) = None) ->
  replaceAll m 0 (pre ++ rest) = pre ++ replaceAll m 0 rest.
Proof.
  induction pre as [|c pre IH]; intros H; [ reflexivity | ].
  cbn [app]. rewrite replaceAll_cons, (H c (pre ++ rest) (or_introl eq_refl)).
  f_equal. apply IH. intros x tail I. apply H. right. exact I.
Qed.

Lemma replaceAll_hit (m : jsstring -> option (nat * jsstring))
      (c : N) (r : jsstring) (n : nat) (rep : jsstring) :
  m (c :: r) = Some (S n, rep) ->
  replaceAll m 0 (c :: r) = rep ++ replaceAll m 0 (skipn n r).
Proof.
  intros H. rewrite replaceAll_cons, H, replaceAll_skipn. reflexivity.
Qed.

Lemma isPrefix_head (x : N) (p s : jsstring) :
  isPrefix (x :: p) s = true -> exists r, s = x :: r /\ isPrefix p r = true.
Proof.
  destruct s as [|y r]; cbn [isPrefix]; [ discriminate | ].
  intros H. apply andb_true_iff in H as [E P]. apply N.eqb_eq in E. subst y.
  exists r. split; [ reflexivity | exact P ].
Qed.

Lemma in_skipn (c : N) (s : jsstring) :
  forall k, In c (skipn k s) -> In c s.
Proof.
  induction s as [|y r IH]; intros [|k] H; try exact H.
  right. apply (IH k). exact H.
Qed.

Lemma unmarked_flat_map (f : N -> jsstring) (s : jsstring) :
  (forall c, In c s -> unmarked (f c)) -> unmarked (flat_map f s).
Proof.
  intros H c I. apply in_flat_map in I as (x & Ix & Ic). exact (H x Ix c Ic).
Qed.

Lemma unmarked_literal (s : jsstring) :
  forallb (fun c => negb (isMarker c)) s = true -> unmarked s.
Proof.
  intros H c I. rewrite forallb_forall in H. apply negb_true_iff, H, I.
Qed.

Lemma unmarked_escaped (text : jsstring) :
  unmarked text -> unmarked (breaks (escapeHtml text)).
Proof.
  intros H. unfold breaks, escapeHtml.
  apply unmarked_flat_map. intros c I.
  assert (U : unmarked (flat_map escapeUnit text)).
  { apply unmarked_flat_map. intros x Ix. unfold escapeUnit.
    destruct (N.eqb x 38); [ apply unmarked_literal; reflexivity | ].
    destruct (N.eqb x 160); [ apply unmarked_literal; reflexivity | ].
    destruct (N.eqb x 60); [ apply unmarked_literal; reflexivity | ].
    destruct (N.eqb x 62); [ apply unmarked_literal; reflexivity | ].
    intros y [<-|[]]. apply H, Ix. }
  destruct (N.eqb c 10); [ apply unmarked_literal; reflexivity | ].
  intros y [<-|[]]. apply U, I.
Qed.

(** A pattern that needs a marker to match keeps text without markers. *)
Lemma replaceAll_unmarked (m : jsstring -> option (nat * jsstring)) (s : jsstring) :
  (forall t p, m t = Some p -> exists c, In c t /\ isMarker c = true) ->
  unmarked s -> replaceAll m 0 s = s.
Proof.
  intros HM U. apply replaceAll_none. intros k.
  destruct (m (skipn k s)) as [p|] eqn:E; [ exfalso | reflexivity ].
  destruct (HM _ _ E) as (c & I & M). apply in_skipn in I.
  rewrite (U c I) in M. discriminate.
Qed.

Lemma headingAt_marker (t : jsstring) (p : nat * jsstring) :
  headingAt t = Some p -> exists c, In c t /\ isMarker c = true.
Proof.
  unfold headingAt. destruct (isPrefix (js "###") t) eqn:P; [ | discriminate ].
  intros _. apply (isPrefix_head 35) in P as (r & -> & _).
  exists 35%N. split; [ left; reflexivity | reflexivity ].
Qed.

Lemma emphasisAt_marker (x : N) (t : jsstring) (p : nat * jsstring) :
  isMarker x = true ->
  emphasisAt x t = Some p -> exists c, In c t /\ isMarker c = true.
Proof.
  intros M. unfold emphasisAt. destruct (isPrefix [x; x] t) eqn:P; [ | discriminate ].
  intros _. apply isPrefix_head in P as (r & -> & _).
  exists x. split; [ left; reflexivity | exact M ].
Qed.

Lemma bulletAt_marker (t : jsstring) (p : nat * jsstring) :
  bulletAt t = Some p -> exists c, In c t /\ isMarker c = true.
Proof.
  unfold bulletAt. destruct (isPrefix bulletGlyph t) eqn:P; [ | discriminate ].
  intros _. apply (isPrefix_head 8218) in P as (r & -> & _).
  exists 8218%N. split; [ left; reflexivity | reflexivity ].
Qed.

Lemma linkAt_marker (t : jsstring) (p : nat * jsstring) :
  linkAt t = Some p -> exists c, In c t /\ isMarker c = true.
Proof.
  unfold linkAt. destruct (isPrefix (js "http") t); [ | discriminate ].
  set (r1 := match skipn 4 t with
             | c :: r' => if N.eqb c 115 then r' else skipn 4 t
             | [] => skipn 4 t
             end).
  assert (S : forall c, In c r1 -> In c t).
  { intros c I. apply (in_skipn c t 4). unfold r1 in I.
    destruct (skipn 4 t) as [|y r'] eqn:K; [ exact I | ].
    destruct (N.eqb y 115); [ right; exact I | exact I ]. }
  destruct (isPrefix (js "://") r1) eqn:P; [ | discriminate ].
  intros _. apply (isPrefix_head 58) in P as (r & E & _).
  exists 58%N. split; [ apply S; rewrite E; left; reflexivity | reflexivity ].
Qed.

Lemma includes_at (p s : jsstring) :
  forall k, isPrefix p (skipn k s) = true -> includes p s = true.
Proof.
  induction s as [|c r IH]; intros k H.
  - destruct k; cbn [skipn] in H; cbn [includes]; rewrite H; reflexivity.
  - destruct k as [|k]; cbn [skipn] in H; cbn [includes].
    + rewrite H. reflexivity.
    + rewrite (IH k H). apply orb_true_r.
Qed.

Lemma isPrefix_self (q post : jsstring) : isPrefix q (q ++ post) = true.
Proof.
  induction q as [|a q IH]; [ reflexivity | ].
  cbn [app isPrefix]. rewrite N.eqb_refl. exact IH.
Qed.

Lemma lazyUntil_found (lit inner post : jsstring) (x : N) (l : jsstring) :
  lit = x :: l ->
  (forall c, In c inner -> c <> x /\ isLineTerminator c = false) ->
  lazyUntil lit (inner ++ lit ++ post) = Some inner.
Proof.
  intros -> H. induction inner as [|c inner IH].
  - cbn [app]. cbn [lazyUntil].
    assert (P : isPrefix (x :: l) (x :: l ++ post) = true)
      by exact (isPrefix_self (x :: l) post).
    rewrite P. reflexivity.
  - destruct (H c (or_introl eq_refl)) as [Nx Nt].
    change ((c :: inner) ++ (x :: l) ++ post)
      with (c :: (inner ++ (x :: l) ++ post)).
    cbn [lazyUntil isPrefix].
    rewrite (proj2 (N.eqb_neq x c)) by congruence. cbn [andb].
    rewrite Nt, IH; [ reflexivity | ].
    intros y I. apply H. right. exact I.
Qed.

Lemma lazyUntil_open (lit rest : jsstring) (x : N) (l : jsstring) :
  lit = x :: l -> (forall c, In c rest -> c <> x) -> lazyUntil lit rest = None.
Proof.
  intros -> H. induction rest as [|c rest IH]; [ reflexivity | ].
  cbn [lazyUntil isPrefix].
  rewrite (proj2 (N.eqb_neq x c)) by (intros E; apply (H c (or_introl eq_refl)); congruence).
  cbn [andb]. destruct (isLineTerminator c); [ reflexivity | ].
  rewrite IH; [ reflexivity | ]. intros y I. apply H. right. exact I.
Qed.

End FormatFacts.

(** X20. Agent text in which nothing looks like a tag and which holds none
    of the units the formatter reacts to ([#], [*], [_], [:] and U+201A,
    the first of the three units of its bullet) is shown as written: it is escaped like user text, its line feeds
    become [<br>], and it is put in the wrapper; nothing else is added. *)
Theorem plain_agent_text_is_only_escaped (text : jsstring)
        (Hplain : hasHTML text = false)
        (Hmark : forallb (fun c => negb (isMarker c)) text = true) :
  formatBotMessage text = wrap (breaks (escapeHtml text)).
Proof.
  unfold formatBotMessage. rewrite Hplain.
  pose proof (unmarked_escaped text (unmarked_literal text Hmark)) as U.
  rewrite (replaceAll_unmarked headingAt _ headingAt_marker U).
  rewrite (replaceAll_unmarked (emphasisAt 42) _
             (fun t p => emphasisAt_marker 42 t p eq_refl) U).
  rewrite (replaceAll_unmarked (emphasisAt 95) _
             (fun t p => emphasisAt_marker 95 t p eq_refl) U).
  rewrite (replaceAll_unmarked bulletAt _ bulletAt_marker U).
  rewrite (replaceAll_unmarked linkAt _ linkAt_marker U).
  reflexivity.
Qed.

Lemma plain_agent_text_is_only_escaped_witness :
  formatBotMessage (js "Fee < 50 & free") = wrap (js "Fee &lt; 50 &amp; free").
Proof.
  exact (plain_agent_text_is_only_escaped (js "Fee < 50 & free") eq_refl eq_refl).
Defined.

(** X21. Agent text in which something looks like a tag is not escaped at
    all: unless it holds one of the styled spans the formatter rewrites, it
    is put in the wrapper as it is, with only its line feeds turned into
    [<br>], so the markup in it reaches the page as markup. *)
Theorem markup_in_agent_text_is_kept (text : jsstring)
        (Hhtml : hasHTML text = true)
        (Hspan : includes spanOpen (breaks text) = false) :
  formatBotMessage text = wrap (breaks text).
Proof.
  unfold formatBotMessage. rewrite Hhtml. f_equal.
  apply replaceAll_none. intros k. unfold spanAt.
  destruct (isPrefix spanOpen (skipn k (breaks text))) eqn:P; [ | reflexivity ].
  rewrite (includes_at _ _ _ P) in Hspan. discriminate.
Qed.

Lemma markup_in_agent_text_is_kept_witness :
  formatBotMessage (js "<img src=x onerror=alert(1)>")
  = wrap (js "<img src=x onerror=alert(1)>").
Proof.
  exact (markup_in_agent_text_is_kept (js "<img src=x onerror=alert(1)>")
           eq_refl eq_refl).
Defined.

(** X22. The bold passes ([**] and [__]): in text whose earlier part holds
    no such unit, the first span between a doubled unit and the next
    doubled unit, free of that unit and of line terminators, is replaced by
    a [strong] element around it, and the pass goes on after it; an opening
    that is never closed is left as written. *)
Theorem emphasis_pass (x : N) (pre inner post : jsstring)
        (Hpre : forall c, In c pre -> c <> x)
        (Hinner : forall c, In c inner -> c <> x /\ isLineTerminator c = false) :
  replaceAll (emphasisAt x) 0 (pre ++ [x; x] ++ inner ++ [x; x] ++ post)
  = pre ++ strongOpen ++ inner ++ js "</strong>"
    ++ replaceAll (emphasisAt x) 0 post
  /\ ((forall c, In c post -> c <> x) ->
      replaceAll (emphasisAt x) 0 (pre ++ [x; x] ++ post) = pre ++ [x; x] ++ post).
Proof.
  assert (Skip : forall c tail, c <> x -> emphasisAt x (c :: tail) = None).
  { intros c tail N. unfold emphasisAt. cbn [isPrefix].
    rewrite (proj2 (N.eqb_neq x c)) by congruence. reflexivity. }
  split.
  - rewrite replaceAll_pass by (intros c tail I; apply Skip, Hpre, I).
    f_equal.
    change ([x; x] ++ inner ++ [x; x] ++ post)
      with (x :: x :: (inner ++ [x; x] ++ post)).
    assert (M : emphasisAt x (x :: x :: (inner ++ [x; x] ++ post))
                = Some (S (S (List.length inner + 2)),
                        strongOpen ++ inner ++ js "</strong>")).
    { unfold emphasisAt. cbn [isPrefix skipn]. rewrite N.eqb_refl. cbn [andb].
      rewrite (lazyUntil_found [x; x] inner post x [x] eq_refl Hinner).
      reflexivity. }
    rewrite (replaceAll_hit _ _ _ _ _ M).
    assert (K : skipn (S (List.length inner + 2)) (x :: (inner ++ [x; x] ++ post)) = post).
    { cbn [skipn]. rewrite skipn_app, skipn_all2 by lia.
      replace (List.length inner + 2 - List.length inner)%nat with 2%nat by lia.
      reflexivity. }
    rewrite K, <- !app_assoc. reflexivity.
  - intros Hpost.
    rewrite replaceAll_pass by (intros c tail I; apply Skip, Hpre, I).
    f_equal. cbn [app]. rewrite replaceAll_cons.
    assert (M : emphasisAt x (x :: x :: post) = None).
    { unfold emphasisAt. cbn [isPrefix skipn]. rewrite N.eqb_refl. cbn [andb].
      rewrite (lazyUntil_open [x; x] post x [x] eq_refl Hpost). reflexivity. }
    rewrite M. f_equal. rewrite replaceAll_cons.
    assert (M2 : emphasisAt x (x :: post) = None).
    { unfold emphasisAt. destruct post as [|c post];
        [ cbn [isPrefix]; rewrite N.eqb_refl; reflexivity | ].
      cbn [isPrefix]. rewrite N.eqb_refl.
      rewrite (proj2 (N.eqb_neq x c))
        by (intros E; apply (Hpost c (or_introl eq_refl)); congruence).
      reflexivity. }
    rewrite M2. f_equal.
    apply replaceAll_none. intros k.
    destruct (skipn k post) as [|c tail] eqn:E; [ reflexivity | ].
    apply Skip. apply Hpost. apply (in_skipn c post k). rewrite E. left. reflexivity.
Qed.

Lemma emphasis_pass_witness :
  replaceAll (emphasisAt 42) 0 (js "pay " ++ js "**" ++ js "online" ++ js "**" ++ js " now")
  = js "pay " ++ strongOpen ++ js "online" ++ js "</strong>" ++ js " now".
Proof.
  refine (proj1 (emphasis_pass 42 (js "pay ") (js "online") (js " now") _ _)).
  - intros c I. vm_compute in I.
    destruct I as [<-|[<-|[<-|[<-|[]]]]]; discriminate.
  - intros c I. vm_compute in I.
    destruct I as [<-|[<-|[<-|[<-|[<-|[<-|[]]]]]]]; split;
      try discriminate; reflexivity.
Defined.

(** ** The fallback and the store *)

Lemma guest_fallback_witness :
  user (state (timeout 0 (fold_left (fun w p => mutation p w) [blankPage; blankPage]
                            (startUserDetection blankPage (freshWorld None)))))
  = Some (js "Guest").
Proof.
  refine (proj1 (proj2 (guest_fallback blankPage [blankPage; blankPage]
                          (freshWorld None) eq_refl eq_refl _))).
  intros p [<-|[<-|[]]]; reflexivity.
Defined.

(** X25. Once the store holds the page's state, it keeps holding it: every
    handler that changes the state saves it before it returns, so after
    any sequence of operations the stored session is the session of the
    page. *)
Theorem store_follows_state (ops : list Op) (w : World)
        (Hsync : store w = Some (state w)) :
  store (run ops w) = Some (state (run ops w)).
Proof.
  revert w Hsync. unfold run.
  induction ops as [|op l IH]; intros w H; [ exact H | ].
  cbn [fold_left]. apply IH, apply_in_sync, H.
Qed.

Lemma store_follows_state_witness :
  store (run [OpSend (Reply true (js "ok")); OpDragStart headerDown; OpDrag farMove;
              OpDragEnd; OpLogout twoNamesPage] raviWorld)
  = Some (state (run [OpSend (Reply true (js "ok")); OpDragStart headerDown;
                      OpDrag farMove; OpDragEnd; OpLogout twoNamesPage] raviWorld)).
Proof.
  exact (store_follows_state
           [OpSend (Reply true (js "ok")); OpDragStart headerDown; OpDrag farMove;
            OpDragEnd; OpLogout twoNamesPage] raviWorld eq_refl).
Defined.
